(** * docctl: transmittal validation and reconciliation

    A shallow embedding of [docctl.py] and the properties of its
    validation / reconciliation engine.

    Conventions of the embedding.
    - Text is a [string] of ASCII code points; [upper] and [lower] act on
      the letters a-z / A-Z, and whitespace is what Python's [str.strip]
      removes in that range (code points 9-13, 28-31 and 32).
    - A spreadsheet cell holds [VNone], text, an integer or a date value.
      The date type, its printer ([str]) and the [dateutil] parser are
      external to the program and are parameters of the model.
    - A workbook is a header row followed by data rows; a data row that is
      shorter than the header stands for one padded with empty cells.
    - Python exceptions are values of type [error]; code that raises
      returns in [result], code that also mutates the file system runs in
      the state-and-exception monad [M]. *)

From Stdlib Require Import ZArith Lia Ascii String DecimalString DecimalNat DecimalZ.
From Stdlib Require Import Permutation.
From stdpp Require Import gmap strings list fin_maps sorting.

Set Default Proof Using "Type".

(** ** Text primitives (Python [str] methods) *)

Module Text.

(** [c.isspace()] on an ASCII code point. *)
Definition isspace (c : ascii) : bool :=
  let n := N_of_ascii c in
  ((9 <=? n) && (n <=? 13) || (28 <=? n) && (n <=? 32))%N.

Definition upper_char (c : ascii) : ascii :=
  let n := N_of_ascii c in
  if ((97 <=? n) && (n <=? 122))%N then ascii_of_N (n - 32) else c.

Definition lower_char (c : ascii) : ascii :=
  let n := N_of_ascii c in
  if ((65 <=? n) && (n <=? 90))%N then ascii_of_N (n + 32) else c.

Fixpoint map_chars (f : ascii -> ascii) (s : string) : string :=
  match s with
  | EmptyString => EmptyString
  | String c s' => String (f c) (map_chars f s')
  end.

(** [s.upper()] and [s.lower()] *)
Definition upper : string -> string := map_chars upper_char.
Definition lower : string -> string := map_chars lower_char.

(** [s.lstrip(chars)], with the stripped characters given as a test *)
Fixpoint lstrip_with (p : ascii -> bool) (s : string) : string :=
  match s with
  | EmptyString => EmptyString
  | String c s' => if p c then lstrip_with p s' else s
  end.

(** [s.rstrip(chars)] *)
Fixpoint rstrip_with (p : ascii -> bool) (s : string) : string :=
  match s with
  | EmptyString => EmptyString
  | String c s' =>
      match rstrip_with p s' with
      | EmptyString => if p c then EmptyString else String c EmptyString
      | r => String c r
      end
  end.

(** [s.strip()] *)
Definition strip (s : string) : string :=
  rstrip_with isspace (lstrip_with isspace s).

Definition is_semicolon (c : ascii) : bool :=
  if ascii_dec c ";" then true else false.

Fixpoint prefixb (p s : string) : bool :=
  match p, s with
  | EmptyString, _ => true
  | String a p', String b s' => if ascii_dec a b then prefixb p' s' else false
  | String _ _, EmptyString => false
  end.

(** [sub in s] *)
Fixpoint contains (sub s : string) : bool :=
  prefixb sub s ||
  match s with
  | EmptyString => false
  | String _ s' => contains sub s'
  end.

Fixpoint semis (n : nat) : string :=
  match n with
  | O => EmptyString
  | S n' => String ";" (semis n')
  end.

Fixpoint last_char (s : string) : option ascii :=
  match s with
  | EmptyString => None
  | String c EmptyString => Some c
  | String _ s' => last_char s'
  end.

(** [sep.join(parts)] *)
Fixpoint join (sep : string) (parts : list string) : string :=
  match parts with
  | [] => EmptyString
  | [p] => p
  | p :: rest => p +:+ sep +:+ join sep rest
  end.

(** Removal of exactly one trailing character [c], when there is one. *)
Fixpoint drop_one_trailing (c : ascii) (s : string) : string :=
  match s with
  | EmptyString => EmptyString
  | String a EmptyString => if ascii_dec a c then EmptyString else s
  | String a s' => String a (drop_one_trailing c s')
  end.

End Text.

(** ** Header normalisation *)

(** [normalize_header]: [value.strip().rstrip(";").upper()] *)
Definition normalize_header (value : string) : string :=
  Text.upper (Text.rstrip_with Text.is_semicolon (Text.strip value)).

(** The normalisation as worded in the design text: trim, strip one
    trailing semicolon, uppercase. Only used for comparison with
    [normalize_header]. *)
Definition normalize_header_one_semicolon (value : string) : string :=
  Text.upper (Text.drop_one_trailing ";" (Text.strip value)).

Example normalize_header_title : normalize_header "  Title; " = "TITLE".
Proof. reflexivity. Qed.

Example normalize_header_inner_space : normalize_header "Title ;" = "TITLE ".
Proof. reflexivity. Qed.

(** ** Cell values, exceptions, results *)

(** The value of a spreadsheet cell ([cell.value]). *)
Inductive value (datetime : Type) : Type :=
| VNone
| VStr (s : string)
| VInt (z : Z)
| VDate (d : datetime).
Arguments VNone {datetime}.
Arguments VStr {datetime} s.
Arguments VInt {datetime} z.
Arguments VDate {datetime} d.

(** The exceptions the program raises or meets. *)
Inductive error : Type :=
| VersionEmpty                         (* ValueError("VERSION is empty") *)
| DocNumberEmpty                       (* ValueError("DOCUMENT NUMBER 1 is empty") *)
| DateEmpty                            (* ValueError("DATE is empty") *)
| InvalidDate (text : string)          (* ValueError("Invalid DATE ...") *)
| HeaderEmptyCells                     (* ValueError("Header row contains empty cells") *)
| MissingColumn (expected : string)    (* ValueError("Missing required column ...") *)
| HeaderMismatch                       (* ValueError("Header mismatch in ...") *)
| RequiredFieldEmpty (field : string)  (* ValueError("Required field ... is empty") *)
| DuplicateVersion (doc version : string) (* ValueError("Duplicate version ...") *)
| NoValidRows                          (* ValueError("Transmittal contains no valid rows") *)
| ValidationErrors                     (* ValueError("Transmittal rejected due to validation errors") *)
| AttributeError                       (* [.strip()] on a cell that is not text *)
| KeyError (key : string)
| InvalidFile                          (* [load_workbook] on a file that is no workbook *)
| IsADirectory                         (* [shutil.copy2] / [load_workbook] on a directory *)
| FileNotFound
| LoopBudget.                          (* fuel of the suffix search exhausted *)

Inductive result (A : Type) : Type :=
| Ok (a : A)
| Raise (e : error).
Arguments Ok {A} a.
Arguments Raise {A} e.

Definition rbind {A B} (r : result A) (k : A -> result B) : result B :=
  match r with
  | Ok a => k a
  | Raise e => Raise e
  end.

Declare Scope result_scope.
Delimit Scope result_scope with result.
Notation "x <- r ;; k" := (rbind r (fun x => k))
  (at level 100, r at next level, right associativity) : result_scope.
Notation "r ;;; k" := (rbind r (fun _ => k))
  (at level 100, right associativity) : result_scope.

(** [[f(x) for x in xs]] where [f] may raise: the first failure wins. *)
Fixpoint rmap {A B} (f : A -> result B) (xs : list A) : result (list B) :=
  match xs with
  | [] => Ok []
  | x :: rest =>
      (y <- f x ;; ys <- rmap f rest ;; Ok (y :: ys))%result
  end.

(** A workbook's active sheet: the first row and the rows below it. *)
Record table (datetime : Type) : Type := Table {
  header : list (value datetime);
  body : list (list (value datetime))
}.
Arguments Table {datetime} header body.
Arguments header {datetime} t.
Arguments body {datetime} t.

(** What a path of the file tree holds: a workbook or other data. *)
Inductive content (datetime : Type) : Type :=
| Sheet (t : table datetime)
| Data (bytes : string).
Arguments Sheet {datetime} t.
Arguments Data {datetime} bytes.

(** An entry of a transmittal folder or of the mirror. *)
Inductive entry (datetime : Type) : Type :=
| File (c : content datetime)
| Dir.
Arguments File {datetime} c.
Arguments Dir {datetime}.

Definition EXPECTED_HEADERS : list string :=
  [ "TRANSMITTAL NUMBER"; "TRANSMITTAL NAME"; "DATE"; "ITEM";
    "DOCUMENT NUMBER 1"; "DOCUMENT NUMBER 2"; "TITLE"; "VERSION";
    "DOCUMENT STATE"; "ISSUE OBJECTIVE"; "HOLD LIST"; "ISSUED BY";
    "ISSUED TO" ].

Definition DATABASE_HEADERS : list string := EXPECTED_HEADERS ++ ["FILENAMES"].

(** The members of the set [REQUIRED_FIELDS]. *)
Definition REQUIRED_FIELDS : list string :=
  [ "TRANSMITTAL NUMBER"; "DATE"; "ITEM"; "DOCUMENT NUMBER 1"; "TITLE";
    "VERSION" ].

(** [str(n)] for an integer. *)
Definition str_int (z : Z) : string := NilZero.string_of_int (Z.to_int z).

(** [f"{counter}"] for the counter of [move_transmittal]. *)
Definition str_nat (n : nat) : string := NilZero.string_of_uint (Nat.to_uint n).

Example str_int_neg : str_int (-40) = "-40".
Proof. reflexivity. Qed.
Example str_int_zero : str_int 0 = "0".
Proof. reflexivity. Qed.
Example str_nat_12 : str_nat 12 = "12".
Proof. reflexivity. Qed.

Section Docctl.

(** The date representation, [str] on it, [dateutil.parser.parse]
    ([None] when it raises), the iteration order of the set
    [REQUIRED_FIELDS] and the files [unlink] fails on belong to the
    environment of the program. *)
Context {datetime : Type}.
Variable date_str : datetime -> string.
Variable date_parse : string -> option datetime.
Variable required_order : list string.
Variable unlink_ok : string -> bool.

Abbreviation val := (value datetime).

(** A row read from a sheet: normalised header name to cell value. *)
Abbreviation record := (gmap string (value datetime)).
Abbreviation folder := (gmap string (entry datetime)).

(** [str(value)] *)
Definition py_str (v : val) : string :=
  match v with
  | VNone => "None"
  | VStr s => s
  | VInt z => str_int z
  | VDate d => date_str d
  end.

(** [value is None or str(value).strip() == ""] *)
Definition is_empty_field (v : val) : bool :=
  match v with
  | VNone => true
  | _ => bool_decide (Text.strip (py_str v) = "")
  end.

(** [cell.value in (None, "")] *)
Definition is_blank (v : val) : bool :=
  match v with
  | VNone => true
  | VStr s => bool_decide (s = "")
  | _ => false
  end.

Definition normalize_version (v : val) : result string :=
  if is_empty_field v then Raise VersionEmpty
  else Ok (Text.strip (py_str v)).

Definition normalize_doc_number (v : val) : result string :=
  if is_empty_field v then Raise DocNumberEmpty
  else Ok (Text.lower (Text.strip (py_str v))).

Definition coerce_date (v : val) : result val :=
  match v with
  | VDate d => Ok (VDate d)
  | VNone => Raise DateEmpty
  | _ =>
      let text := Text.strip (py_str v) in
      if bool_decide (text = "") then Raise DateEmpty
      else match date_parse text with
           | Some d => Ok (VDate d)
           | None => Raise (InvalidDate text)
           end
  end.

(** [raw.get(key)] and [raw[key]] *)
Definition dict_get (raw : record) (key : string) : val :=
  default VNone (raw !! key).

Definition dict_item (raw : record) (key : string) : result val :=
  match raw !! key with
  | Some v => Ok v
  | None => Raise (KeyError key)
  end.

(** [{k: v for k, v in pairs}] on top of [acc]: later pairs overwrite. *)
Definition dict_of (pairs : list (string * val)) : record :=
  foldl (fun acc kv => <[kv.1 := kv.2]> acc) ∅ pairs.

(** [normalize_header(h)] on a header cell; text only. *)
Definition header_name (h : val) : result string :=
  match h with
  | VStr s => Ok (normalize_header s)
  | _ => Raise AttributeError
  end.

(** [normalize_header(c.value or "")] *)
Definition header_name_or_empty (h : val) : result string :=
  match h with
  | VNone => Ok (normalize_header "")
  | VStr s => Ok (normalize_header s)
  | VInt z => if bool_decide (z = 0%Z) then Ok (normalize_header "")
              else Raise AttributeError
  | VDate _ => Raise AttributeError
  end.

Definition is_none (v : val) : bool :=
  match v with VNone => true | _ => false end.

Fixpoint first_missing (expected names : list string) : option string :=
  match expected with
  | [] => None
  | e :: rest =>
      if bool_decide (e ∈ names) then first_missing rest names else Some e
  end.

Definition read_sheet_rows (sheet : table datetime) : result (list record) :=
  let headers := header sheet in
  if existsb is_none headers then Raise HeaderEmptyCells else
  (names <- rmap header_name headers ;;
   match first_missing EXPECTED_HEADERS names with
   | Some expected => Raise (MissingColumn expected)
   | None =>
       Ok (omap (fun row : list val =>
                   if forallb is_blank row then None
                   else Some (dict_of (zip names row)))
             (body sheet))
   end)%result.

Definition is_file (e : entry datetime) : bool :=
  match e with File _ => true | Dir => false end.

(** The names [find_matching_files] collects, before sorting. *)
Definition matching_entry (doc_number log_file : string)
    (ne : string * entry datetime) : bool :=
  negb (bool_decide (ne.1 = log_file) || negb (is_file ne.2))
  && Text.contains doc_number (Text.lower ne.1).

Definition find_matching_files (transmittal_dir : folder)
    (doc_number log_file : string) : list string :=
  merge_sort String.le
    (map fst (filter (fun ne => matching_entry doc_number log_file ne = true)
                (map_to_list transmittal_dir))).

Record TransmittalRow : Type := {
  raw : record;
  normalized_doc : string;
  normalized_version : string;
  filenames : list string
}.

(** The loop over [REQUIRED_FIELDS]. *)
Fixpoint check_required (fields : list string) (r : record) : result unit :=
  match fields with
  | [] => Ok tt
  | field :: rest =>
      if is_empty_field (dict_get r field)
      then Raise (RequiredFieldEmpty field)
      else check_required rest r
  end.

(** The body of the per-row [try] of [process_transmittal]. *)
Definition validate_row (transmittal_dir : folder) (log_file : string)
    (existing_versions : gset (string * string)) (r : record)
    : result TransmittalRow :=
  (check_required required_order r ;;;
   doc_cell <- dict_item r "DOCUMENT NUMBER 1" ;;
   ndoc <- normalize_doc_number doc_cell ;;
   ver_cell <- dict_item r "VERSION" ;;
   nver <- normalize_version ver_cell ;;
   if bool_decide ((ndoc, Text.lower nver) ∈ existing_versions)
   then Raise (DuplicateVersion (py_str doc_cell) (py_str ver_cell))
   else
     date_cell <- dict_item r "DATE" ;;
     d <- coerce_date date_cell ;;
     Ok {| raw := <["DATE" := d]> r;
           normalized_doc := ndoc;
           normalized_version := nver;
           filenames := find_matching_files transmittal_dir ndoc log_file |})%result.

(** The loop over [enumerate(raw_rows, start=2)] with its two
    accumulators. *)
Fixpoint validate_rows (transmittal_dir : folder) (log_file : string)
    (existing_versions : gset (string * string))
    (raw_rows : list record) (idx : nat)
    (processed_rows : list TransmittalRow) (errors : list (nat * error))
    : list TransmittalRow * list (nat * error) :=
  match raw_rows with
  | [] => (processed_rows, errors)
  | r :: rest =>
      match validate_row transmittal_dir log_file existing_versions r with
      | Ok row =>
          validate_rows transmittal_dir log_file existing_versions rest
            (S idx) (processed_rows ++ [row]) errors
      | Raise exc =>
          validate_rows transmittal_dir log_file existing_versions rest
            (S idx) processed_rows (errors ++ [(idx, exc)])
      end
  end.

(** ** The project tree and the monad of the stateful code *)

(** The two persistent tables under [Reports], the mirror, and the three
    roots holding transmittal folders. *)
Record fs : Type := {
  database : option (content datetime);
  doc_list : option (content datetime);
  current : folder;
  pending : gmap string folder;
  accepted : gmap string folder;
  rejected : gmap string folder
}.

Inductive store : Type := Database | DocList.
Inductive root : Type := AcceptedRoot | RejectedRoot.

Definition read_store (p : store) (s : fs) : option (content datetime) :=
  match p with Database => database s | DocList => doc_list s end.

Definition write_store (p : store) (c : content datetime) (s : fs) : fs :=
  match p with
  | Database =>
      {| database := Some c; doc_list := doc_list s; current := current s;
         pending := pending s; accepted := accepted s; rejected := rejected s |}
  | DocList =>
      {| database := database s; doc_list := Some c; current := current s;
         pending := pending s; accepted := accepted s; rejected := rejected s |}
  end.

Definition read_root (r : root) (s : fs) : gmap string folder :=
  match r with AcceptedRoot => accepted s | RejectedRoot => rejected s end.

Definition set_current (c : folder) (s : fs) : fs :=
  {| database := database s; doc_list := doc_list s; current := c;
     pending := pending s; accepted := accepted s; rejected := rejected s |}.

(** [shutil.move(src, candidate)] for a folder of the pending root. *)
Definition relocate (name candidate : string) (d : folder) (r : root) (s : fs) : fs :=
  match r with
  | AcceptedRoot =>
      {| database := database s; doc_list := doc_list s; current := current s;
         pending := delete name (pending s);
         accepted := <[candidate := d]> (accepted s); rejected := rejected s |}
  | RejectedRoot =>
      {| database := database s; doc_list := doc_list s; current := current s;
         pending := delete name (pending s);
         accepted := accepted s; rejected := <[candidate := d]> (rejected s) |}
  end.

(** State and exceptions: what was written before a [raise] stays. *)
Definition M (A : Type) : Type := fs -> result A * fs.

Definition ret {A} (a : A) : M A := fun s => (Ok a, s).
Definition raise {A} (e : error) : M A := fun s => (Raise e, s).
Definition lift {A} (r : result A) : M A := fun s => (r, s).
Definition gets {A} (f : fs -> A) : M A := fun s => (Ok (f s), s).
Definition modify (f : fs -> fs) : M unit := fun s => (Ok tt, f s).
Definition bind {A B} (m : M A) (k : A -> M B) : M B :=
  fun s => match m s with
           | (Ok a, s') => k a s'
           | (Raise e, s') => (Raise e, s')
           end.

Declare Scope fs_scope.
Delimit Scope fs_scope with fs.
Notation "x <- m ;; k" := (bind m (fun x => k))
  (at level 100, m at next level, right associativity) : fs_scope.
Notation "m ;;; k" := (bind m (fun _ => k))
  (at level 100, right associativity) : fs_scope.

(** ** The tabular store *)

Definition load_workbook (c : content datetime) : result (table datetime) :=
  match c with
  | Sheet t => Ok t
  | Data _ => Raise InvalidFile
  end.

Definition ensure_workbook (path : store) (headers : list string) : M (table datetime) :=
  (stored <- gets (read_store path) ;;
   match stored with
   | Some c =>
       sheet <- lift (load_workbook c) ;;
       existing_headers <- lift (rmap header_name_or_empty (header sheet)) ;;
       if bool_decide (existing_headers = map normalize_header headers)
       then ret sheet
       else raise HeaderMismatch
   | None =>
       let sheet := Table (map VStr headers) [] in
       modify (write_store path (Sheet sheet)) ;;;
       ret sheet
   end)%fs.

(** [{h: idx for idx, h in enumerate(headers)}[key]]: the last position. *)
Fixpoint last_index (key : string) (headers : list string) : option nat :=
  match headers with
  | [] => None
  | h :: rest =>
      match last_index key rest with
      | Some i => Some (S i)
      | None => if bool_decide (h = key) then Some 0 else None
      end
  end.

(** [row[i].value]: the rows of a sheet span all its columns, so a cell
    the row does not store reads as [None]. *)
Definition row_cell (row : list val) (i : nat) : val :=
  default VNone (row !! i).

(** The loop of [load_existing_versions] over the data rows. *)
Fixpoint collect_versions (doc_idx ver_idx : nat) (rows : list (list val))
    (seen : gset (string * string)) : result (gset (string * string)) :=
  match rows with
  | [] => Ok seen
  | row :: rest =>
      let doc_val := row_cell row doc_idx in
      let ver_val := row_cell row ver_idx in
      if is_blank doc_val || is_blank ver_val
      then collect_versions doc_idx ver_idx rest seen
      else
        (d <- normalize_doc_number doc_val ;;
         v <- normalize_version ver_val ;;
         collect_versions doc_idx ver_idx rest ({[ (d, Text.lower v) ]} ∪ seen))%result
  end.

Definition load_existing_versions (db : option (content datetime))
    : result (gset (string * string)) :=
  match db with
  | None => Ok ∅
  | Some c =>
      (sheet <- load_workbook c ;;
       headers <- rmap header_name_or_empty (header sheet) ;;
       match last_index "DOCUMENT NUMBER 1" headers, last_index "VERSION" headers with
       | Some doc_idx, Some ver_idx =>
           collect_versions doc_idx ver_idx (body sheet) ∅
       | _, _ => Raise HeaderMismatch
       end)%result
  end.

(** The cells [append_to_database] writes for one row. *)
Definition database_values (row : TransmittalRow) : list val :=
  map (dict_get (raw row)) EXPECTED_HEADERS
    ++ [VStr (Text.join "; " (filenames row))].

Definition sheet_append (sheet : table datetime) (values : list val) : table datetime :=
  Table (header sheet) (body sheet ++ [values]).

Definition append_to_database (rows : list TransmittalRow) : M unit :=
  (sheet <- ensure_workbook Database DATABASE_HEADERS ;;
   let sheet' := foldl (fun sh row => sheet_append sh (database_values row)) sheet rows in
   modify (write_store Database (Sheet sheet')))%fs.

(** [existing[key] = rec] on an insertion-ordered [dict]. *)
Fixpoint odict_set (key : string) (rec : record) (d : list (string * record))
    : list (string * record) :=
  match d with
  | [] => [(key, rec)]
  | (k, r) :: rest =>
      if bool_decide (k = key) then (key, rec) :: rest
      else (k, r) :: odict_set key rec rest
  end.

(** The first loop of [update_document_list]. *)
Fixpoint load_document_list (head : list val) (rows : list (list val))
    (existing : list (string * record)) : result (list (string * record)) :=
  match rows with
  | [] => Ok existing
  | row :: rest =>
      if forallb is_blank row then load_document_list head rest existing
      else
        (pairs <- rmap (fun hc : val * val =>
                          h <- header_name hc.1 ;; Ok (h, hc.2)) (zip head row) ;;
         let rec := dict_of pairs in
         doc_cell <- dict_item rec "DOCUMENT NUMBER 1" ;;
         doc_key <- normalize_doc_number doc_cell ;;
         load_document_list head rest (odict_set doc_key rec existing))%result
  end.

Definition document_values (rec : record) : list val :=
  map (dict_get rec) EXPECTED_HEADERS.

Definition update_document_list (rows : list TransmittalRow) : M unit :=
  (sheet <- ensure_workbook DocList EXPECTED_HEADERS ;;
   existing <- lift (load_document_list (header sheet) (body sheet) []) ;;
   let existing' :=
     foldl (fun d row => odict_set (normalized_doc row) (raw row) d) existing rows in
   let sheet' := Table (header sheet) (map (fun kr => document_values kr.2) existing') in
   modify (write_store DocList (Sheet sheet')))%fs.

(** ** Relocation *)

(** The [while candidate.exists()] loop, from suffix [counter] on. *)
Fixpoint next_free (taken : string -> bool) (name : string) (counter fuel : nat)
    : option string :=
  match fuel with
  | O => None
  | S fuel' =>
      let candidate := name +:+ "-" +:+ str_nat counter in
      if taken candidate then next_free taken name (S counter) fuel'
      else Some candidate
  end.

(** The name [move_transmittal] settles on. The loop is given one more
    iteration than the destination has entries. *)
Definition choose_candidate (dest : gmap string folder) (name : string) : option string :=
  let taken := fun n => bool_decide (is_Some (dest !! n)) in
  if taken name then next_free taken name 1 (S (size dest)) else Some name.

Definition move_transmittal (src : string) (dest_root : root) : M string :=
  (dest <- gets (read_root dest_root) ;;
   match choose_candidate dest src with
   | None => raise LoopBudget
   | Some candidate =>
       moved <- gets (fun s => pending s !! src) ;;
       match moved with
       | None => raise FileNotFound
       | Some d =>
           modify (relocate src candidate d dest_root) ;;;
           ret candidate
       end
   end)%fs.

(** ** The mirror of current files *)

(** The files the inner loop of [sync_current_files] removes. *)
Definition stale (doc_key : string) (ne : string * entry datetime) : bool :=
  is_file ne.2 && Text.contains doc_key (Text.lower ne.1) && unlink_ok ne.1.

Definition remove_stale (doc_key : string) (cur : folder) : folder :=
  filter (fun ne => stale doc_key ne = false) cur.

(** [shutil.copy2(src, dest)]; a destination that is a directory
    receives the file inside it, which the flat mirror does not show. *)
Definition copy_into (fname : string) (c : content datetime) (cur : folder) : folder :=
  match cur !! fname with
  | Some Dir => cur
  | _ => <[fname := File c]> cur
  end.

(** The loop over [row.filenames]. *)
Fixpoint copy_files (transmittal_dir : folder) (fnames : list string) : M unit :=
  match fnames with
  | [] => ret tt
  | fname :: rest =>
      match transmittal_dir !! fname with
      | None => copy_files transmittal_dir rest
      | Some Dir => raise IsADirectory
      | Some (File c) =>
          (modify (fun s => set_current (copy_into fname c (current s)) s) ;;;
           copy_files transmittal_dir rest)%fs
      end
  end.

Fixpoint sync_rows (transmittal_dir : folder) (rows : list TransmittalRow)
    (processed_docs : gset string) : M unit :=
  match rows with
  | [] => ret tt
  | row :: rest =>
      let doc_key := normalized_doc row in
      ((if bool_decide (doc_key ∈ processed_docs) then ret tt
        else modify (fun s => set_current (remove_stale doc_key (current s)) s)) ;;;
       copy_files transmittal_dir (filenames row) ;;;
       sync_rows transmittal_dir rest ({[ doc_key ]} ∪ processed_docs))%fs
  end.

Definition sync_current_files (transmittal_dir : folder) (rows : list TransmittalRow)
    : M unit :=
  sync_rows transmittal_dir rows ∅.

(** ** Processing one transmittal *)

Definition load_log (e : entry datetime) : result (table datetime) :=
  match e with
  | File c => load_workbook c
  | Dir => Raise IsADirectory
  end.

(** What the rows loop leaves, turned into the decision of lines 272-278. *)
Definition decide_rows (processed_rows : list TransmittalRow)
    (errors : list (nat * error)) : result (list TransmittalRow) :=
  match processed_rows with
  | [] => Raise NoValidRows
  | _ :: _ =>
      match errors with
      | [] => Ok processed_rows
      | _ :: _ => Raise ValidationErrors
      end
  end.

(** The outer [try] block of [process_transmittal]. *)
Definition validate_transmittal (transmittal_dir : folder) (log_file : string)
    (log : entry datetime) (existing_versions : gset (string * string))
    : result (list TransmittalRow) :=
  (sheet <- load_log log ;;
   raw_rows <- read_sheet_rows sheet ;;
   let '(processed_rows, errors) :=
     validate_rows transmittal_dir log_file existing_versions raw_rows 2 [] [] in
   decide_rows processed_rows errors)%result.

Inductive verdict : Type :=
| Accepted (moved_path : string)
| Rejected (moved_path : string).

Definition process_transmittal (name : string) : M verdict :=
  (dir <- gets (fun s => default ∅ (pending s !! name)) ;;
   let log_file := name +:+ ".xlsx" in
   match dir !! log_file with
   | None =>
       moved <- move_transmittal name RejectedRoot ;;
       ret (Rejected moved)
   | Some log =>
       db <- gets database ;;
       existing_versions <- lift (load_existing_versions db) ;;
       match validate_transmittal dir log_file log existing_versions with
       | Raise _ =>
           moved <- move_transmittal name RejectedRoot ;;
           ret (Rejected moved)
       | Ok processed_rows =>
           append_to_database processed_rows ;;;
           update_document_list processed_rows ;;;
           sync_current_files dir processed_rows ;;;
           moved <- move_transmittal name AcceptedRoot ;;
           ret (Accepted moved)
       end
   end)%fs.

(** ** The run over the pending root *)

Fixpoint process_all (names : list string) : M unit :=
  match names with
  | [] => ret tt
  | name :: rest => (process_transmittal name ;;; process_all rest)%fs
  end.

Definition process_project : M unit :=
  (transmittals <- gets (fun s => map fst (map_to_list (pending s))) ;;
   process_all (merge_sort String.le transmittals))%fs.

(** * Properties *)

(** ** Text *)

Fixpoint all_chars (p : ascii -> bool) (s : string) : bool :=
  match s with
  | EmptyString => true
  | String c s' => p c && all_chars p s'
  end.

Definition first_char (s : string) : option ascii :=
  match s with
  | EmptyString => None
  | String c _ => Some c
  end.

(** No character at this end, or one that [p] rejects. *)
Definition stops (p : ascii -> bool) (c : option ascii) : Prop :=
  match c with
  | None => True
  | Some a => p a = false
  end.

Lemma string_app_cons c s t : String c s +:+ t = String c (s +:+ t).
Proof. reflexivity. Qed.

Lemma string_app_nil t : EmptyString +:+ t = t.
Proof. reflexivity. Qed.

Lemma lstrip_with_spec p s :
  exists l, s = l +:+ Text.lstrip_with p s
            /\ all_chars p l = true
            /\ stops p (first_char (Text.lstrip_with p s)).
Proof.
  induction s as [|c s IH]; simpl.
  - by exists EmptyString.
  - destruct (p c) eqn:Hc.
    + destruct IH as (l & Hl & Hall & Hstop).
      exists (String c l). rewrite string_app_cons. simpl.
      rewrite Hc, Hall. split; [by f_equal|done].
    + exists EmptyString. by rewrite string_app_nil.
Qed.

Lemma rstrip_with_spec p s :
  exists t, s = Text.rstrip_with p s +:+ t
            /\ all_chars p t = true
            /\ stops p (Text.last_char (Text.rstrip_with p s)).
Proof.
  induction s as [|c s IH]; simpl.
  - by exists EmptyString.
  - destruct IH as (t & Hs & Hall & Hstop).
    destruct (Text.rstrip_with p s) as [|a r] eqn:Hr.
    + rewrite string_app_nil in Hs. subst t. destruct (p c) eqn:Hc.
      * exists (String c s). rewrite string_app_nil. simpl. by rewrite Hc, Hall.
      * exists s. by rewrite string_app_cons, string_app_nil.
    + exists t. rewrite string_app_cons. split; [by f_equal|]. split; [done|].
      simpl in *. exact Hstop.
Qed.

Lemma all_semicolons t :
  all_chars Text.is_semicolon t = true -> t = Text.semis (String.length t).
Proof.
  induction t as [|c t IH]; simpl; [done|].
  unfold Text.is_semicolon at 1. destruct (ascii_dec c ";") as [->|]; [|done].
  simpl. intros H. by rewrite <- IH.
Qed.

Lemma rstrip_with_first p s c :
  first_char s = Some c -> p c = false ->
  first_char (Text.rstrip_with p s) = Some c.
Proof.
  destruct s as [|a s]; simpl; [done|]. intros [= ->] Hc.
  destruct (Text.rstrip_with p s); [by rewrite Hc|done].
Qed.

(** [strip] removes a run of whitespace at each end and stops at the first
    character that is not whitespace. *)
Lemma strip_spec s :
  exists l r, s = l +:+ Text.strip s +:+ r
              /\ all_chars Text.isspace l = true
              /\ all_chars Text.isspace r = true
              /\ stops Text.isspace (first_char (Text.strip s))
              /\ stops Text.isspace (Text.last_char (Text.strip s)).
Proof.
  unfold Text.strip.
  destruct (lstrip_with_spec Text.isspace s) as (l & Hl & Hall & Hfirst).
  destruct (rstrip_with_spec Text.isspace (Text.lstrip_with Text.isspace s))
    as (r & Hr & Hallr & Hlast).
  exists l, r. split; [by rewrite <- Hr|]. do 2 (split; [done|]).
  split; [|done].
  destruct (Text.lstrip_with Text.isspace s) as [|c m] eqn:E; [done|].
  simpl in Hfirst.
  by rewrite (rstrip_with_first Text.isspace (String c m) c).
Qed.

(** C8, as the code has it: the header is trimmed, every trailing
    semicolon of the trimmed text is removed (not just one), and what is
    left is upper-cased. *)
Theorem normalize_header_strips_all_semicolons (s : string) :
  exists l w n r,
    s = l +:+ (w +:+ Text.semis n) +:+ r
    /\ all_chars Text.isspace l = true
    /\ all_chars Text.isspace r = true
    /\ stops Text.isspace (first_char (w +:+ Text.semis n))
    /\ stops Text.isspace (Text.last_char (w +:+ Text.semis n))
    /\ Text.last_char w <> Some ";"%char
    /\ normalize_header s = Text.upper w.
Proof.
  destruct (strip_spec s) as (l & r & Hs & Hl & Hr & Hfirst & Hlast).
  destruct (rstrip_with_spec Text.is_semicolon (Text.strip s))
    as (t & Ht & Hall & Hstop).
  apply all_semicolons in Hall.
  exists l, (Text.rstrip_with Text.is_semicolon (Text.strip s)),
    (String.length t), r.
  rewrite <- Hall, <- Ht. do 5 (split; [done|]). split; [|done].
  intros E. rewrite E in Hstop. simpl in Hstop. done.
Qed.

(** ** Relocation: the suffix search *)

Lemma to_uint_nonnil n : Nat.to_uint n <> Decimal.Nil.
Proof.
  rewrite <- (DecimalNat.Unsigned.of_to n) at 1.
  rewrite DecimalNat.Unsigned.to_of. unfold Decimal.unorm.
  by destruct (Decimal.nzhead (Nat.to_uint n)).
Qed.

Lemma str_nat_inj : Inj (=) (=) str_nat.
Proof.
  intros n m H. unfold str_nat in H.
  apply (f_equal NilZero.uint_of_string) in H.
  rewrite !NilZero.usu in H by apply to_uint_nonnil.
  apply DecimalNat.Unsigned.to_uint_inj. congruence.
Qed.

(** The [counter]-th candidate of [move_transmittal]. *)
Definition suffixed (name : string) (counter : nat) : string :=
  name +:+ "-" +:+ str_nat counter.

Lemma suffixed_inj name : Inj (=) (=) (suffixed name).
Proof.
  intros n m H. unfold suffixed in H.
  apply String.app_inj in H. apply String.app_inj in H.
  by apply str_nat_inj.
Qed.

Lemma next_free_none taken name counter fuel :
  next_free taken name counter fuel = None ->
  forall j, counter <= j < counter + fuel -> taken (suffixed name j) = true.
Proof.
  revert counter. induction fuel as [|fuel IH]; intros counter H j Hj; [lia|].
  simpl in H. fold (suffixed name counter) in H.
  destruct (taken (suffixed name counter)) eqn:Hc; [|done].
  destruct (decide (j = counter)) as [->|]; [done|].
  apply (IH (S counter)); [done|lia].
Qed.

Lemma next_free_some taken name counter fuel c :
  next_free taken name counter fuel = Some c ->
  exists k, counter <= k /\ c = suffixed name k /\ taken c = false
            /\ forall j, counter <= j < k -> taken (suffixed name j) = true.
Proof.
  revert counter. induction fuel as [|fuel IH]; intros counter H; [done|].
  simpl in H. fold (suffixed name counter) in H.
  destruct (taken (suffixed name counter)) eqn:Hc.
  - destruct (IH _ H) as (k & Hk & -> & Hfree & Hall).
    exists k. split; [lia|]. do 2 (split; [done|]).
    intros j Hj. destruct (decide (j = counter)) as [->|]; [done|].
    apply Hall. lia.
  - injection H as <-. exists counter. split; [lia|]. do 2 (split; [done|]).
    intros j Hj. lia.
Qed.

(** A destination with [size dest] entries cannot hold all of the first
    [size dest + 1] suffixed names: the search finds a name. *)
Lemma next_free_enough (dest : gmap string folder) name :
  is_Some (next_free (fun n => bool_decide (is_Some (dest !! n))) name 1
             (S (size dest))).
Proof.
  destruct (next_free _ name 1 (S (size dest))) as [c|] eqn:H; [by eexists|].
  exfalso. pose proof (next_free_none _ _ _ _ H) as Hall.
  set (cands := suffixed name <$> seq 1 (S (size dest))).
  assert (NoDup cands) as Hnd.
  { apply (NoDup_fmap_2 (suffixed name) (Inj0 := suffixed_inj name)), NoDup_seq. }
  assert (list_to_set cands ⊆ dom dest) as Hsub.
  { intros x Hx. apply elem_of_list_to_set in Hx.
    apply list_elem_of_fmap in Hx as (j & -> & Hj).
    apply elem_of_seq in Hj. apply elem_of_dom.
    specialize (Hall j ltac:(lia)). by apply bool_decide_eq_true in Hall. }
  apply subseteq_size in Hsub.
  rewrite size_list_to_set in Hsub by done.
  rewrite size_dom in Hsub. unfold cands in Hsub.
  rewrite length_fmap, length_seq in Hsub. lia.
Qed.

Lemma choose_candidate_spec (dest : gmap string folder) name :
  exists c, choose_candidate dest name = Some c
    /\ dest !! c = None
    /\ (dest !! name = None -> c = name)
    /\ (is_Some (dest !! name) ->
        exists k, 1 <= k /\ c = suffixed name k
          /\ forall j, 1 <= j < k -> is_Some (dest !! suffixed name j)).
Proof.
  unfold choose_candidate. case_bool_decide as Hname.
  - destruct (next_free_enough dest name) as [c Hc]. exists c.
    split; [done|]. apply next_free_some in Hc as (k & Hk & -> & Hfree & Hall).
    apply bool_decide_eq_false in Hfree.
    split; [by apply eq_None_not_Some|].
    split; [intros E; rewrite E in Hname; by destruct Hname|].
    intros _. exists k. do 2 (split; [done|]).
    intros j Hj. specialize (Hall j Hj). by apply bool_decide_eq_true in Hall.
  - exists name. split; [done|]. apply eq_None_not_Some in Hname.
    do 2 (split; [done|]). intros [? E]. congruence.
Qed.

Lemma read_root_relocate name c d r s :
  read_root r (relocate name c d r s) = <[c := d]> (read_root r s).
Proof. by destruct r. Qed.

(** C9: relocating the pending folder [src] always succeeds, uses a name
    that was free at the destination, keeps every entry the destination
    had, and the name is [src] when that is free and otherwise the first
    free one among [src-1], [src-2], ... in increasing order. *)
Theorem move_transmittal_never_overwrites
    (s : fs) (src : string) (r : root) (d : folder) :
  pending s !! src = Some d ->
  exists c s',
    move_transmittal src r s = (Ok c, s')
    /\ read_root r s !! c = None
    /\ read_root r s' = <[c := d]> (read_root r s)
    /\ (forall n e, read_root r s !! n = Some e -> read_root r s' !! n = Some e)
    /\ (read_root r s !! src = None -> c = src)
    /\ (is_Some (read_root r s !! src) ->
        exists k, 1 <= k /\ c = src +:+ "-" +:+ str_nat k
          /\ forall j, 1 <= j < k ->
               is_Some (read_root r s !! (src +:+ "-" +:+ str_nat j))).
Proof.
  intros Hsrc.
  destruct (choose_candidate_spec (read_root r s) src)
    as (c & Hc & Hfree & Hsame & Hsuffix).
  exists c, (relocate src c d r s).
  split.
  { unfold move_transmittal, bind, gets, modify, ret, raise. simpl.
    by rewrite Hc, Hsrc. }
  split; [done|]. rewrite read_root_relocate. split; [done|].
  split; [|by split].
  intros n e Hn. rewrite lookup_insert_ne; [done|]. congruence.
Qed.

(** ** The version history index *)

Lemma last_index_none key headers :
  last_index key headers = None <-> key ∉ headers.
Proof.
  induction headers as [|h rest IH]; simpl.
  - split; [intros _; apply not_elem_of_nil|done].
  - destruct (last_index key rest) as [i|].
    + split; [done|]. intros Hnot. exfalso.
      assert (key ∉ rest) as Hr by (intros ?; apply Hnot; by right).
      apply IH in Hr. done.
    + case_bool_decide as Hh.
      * subst h. split; [done|]. intros Hnot. exfalso. apply Hnot. by left.
      * split; [|done]. intros _ Hin. apply elem_of_cons in Hin as [->|Hin]; [done|].
        by apply IH in Hin.
Qed.

Lemma collect_versions_app doc_idx ver_idx pre post seen :
  collect_versions doc_idx ver_idx (pre ++ post) seen =
  (seen' <- collect_versions doc_idx ver_idx pre seen ;;
   collect_versions doc_idx ver_idx post seen')%result.
Proof.
  revert seen. induction pre as [|row pre IH]; intros seen; simpl; [done|].
  destruct (is_blank _ || is_blank _); [apply IH|].
  destruct (normalize_doc_number _) as [d|]; simpl; [|done].
  destruct (normalize_version _) as [v|]; simpl; [|done].
  apply IH.
Qed.

Lemma collect_versions_not_mismatch doc_idx ver_idx rows seen :
  collect_versions doc_idx ver_idx rows seen <> Raise HeaderMismatch.
Proof.
  revert seen. induction rows as [|row rows IH]; intros seen; simpl; [done|].
  destruct (is_blank _ || is_blank _); [apply IH|].
  unfold normalize_doc_number, normalize_version.
  destruct (is_empty_field (row_cell row doc_idx)); simpl; [done|].
  destruct (is_empty_field (row_cell row ver_idx)); simpl; [done|].
  apply IH.
Qed.

(** C10: a history row whose document-number cell or version cell is
    empty ([None] or the empty text, also when the cell is not stored at
    all) leaves no trace in the index and raises nothing: the result of
    reading the table, pairs and errors alike, is the one of the table
    without that row. *)
Theorem load_existing_versions_skips_blank
    (head : list val) (names : list string) (doc_idx ver_idx : nat)
    (pre post : list (list val)) (row : list val) :
  rmap header_name_or_empty head = Ok names ->
  last_index "DOCUMENT NUMBER 1" names = Some doc_idx ->
  last_index "VERSION" names = Some ver_idx ->
  is_blank (row_cell row doc_idx) || is_blank (row_cell row ver_idx) = true ->
  load_existing_versions (Some (Sheet (Table head (pre ++ row :: post)))) =
  load_existing_versions (Some (Sheet (Table head (pre ++ post)))).
Proof.
  intros Hnames Hdoc Hver Hblank. unfold load_existing_versions. simpl.
  rewrite Hnames. simpl. rewrite Hdoc, Hver.
  rewrite !collect_versions_app.
  destruct (collect_versions doc_idx ver_idx pre ∅) as [seen|]; simpl; [|done].
  by rewrite Hblank.
Qed.

(** A history made of such rows only gives the empty index. *)
Lemma load_existing_versions_all_blank
    (head : list val) (names : list string) (doc_idx ver_idx : nat)
    (rows : list (list val)) :
  rmap header_name_or_empty head = Ok names ->
  last_index "DOCUMENT NUMBER 1" names = Some doc_idx ->
  last_index "VERSION" names = Some ver_idx ->
  Forall (fun row => is_blank (row_cell row doc_idx)
                     || is_blank (row_cell row ver_idx) = true) rows ->
  load_existing_versions (Some (Sheet (Table head rows))) = Ok ∅.
Proof.
  intros Hnames Hdoc Hver Hall. unfold load_existing_versions. simpl.
  rewrite Hnames. simpl. rewrite Hdoc, Hver.
  induction Hall as [|row rows Hrow _ IH]; simpl; [done|]. by rewrite Hrow.
Qed.

(** ** The header contract of the two tables *)

(** A header cell that [normalize_header(c.value or "")] accepts: text, or
    a value that [or] replaces by the empty text ([None], the number 0). *)
Definition text_or_empty (h : val) : bool :=
  match h with
  | VNone | VStr _ => true
  | VInt z => bool_decide (z = 0%Z)
  | VDate _ => false
  end.

Lemma header_names_of_cells (cells : list val) :
  forallb text_or_empty cells = true ->
  exists names, rmap header_name_or_empty cells = Ok names.
Proof.
  induction cells as [|h cells IH]; simpl; [by eexists|].
  intros [Hh Hcells]%andb_true_iff. destruct (IH Hcells) as [names Hnames].
  rewrite Hnames. destruct h as [|text|z|d]; simpl in *; [by eexists..| |done].
  destruct (bool_decide (z = 0%Z)); [by eexists|done].
Qed.

(** C5, as the code has it: [ensure_workbook], through which the history
    table is appended to and the latest-version index is rewritten, opens
    an existing table only when its normalised header row equals the
    normalised expected list; when the stored header cells are all text
    or empty, the header row normalises, and any difference from the
    expected list raises the header mismatch; for such a header row
    [load_existing_versions], which builds the version history index,
    raises the header mismatch exactly when the column DOCUMENT NUMBER 1
    or the column VERSION is absent from the normalised header row. *)
Theorem header_contract
    (path : store) (headers : list string) (s : fs) (c : content datetime) :
  read_store path s = Some c ->
  (forall t' s',
      ensure_workbook path headers s = (Ok t', s') <->
      c = Sheet t' /\ s' = s
      /\ rmap header_name_or_empty (header t') = Ok (map normalize_header headers))
  /\ (forall t,
         c = Sheet t -> forallb text_or_empty (header t) = true ->
         exists names,
           rmap header_name_or_empty (header t) = Ok names
           /\ (names <> map normalize_header headers ->
               ensure_workbook path headers s = (Raise HeaderMismatch, s))
           /\ (load_existing_versions (Some c) = Raise HeaderMismatch
               <-> ~ ("DOCUMENT NUMBER 1" ∈ names /\ "VERSION" ∈ names))).
Proof.
  intros Hc. split.
  - intros t' s'. unfold ensure_workbook, bind, gets, lift, ret, raise.
    rewrite Hc. destruct c as [t|bytes]; simpl.
    + destruct (rmap header_name_or_empty (header t)) as [names|e] eqn:Hn.
      * case_bool_decide as Heq.
        -- split.
           ++ intros [= <- <-]. by rewrite Hn, Heq.
           ++ intros ([= <-] & -> & _). done.
        -- split; [done|]. intros ([= <-] & _ & Hn'). congruence.
      * split; [done|]. intros ([= <-] & _ & Hn'). congruence.
    + split; [done|]. by intros (? & _).
  - intros t -> Hcells.
    destruct (header_names_of_cells (header t) Hcells) as [names Hn].
    exists names. split; [done|]. split.
    + intros Hne. unfold ensure_workbook, bind, gets, lift, ret, raise.
      rewrite Hc. simpl. rewrite Hn. by rewrite bool_decide_eq_false_2.
    + unfold load_existing_versions. simpl. rewrite Hn. simpl.
      destruct (last_index "DOCUMENT NUMBER 1" names) as [di|] eqn:Hd.
      * destruct (last_index "VERSION" names) as [vi|] eqn:Hv.
        -- split.
           ++ intros H. by apply collect_versions_not_mismatch in H.
           ++ intros Hnot. exfalso. apply Hnot. split.
              ** destruct (decide ("DOCUMENT NUMBER 1" ∈ names)) as [|Hx]; [done|].
                 apply last_index_none in Hx. congruence.
              ** destruct (decide ("VERSION" ∈ names)) as [|Hx]; [done|].
                 apply last_index_none in Hx. congruence.
        -- split; [|done]. intros _ [_ Hin]. by apply last_index_none in Hv.
      * split; [|done]. intros _ [Hin _]. by apply last_index_none in Hd.
Qed.

(** ** Row validation *)

(** Whatever order the set [REQUIRED_FIELDS] is iterated in, it yields
    its six members. *)
Hypothesis required_order_perm : required_order ≡ₚ REQUIRED_FIELDS.

Lemma check_required_ok fields r :
  check_required fields r = Ok tt <->
  Forall (fun f => is_empty_field (dict_get r f) = false) fields.
Proof.
  induction fields as [|f rest IH]; simpl.
  - split; [by constructor|done].
  - destruct (is_empty_field (dict_get r f)) eqn:Hf.
    + split; [done|]. intros H. apply Forall_cons in H as [H _]. congruence.
    + rewrite IH. split; [by constructor|]. intros H. by apply Forall_cons in H as [_ H].
Qed.

Lemma check_required_raises fields r e :
  check_required fields r = Raise e ->
  exists f, f ∈ fields /\ e = RequiredFieldEmpty f
            /\ is_empty_field (dict_get r f) = true.
Proof.
  induction fields as [|f rest IH]; simpl; [done|].
  destruct (is_empty_field (dict_get r f)) eqn:Hf.
  - intros [= <-]. exists f. split; [by left|done].
  - intros H. destruct (IH H) as (g & Hg & He & Hempty).
    exists g. split; [by right|done].
Qed.

Lemma required_fields_ok r :
  check_required required_order r = Ok tt <->
  Forall (fun f => is_empty_field (dict_get r f) = false) REQUIRED_FIELDS.
Proof using required_order_perm.
  rewrite check_required_ok. split; intros H.
  - by rewrite <- required_order_perm.
  - by rewrite required_order_perm.
Qed.

Lemma dict_item_get r key :
  is_empty_field (dict_get r key) = false -> dict_item r key = Ok (dict_get r key).
Proof.
  unfold dict_get, dict_item. by destruct (r !! key).
Qed.

Lemma dict_item_ok r key v : dict_item r key = Ok v -> dict_get r key = v.
Proof.
  unfold dict_get, dict_item. destruct (r !! key); [|done]. by intros [= ->].
Qed.

(** The key [validate_row] looks up in the index. *)
Definition version_key (r : record) : string * string :=
  (Text.lower (Text.strip (py_str (dict_get r "DOCUMENT NUMBER 1"))),
   Text.lower (Text.strip (py_str (dict_get r "VERSION")))).

(** C3, as the code has it: a row whose (document, version) key is in
    the index never validates; the error is the duplicate-version one
    when the six required fields of the row are non-empty, since the
    required-field check comes first. *)
Theorem duplicate_version_rejected
    (transmittal_dir : folder) (log_file : string)
    (existing_versions : gset (string * string)) (r : record) :
  version_key r ∈ existing_versions ->
  (exists e, validate_row transmittal_dir log_file existing_versions r = Raise e)
  /\ (Forall (fun f => is_empty_field (dict_get r f) = false) REQUIRED_FIELDS ->
      validate_row transmittal_dir log_file existing_versions r =
      Raise (DuplicateVersion (py_str (dict_get r "DOCUMENT NUMBER 1"))
               (py_str (dict_get r "VERSION")))).
Proof using required_order_perm.
  intros Hkey. unfold version_key in Hkey. split.
  - unfold validate_row.
    destruct (check_required required_order r) as [[]|e]; simpl; [|by eexists].
    destruct (dict_item r "DOCUMENT NUMBER 1") as [dc|] eqn:Hd; simpl; [|by eexists].
    apply dict_item_ok in Hd. rewrite Hd in Hkey.
    unfold normalize_doc_number.
    destruct (is_empty_field dc); simpl; [by eexists|].
    destruct (dict_item r "VERSION") as [vc|] eqn:Hv; simpl; [|by eexists].
    apply dict_item_ok in Hv. rewrite Hv in Hkey.
    unfold normalize_version.
    destruct (is_empty_field vc); simpl; [by eexists|].
    rewrite bool_decide_eq_true_2 by done. by eexists.
  - intros Hreq. unfold validate_row.
    pose proof Hreq as Hall. apply required_fields_ok in Hreq. rewrite Hreq. simpl.
    assert (is_empty_field (dict_get r "DOCUMENT NUMBER 1") = false) as Hd.
    { eapply Forall_forall in Hall; [exact Hall|]. do 3 right; left. }
    assert (is_empty_field (dict_get r "VERSION") = false) as Hv.
    { eapply Forall_forall in Hall; [exact Hall|]. do 5 right; left. }
    rewrite (dict_item_get _ _ Hd). simpl. unfold normalize_doc_number. rewrite Hd. simpl.
    rewrite (dict_item_get _ _ Hv). simpl. unfold normalize_version. rewrite Hv. simpl.
    by rewrite bool_decide_eq_true_2.
Qed.

(** The rows that validate, and the errors of those that do not, each
    row judged on its own against one index. *)
Definition valid_rows (transmittal_dir : folder) (log_file : string)
    (existing_versions : gset (string * string)) (raw_rows : list record)
    : list TransmittalRow :=
  omap (fun r =>
          match validate_row transmittal_dir log_file existing_versions r with
          | Ok row => Some row
          | Raise _ => None
          end) raw_rows.

Fixpoint row_errors (transmittal_dir : folder) (log_file : string)
    (existing_versions : gset (string * string)) (raw_rows : list record)
    (idx : nat) : list (nat * error) :=
  match raw_rows with
  | [] => []
  | r :: rest =>
      match validate_row transmittal_dir log_file existing_versions r with
      | Ok _ => row_errors transmittal_dir log_file existing_versions rest (S idx)
      | Raise exc =>
          (idx, exc)
            :: row_errors transmittal_dir log_file existing_versions rest (S idx)
      end
  end.

Lemma validate_rows_spec transmittal_dir log_file existing_versions raw_rows idx
    processed_rows errors :
  validate_rows transmittal_dir log_file existing_versions raw_rows idx
    processed_rows errors =
  (processed_rows ++ valid_rows transmittal_dir log_file existing_versions raw_rows,
   errors ++ row_errors transmittal_dir log_file existing_versions raw_rows idx).
Proof.
  revert idx processed_rows errors.
  induction raw_rows as [|r rest IH]; intros idx processed_rows errors; simpl.
  - by rewrite !app_nil_r.
  - unfold valid_rows. simpl.
    destruct (validate_row transmittal_dir log_file existing_versions r) as [row|exc].
    + rewrite IH. by rewrite <- app_assoc.
    + rewrite IH. by rewrite <- app_assoc.
Qed.



(** What a validated row carries. *)
Lemma validate_row_inv transmittal_dir log_file existing_versions r row :
  validate_row transmittal_dir log_file existing_versions r = Ok row ->
  exists d,
    coerce_date (dict_get r "DATE") = Ok d
    /\ raw row = <["DATE" := d]> r
    /\ normalize_doc_number (dict_get r "DOCUMENT NUMBER 1") = Ok (normalized_doc row)
    /\ normalize_version (dict_get r "VERSION") = Ok (normalized_version row)
    /\ ((normalized_doc row, Text.lower (normalized_version row)) ∉ existing_versions)
    /\ filenames row = find_matching_files transmittal_dir (normalized_doc row) log_file.
Proof.
  unfold validate_row.
  destruct (check_required required_order r) as [[]|]; simpl; [|done].
  destruct (dict_item r "DOCUMENT NUMBER 1") as [dc|] eqn:Hd; simpl; [|done].
  apply dict_item_ok in Hd. rewrite Hd.
  destruct (normalize_doc_number dc) as [ndoc|]; simpl; [|done].
  destruct (dict_item r "VERSION") as [vc|] eqn:Hv; simpl; [|done].
  apply dict_item_ok in Hv. rewrite Hv.
  destruct (normalize_version vc) as [nver|]; simpl; [|done].
  case_bool_decide as Hin; [done|].
  destruct (dict_item r "DATE") as [date_cell|] eqn:Hdate; simpl; [|done].
  apply dict_item_ok in Hdate. rewrite Hdate.
  destruct (coerce_date date_cell) as [d|]; simpl; [|done].
  intros [= <-]. by exists d.
Qed.

(** ** The history table *)

Lemma foldl_sheet_append (sheet : table datetime) (rows : list TransmittalRow) :
  foldl (fun sh row => sheet_append sh (database_values row)) sheet rows =
  Table (header sheet) (body sheet ++ map database_values rows).
Proof.
  revert sheet. induction rows as [|row rows IH]; intros sheet; simpl.
  - rewrite app_nil_r. by destruct sheet.
  - rewrite IH. simpl. by rewrite <- app_assoc.
Qed.

(** The cells of a history row as the design text words them: the
    normalised field values, that is the fields of the row with the
    normalised document number and version in their columns. Only used
    for comparison with [database_values]. *)
Definition database_values_normalized (row : TransmittalRow) : list val :=
  map (fun h => if bool_decide (h = "DOCUMENT NUMBER 1") then VStr (normalized_doc row)
                else if bool_decide (h = "VERSION") then VStr (normalized_version row)
                else dict_get (raw row) h) EXPECTED_HEADERS
    ++ [VStr (Text.join "; " (filenames row))].

(** A validated row against the manifest record it comes from: the
    record validates to it, its field mapping is the record with the
    coerced date under DATE, and its two normalised fields are those of
    the record's document and version cells. *)
Definition validated_from (transmittal_dir : folder) (log_file : string)
    (existing_versions : gset (string * string))
    (r : record) (row : TransmittalRow) : Prop :=
  validate_row transmittal_dir log_file existing_versions r = Ok row
  /\ (exists d, coerce_date (dict_get r "DATE") = Ok d
                /\ raw row = <["DATE" := d]> r)
  /\ normalize_doc_number (dict_get r "DOCUMENT NUMBER 1") = Ok (normalized_doc row)
  /\ normalize_version (dict_get r "VERSION") = Ok (normalized_version row).

(** A history row against the validated row it is written from: fourteen
    cells; under every schema column but VERSION the value of the row's
    field mapping; under VERSION a cell that normalises to the row's
    version; last, the file names joined with "; ". *)
Definition history_row_of (row : TransmittalRow) (cells : list val) : Prop :=
  length cells = 14
  /\ (forall i h, EXPECTED_HEADERS !! i = Some h -> h <> "VERSION" ->
                  cells !! i = Some (dict_get (raw row) h))
  /\ (exists v, cells !! 7 = Some v
                /\ normalize_version v = Ok (normalized_version row))
  /\ cells !! 13 = Some (VStr (Text.join "; " (filenames row))).

Lemma validated_from_row transmittal_dir log_file existing_versions r row :
  validate_row transmittal_dir log_file existing_versions r = Ok row ->
  validated_from transmittal_dir log_file existing_versions r row.
Proof.
  intros Hrow. split; [done|].
  apply validate_row_inv in Hrow as (d & Hdate & Hraw & Hdoc & Hver & _).
  split; [by exists d|done].
Qed.

Lemma valid_rows_all transmittal_dir log_file existing_versions raw_rows idx :
  row_errors transmittal_dir log_file existing_versions raw_rows idx = [] ->
  Forall2 (validated_from transmittal_dir log_file existing_versions)
    raw_rows (valid_rows transmittal_dir log_file existing_versions raw_rows).
Proof.
  revert idx. induction raw_rows as [|r rest IH]; intros idx; simpl; [constructor|].
  unfold valid_rows. csimpl.
  destruct (validate_row transmittal_dir log_file existing_versions r) as [row|]
    eqn:Hr; [|done].
  intros Hnone. constructor; [by apply validated_from_row|]. by apply (IH (S idx)).
Qed.

Lemma validate_transmittal_manifest transmittal_dir log_file log existing_versions rows :
  validate_transmittal transmittal_dir log_file log existing_versions = Ok rows ->
  exists sheet raw_rows,
    load_log log = Ok sheet
    /\ read_sheet_rows sheet = Ok raw_rows
    /\ Forall2 (validated_from transmittal_dir log_file existing_versions)
         raw_rows rows.
Proof.
  unfold validate_transmittal.
  destruct (load_log log) as [sheet|]; simpl; [|done].
  destruct (read_sheet_rows sheet) as [raw_rows|] eqn:Hread; simpl; [|done].
  rewrite validate_rows_spec. simpl. unfold decide_rows.
  destruct (valid_rows _ _ _ raw_rows) as [|row0 rows0] eqn:Hv; [done|].
  destruct (row_errors _ _ _ raw_rows 2) eqn:He; [|done]. intros [= <-].
  exists sheet, raw_rows. do 2 (split; [done|]).
  rewrite <- Hv. by apply (valid_rows_all _ _ _ _ 2).
Qed.

Lemma history_rows_written transmittal_dir log_file existing_versions raw_rows rows :
  Forall2 (validated_from transmittal_dir log_file existing_versions) raw_rows rows ->
  Forall2 history_row_of rows (map database_values rows).
Proof.
  induction 1 as [|r row raw_rows rows Hrow _ IH]; simpl; constructor; [|done].
  destruct Hrow as (_ & (d & _ & Hraw) & _ & Hver).
  split; [done|]. split; [|split; [|done]].
  - intros i h Hi _. unfold database_values.
    rewrite lookup_app_l by (apply lookup_lt_Some in Hi; by rewrite length_map).
    by rewrite list_lookup_fmap, Hi.
  - exists (dict_get (raw row) "VERSION"). split; [done|].
    rewrite Hraw. unfold dict_get in *. by rewrite lookup_insert_ne.
Qed.

(** C6, as the code has it: for the rows of a transmittal that passed
    validation, one per record of the manifest and in its order,
    [append_to_database] either fails and leaves the file tree as it was,
    or writes the history table back with the rows it had, in their
    order, followed by one row per validated row in the order of the
    rows. Such a row has fourteen cells: under each schema column but
    VERSION the cell of the manifest record, with the coerced date under
    DATE (so the document number as typed, not the normalised one); under
    VERSION a cell that normalises to the row's version; and last the
    file names joined with "; ". A table that did not exist starts from
    the header row alone. *)
Theorem append_to_database_appends
    (transmittal_dir : folder) (log_file : string) (log : entry datetime)
    (existing_versions : gset (string * string))
    (rows : list TransmittalRow) (s : fs) :
  validate_transmittal transmittal_dir log_file log existing_versions = Ok rows ->
  exists sheet raw_rows appended,
    load_log log = Ok sheet
    /\ read_sheet_rows sheet = Ok raw_rows
    /\ Forall2 (validated_from transmittal_dir log_file existing_versions)
         raw_rows rows
    /\ Forall2 history_row_of rows appended
    /\ (database s = None ->
        append_to_database rows s =
        (Ok tt, write_store Database
                  (Sheet (Table (map VStr DATABASE_HEADERS) appended)) s))
    /\ (forall t,
           database s = Some (Sheet t) ->
           rmap header_name_or_empty (header t)
           = Ok (map normalize_header DATABASE_HEADERS) ->
           append_to_database rows s =
           (Ok tt, write_store Database
                     (Sheet (Table (header t) (body t ++ appended))) s))
    /\ (forall e s', append_to_database rows s = (Raise e, s') -> s' = s).
Proof.
  intros Hvalid.
  apply validate_transmittal_manifest in Hvalid as (sheet & raw_rows & Hlog & Hread & Hrows).
  exists sheet, raw_rows, (map database_values rows).
  do 3 (split; [done|]). split; [by eapply history_rows_written|].
  split; [|split].
  - intros Hdb. unfold append_to_database, ensure_workbook, bind, gets, modify, ret.
    simpl. rewrite Hdb. simpl. by rewrite foldl_sheet_append.
  - intros t Hdb Hhead.
    unfold append_to_database, ensure_workbook, bind, gets, modify, ret, lift.
    simpl. rewrite Hdb. simpl. rewrite Hhead.
    rewrite bool_decide_eq_true_2 by done. by rewrite foldl_sheet_append.
  - intros e s'.
    unfold append_to_database, ensure_workbook, bind, gets, modify, ret, lift, raise.
    simpl. destruct (database s) as [[t|bytes]|]; simpl.
    + destruct (rmap header_name_or_empty (header t)) as [names|]; [|by intros [= _ <-]].
      case_bool_decide; [done|by intros [= _ <-]].
    + by intros [= _ <-].
    + done.
Qed.

(** ** The latest-version index *)

(** [existing.get(key)] on the insertion-ordered [dict]. *)
Fixpoint odict_get (key : string) (d : list (string * record)) : option record :=
  match d with
  | [] => None
  | (k, r) :: rest => if bool_decide (k = key) then Some r else odict_get key rest
  end.

(** The last row of the transmittal for a document. *)
Fixpoint last_for (doc : string) (rows : list TransmittalRow) : option TransmittalRow :=
  match rows with
  | [] => None
  | row :: rest =>
      match last_for doc rest with
      | Some later => Some later
      | None => if bool_decide (normalized_doc row = doc) then Some row else None
      end
  end.

(** The normalised document number of a stored row of the index
    (DOCUMENT NUMBER 1 is the fifth column). *)
Definition stored_doc (cells : list val) : result string :=
  normalize_doc_number (row_cell cells 4).

(** The key of a dictionary entry is the normalised document number of
    its record. *)
Definition keyed (kr : string * record) : Prop :=
  normalize_doc_number (dict_get kr.2 "DOCUMENT NUMBER 1") = Ok kr.1.

Lemma odict_set_keys key rec d :
  (odict_set key rec d).*1 = if bool_decide (key ∈ d.*1) then d.*1 else d.*1 ++ [key].
Proof.
  induction d as [|[k r] rest IH]; csimpl; [done|].
  destruct (bool_decide (k = key)) eqn:Hk.
  - apply bool_decide_eq_true in Hk. subst k.
    rewrite bool_decide_eq_true_2 by left. done.
  - apply bool_decide_eq_false in Hk.
    csimpl. rewrite IH. destruct (bool_decide (key ∈ rest.*1)) eqn:Hin.
    + apply bool_decide_eq_true in Hin. rewrite bool_decide_eq_true_2; [done|by right].
    + apply bool_decide_eq_false in Hin. rewrite bool_decide_eq_false_2; [done|].
      intros H. apply elem_of_cons in H as [->|H]; done.
Qed.

Lemma odict_set_NoDup key rec d : NoDup d.*1 -> NoDup (odict_set key rec d).*1.
Proof.
  intros Hd. rewrite odict_set_keys. case_bool_decide as Hin; [done|].
  apply NoDup_app. split; [done|]. split; [|apply NoDup_singleton].
  intros x Hx Hx'. apply list_elem_of_singleton in Hx'. by subst.
Qed.

Lemma odict_set_Forall (P : string * record -> Prop) key rec d :
  Forall P d -> P (key, rec) -> Forall P (odict_set key rec d).
Proof.
  intros Hd Hnew. induction Hd as [|[k r] rest Hkr Hrest IH]; simpl.
  - by constructor.
  - case_bool_decide; by constructor.
Qed.

Lemma odict_get_set key key' rec d :
  odict_get key' (odict_set key rec d) =
  if bool_decide (key = key') then Some rec else odict_get key' d.
Proof.
  induction d as [|[k r] rest IH]; simpl.
  - done.
  - destruct (bool_decide (k = key)) eqn:Hk; simpl.
    + apply bool_decide_eq_true in Hk. subst k.
      by destruct (bool_decide (key = key')).
    + apply bool_decide_eq_false in Hk. rewrite IH.
      destruct (bool_decide (k = key')) eqn:Hk'; [|done].
      apply bool_decide_eq_true in Hk'. subst k.
      by rewrite bool_decide_eq_false_2 by congruence.
Qed.

Lemma odict_get_elem key rec d : odict_get key d = Some rec -> (key, rec) ∈ d.
Proof.
  induction d as [|[k r] rest IH]; simpl; [done|].
  case_bool_decide as Hk.
  - intros [= ->]. subst. left.
  - intros H. right. by apply IH.
Qed.

Lemma odict_elem_get key rec d :
  NoDup d.*1 -> (key, rec) ∈ d -> odict_get key d = Some rec.
Proof.
  induction d as [|[k r] rest IH]; simpl; intros Hnd Hin.
  - by apply elem_of_nil in Hin.
  - apply NoDup_cons in Hnd as [Hk Hnd].
    apply elem_of_cons in Hin as [[= -> ->]|Hin].
    + by rewrite bool_decide_eq_true_2.
    + rewrite bool_decide_eq_false_2; [by apply IH|].
      intros ->. apply Hk. apply list_elem_of_fmap. by exists (key, rec).
Qed.

Lemma foldl_odict_set_get doc rows existing :
  odict_get doc
    (foldl (fun d row => odict_set (normalized_doc row) (raw row) d) existing rows) =
  match last_for doc rows with
  | Some row => Some (raw row)
  | None => odict_get doc existing
  end.
Proof.
  revert existing. induction rows as [|row rows IH]; intros existing; simpl; [done|].
  rewrite IH. destruct (last_for doc rows); [done|].
  rewrite odict_get_set. by destruct (bool_decide (normalized_doc row = doc)).
Qed.

Lemma foldl_odict_set_invariant rows existing :
  NoDup existing.*1 -> Forall keyed existing ->
  Forall (fun row => keyed (normalized_doc row, raw row)) rows ->
  let final := foldl (fun d row => odict_set (normalized_doc row) (raw row) d)
                 existing rows in
  NoDup final.*1 /\ Forall keyed final.
Proof.
  revert existing. induction rows as [|row rows IH]; intros existing Hnd Hk Hrows; simpl.
  - done.
  - apply Forall_cons in Hrows as [Hrow Hrows].
    apply IH; [by apply odict_set_NoDup|by apply odict_set_Forall|done].
Qed.

Lemma load_document_list_invariant head rows existing final :
  NoDup existing.*1 -> Forall keyed existing ->
  load_document_list head rows existing = Ok final ->
  NoDup final.*1 /\ Forall keyed final.
Proof.
  revert existing. induction rows as [|row rows IH]; intros existing Hnd Hk; simpl.
  - by intros [= <-].
  - destruct (forallb is_blank row); [by apply IH|].
    destruct (rmap _ (zip head row)) as [pairs|]; simpl; [|done].
    destruct (dict_item (dict_of pairs) "DOCUMENT NUMBER 1") as [dc|] eqn:Hd;
      simpl; [|done].
    destruct (normalize_doc_number dc) as [doc_key|] eqn:Hn; simpl; [|done].
    apply IH; [by apply odict_set_NoDup|].
    apply odict_set_Forall; [done|]. unfold keyed. simpl.
    apply dict_item_ok in Hd. by rewrite Hd.
Qed.

Lemma last_for_spec doc rows row :
  last_for doc rows = Some row -> row ∈ rows /\ normalized_doc row = doc.
Proof.
  induction rows as [|r rows IH]; simpl; [done|].
  destruct (last_for doc rows) as [later|].
  - intros [= ->]. destruct (IH eq_refl). split; [by right|done].
  - case_bool_decide; [|done]. intros [= ->]. split; [left|done].
Qed.

Lemma last_for_elem row rows :
  row ∈ rows -> is_Some (last_for (normalized_doc row) rows).
Proof.
  induction rows as [|r rows IH]; simpl; intros Hin.
  - by apply elem_of_nil in Hin.
  - destruct (last_for (normalized_doc row) rows) eqn:Hl; [by eexists|].
    apply elem_of_cons in Hin as [->|Hin].
    + rewrite bool_decide_eq_true_2 by done. by eexists.
    + destruct (IH Hin) as [? ?]. done.
Qed.

Lemma stored_doc_document_values rec :
  stored_doc (document_values rec) = normalize_doc_number (dict_get rec "DOCUMENT NUMBER 1").
Proof. reflexivity. Qed.

(** The rows that leave the outer [try] are validated rows. *)
Lemma validate_transmittal_rows transmittal_dir log_file log existing_versions rows :
  validate_transmittal transmittal_dir log_file log existing_versions = Ok rows ->
  Forall (fun row => exists r,
            validate_row transmittal_dir log_file existing_versions r = Ok row) rows.
Proof.
  unfold validate_transmittal.
  destruct (load_log log) as [sheet|]; simpl; [|done].
  destruct (read_sheet_rows sheet) as [raw_rows|]; simpl; [|done].
  rewrite validate_rows_spec. simpl. unfold decide_rows.
  destruct (valid_rows _ _ _ raw_rows) as [|row0 rows0] eqn:Hv; [done|].
  destruct (row_errors _ _ _ raw_rows 2); [|done]. intros [= <-].
  rewrite <- Hv. apply Forall_forall. intros row Hin.
  unfold valid_rows in Hin. apply list_elem_of_omap in Hin as (r & _ & Hr).
  exists r. by destruct (validate_row transmittal_dir log_file existing_versions r) as [x|];
    simplify_eq.
Qed.

Lemma validated_row_keyed transmittal_dir log_file existing_versions r row :
  validate_row transmittal_dir log_file existing_versions r = Ok row ->
  keyed (normalized_doc row, raw row).
Proof.
  intros H. apply validate_row_inv in H as (d & _ & Hraw & Hdoc & _).
  unfold keyed. simpl. rewrite Hraw. unfold dict_get in *.
  by rewrite lookup_insert_ne.
Qed.

Lemma update_document_list_ok rows s s' :
  update_document_list rows s = (Ok tt, s') ->
  exists sheet s1 existing,
    ensure_workbook DocList EXPECTED_HEADERS s = (Ok sheet, s1)
    /\ load_document_list (header sheet) (body sheet) [] = Ok existing
    /\ s' = write_store DocList
              (Sheet (Table (header sheet)
                        (map (fun kr => document_values kr.2)
                           (foldl (fun d row =>
                                     odict_set (normalized_doc row) (raw row) d)
                              existing rows)))) s1.
Proof.
  unfold update_document_list, bind at 1.
  destruct (ensure_workbook DocList EXPECTED_HEADERS s) as [[sheet|e] s1]; [|done].
  unfold bind, lift, modify.
  destruct (load_document_list (header sheet) (body sheet) []) as [existing|e]
    eqn:Hload; simpl; [|done].
  intros [= <-]. by exists sheet, s1, existing.
Qed.

(** C2: when [update_document_list] has rewritten the index for the rows
    of an accepted transmittal, no two stored rows have the same
    normalised document number, and for every row of the transmittal the
    index holds the field values of the last row of the transmittal with
    that document number, whatever the versions and dates involved. *)
Theorem update_document_list_last_wins
    (transmittal_dir : folder) (log_file : string) (log : entry datetime)
    (existing_versions : gset (string * string))
    (rows : list TransmittalRow) (s s' : fs) :
  validate_transmittal transmittal_dir log_file log existing_versions = Ok rows ->
  update_document_list rows s = (Ok tt, s') ->
  exists t',
    doc_list s' = Some (Sheet t')
    /\ (forall i j ci cj,
           body t' !! i = Some ci -> body t' !! j = Some cj ->
           stored_doc ci = stored_doc cj -> i = j)
    /\ (forall row,
           row ∈ rows ->
           exists final,
             last_for (normalized_doc row) rows = Some final
             /\ document_values (raw final) ∈ body t'
             /\ stored_doc (document_values (raw final)) = Ok (normalized_doc row)).
Proof.
  intros Hvalid Hupd.
  apply update_document_list_ok in Hupd as (sheet & s1 & existing & _ & Hload & ->).
  set (final := foldl (fun d row => odict_set (normalized_doc row) (raw row) d)
                  existing rows).
  assert (NoDup final.*1 /\ Forall keyed final) as [Hnd Hkeyed].
  { destruct (load_document_list_invariant (header sheet) (body sheet) [] existing)
      as [Hnd0 Hk0]; [apply NoDup_nil_2|by constructor|done|].
    apply foldl_odict_set_invariant; [done..|].
    apply validate_transmittal_rows in Hvalid.
    eapply Forall_impl; [exact Hvalid|]. intros row [r Hr].
    by eapply validated_row_keyed. }
  eexists. split; [reflexivity|]. simpl. fold final. split.
  - intros i j ci cj Hi Hj Heq.
    rewrite list_lookup_fmap in Hi, Hj.
    destruct (final !! i) as [kri|] eqn:Hfi; [|done].
    destruct (final !! j) as [krj|] eqn:Hfj; [|done].
    simpl in Hi, Hj. injection Hi as <-. injection Hj as <-.
    rewrite !stored_doc_document_values in Heq.
    pose proof (proj1 (Forall_lookup _ _) Hkeyed _ _ Hfi) as Hki.
    pose proof (proj1 (Forall_lookup _ _) Hkeyed _ _ Hfj) as Hkj.
    unfold keyed in Hki, Hkj. rewrite Hki, Hkj in Heq. injection Heq as Heq.
    eapply NoDup_lookup; [exact Hnd| |].
    + by rewrite list_lookup_fmap, Hfi.
    + rewrite list_lookup_fmap, Hfj. simpl. by rewrite Heq.
  - intros row Hrow.
    destruct (last_for_elem row rows Hrow) as [last Hlast].
    exists last. split; [done|].
    pose proof (foldl_odict_set_get (normalized_doc row) rows existing) as Hget.
    fold final in Hget. rewrite Hlast in Hget.
    apply odict_get_elem in Hget.
    split.
    + apply list_elem_of_fmap. by exists (normalized_doc row, raw last).
    + rewrite stored_doc_document_values.
      by apply (proj1 (Forall_forall _ _) Hkeyed _ Hget).
Qed.

(** ** The mirror of current files *)

Lemma find_matching_files_elem (transmittal_dir : folder) doc_number log_file f :
  f ∈ find_matching_files transmittal_dir doc_number log_file <->
  exists e, transmittal_dir !! f = Some e
            /\ matching_entry doc_number log_file (f, e) = true.
Proof.
  unfold find_matching_files. rewrite merge_sort_Permutation.
  rewrite list_elem_of_fmap. split.
  - intros ([g e] & -> & Hin). apply list_elem_of_filter in Hin as [Hm Hin].
    apply elem_of_map_to_list in Hin. by exists e.
  - intros (e & Hf & Hm). exists (f, e). split; [done|].
    apply list_elem_of_filter. split; [done|]. by apply elem_of_map_to_list.
Qed.

(** The rows of a transmittal list exactly the regular files of the
    folder, other than the manifest, whose lower-cased name contains the
    document number of the row. *)
Definition lists_matches (transmittal_dir : folder) (log_file : string)
    (row : TransmittalRow) : Prop :=
  forall f, f ∈ filenames row <->
            exists c, transmittal_dir !! f = Some (File c) /\ f <> log_file
                      /\ Text.contains (normalized_doc row) (Text.lower f) = true.

Lemma find_matching_files_lists_matches transmittal_dir log_file row :
  filenames row = find_matching_files transmittal_dir (normalized_doc row) log_file ->
  lists_matches transmittal_dir log_file row.
Proof.
  intros Hf f. rewrite Hf, find_matching_files_elem. unfold matching_entry. simpl.
  split.
  - intros (e & He & Hm). apply andb_true_iff in Hm as [Hm Hc].
    apply negb_true_iff, orb_false_iff in Hm as [Hlog Hfile].
    apply bool_decide_eq_false in Hlog. apply negb_false_iff in Hfile.
    destruct e as [c|]; [|done]. by exists c.
  - intros (c & Hc & Hlog & Hcontains). exists (File c). split; [done|].
    rewrite Hcontains. simpl. by rewrite bool_decide_eq_false_2.
Qed.

(** The loop over the file names without the monad, for names that are
    not directories of the transmittal folder. *)
Definition copy_step (transmittal_dir : folder) (cur : folder) (fname : string) : folder :=
  match transmittal_dir !! fname with
  | Some (File c) => copy_into fname c cur
  | _ => cur
  end.

Definition sync_step (transmittal_dir : folder) (processed_docs : gset string)
    (row : TransmittalRow) (cur : folder) : folder :=
  foldl (copy_step transmittal_dir)
    (if bool_decide (normalized_doc row ∈ processed_docs) then cur
     else remove_stale (normalized_doc row) cur)
    (filenames row).

Fixpoint sync_result (transmittal_dir : folder) (rows : list TransmittalRow)
    (processed_docs : gset string) (cur : folder) : folder :=
  match rows with
  | [] => cur
  | row :: rest =>
      sync_result transmittal_dir rest ({[ normalized_doc row ]} ∪ processed_docs)
        (sync_step transmittal_dir processed_docs row cur)
  end.

(** Whether one of the rows has the file removed: a row whose document
    was not handled before and for which the file is stale. *)
Definition purged (processed_docs : gset string) (rows : list TransmittalRow)
    (f : string) (e : entry datetime) : bool :=
  existsb (fun row => negb (bool_decide (normalized_doc row ∈ processed_docs))
                      && stale (normalized_doc row) (f, e)) rows.

Lemma set_current_current s : set_current (current s) s = s.
Proof. by destruct s. Qed.

Lemma set_current_twice c c' s : set_current c (set_current c' s) = set_current c s.
Proof. done. Qed.

Lemma copy_files_pure transmittal_dir fnames s :
  (forall f, f ∈ fnames -> transmittal_dir !! f <> Some Dir) ->
  copy_files transmittal_dir fnames s =
  (Ok tt, set_current (foldl (copy_step transmittal_dir) (current s) fnames) s).
Proof.
  revert s. induction fnames as [|f fnames IH]; intros s Hfiles; simpl.
  - by rewrite set_current_current.
  - assert (forall g, g ∈ fnames -> transmittal_dir !! g <> Some Dir) as Hrest.
    { intros g Hg. apply Hfiles. by right. }
    unfold copy_step at 2.
    destruct (transmittal_dir !! f) as [[c|]|] eqn:Hf.
    + unfold bind, modify. rewrite IH by done. by simpl.
    + exfalso. by apply (Hfiles f); [left|].
    + by apply IH.
Qed.

Lemma sync_rows_pure transmittal_dir log_file rows processed_docs s :
  Forall (lists_matches transmittal_dir log_file) rows ->
  sync_rows transmittal_dir rows processed_docs s =
  (Ok tt, set_current (sync_result transmittal_dir rows processed_docs (current s)) s).
Proof.
  intros Hrows. revert processed_docs s.
  induction Hrows as [|row rest Hrow _ IH]; intros processed_docs s; simpl.
  - by rewrite set_current_current.
  - assert (forall f, f ∈ filenames row -> transmittal_dir !! f <> Some Dir) as Hfiles.
    { intros f Hf. apply Hrow in Hf as (c & Hc & _). congruence. }
    unfold bind at 1. unfold bind at 1. unfold sync_step.
    destruct (bool_decide (normalized_doc row ∈ processed_docs)).
    + unfold ret. rewrite copy_files_pure by done. rewrite IH. by simpl.
    + unfold modify. rewrite copy_files_pure by done. rewrite IH. by simpl.
Qed.

(** What a name of the mirror holds once a file was copied onto it. *)
Definition overwritten (c : content datetime) (old : option (entry datetime))
    : option (entry datetime) :=
  match old with
  | Some Dir => Some Dir
  | _ => Some (File c)
  end.

Lemma overwritten_twice c old : overwritten c (overwritten c old) = overwritten c old.
Proof. by destruct old as [[]|]. Qed.

Lemma remove_stale_lookup doc_key (cur : folder) f :
  remove_stale doc_key cur !! f =
  match cur !! f with
  | Some e => if stale doc_key (f, e) then None else Some e
  | None => None
  end.
Proof.
  unfold remove_stale. rewrite map_lookup_filter.
  destruct (cur !! f) as [e|]; simpl; [|done].
  destruct (stale doc_key (f, e)); by simplify_option_eq.
Qed.

Lemma copy_into_lookup g c (cur : folder) f :
  copy_into g c cur !! f =
  if bool_decide (f = g) then overwritten c (cur !! f) else cur !! f.
Proof.
  unfold copy_into. case_bool_decide as Hfg.
  - subst g. destruct (cur !! f) as [[]|] eqn:Hf; simpl.
    + by rewrite lookup_insert_eq.
    + done.
    + by rewrite lookup_insert_eq.
  - destruct (cur !! g) as [[]|]; [|done|]; by rewrite lookup_insert_ne.
Qed.

Lemma copy_steps_lookup (transmittal_dir cur : folder) fnames f :
  foldl (copy_step transmittal_dir) cur fnames !! f =
  match transmittal_dir !! f with
  | Some (File c) =>
      if bool_decide (f ∈ fnames) then overwritten c (cur !! f) else cur !! f
  | _ => cur !! f
  end.
Proof.
  revert cur. induction fnames as [|g fnames IH]; intros cur; simpl.
  - by destruct (transmittal_dir !! f) as [[c|]|].
  - rewrite IH. destruct (decide (f = g)) as [Heq|Hne].
    + subst g. unfold copy_step.
      destruct (transmittal_dir !! f) as [[c|]|] eqn:Htf; [|done..].
      rewrite copy_into_lookup, (bool_decide_eq_true_2 (f = f)) by done.
      rewrite (bool_decide_eq_true_2 (f ∈ f :: fnames)) by left.
      case_bool_decide; [apply overwritten_twice|done].
    + assert (copy_step transmittal_dir cur g !! f = cur !! f) as ->.
      { unfold copy_step. destruct (transmittal_dir !! g) as [[c|]|]; [|done..].
        by rewrite copy_into_lookup, (bool_decide_eq_false_2 (f = g)). }
      destruct (transmittal_dir !! f) as [[c|]|]; [|done..].
      destruct (bool_decide (f ∈ fnames)) eqn:Hin.
      * apply bool_decide_eq_true in Hin.
        rewrite (bool_decide_eq_true_2 (f ∈ g :: fnames)); [done|by right].
      * apply bool_decide_eq_false in Hin.
        rewrite (bool_decide_eq_false_2 (f ∈ g :: fnames)); [done|].
        intros H. apply elem_of_cons in H as [?|?]; done.
Qed.

Lemma stale_dir doc_key f : stale doc_key (f, Dir) = false.
Proof. done. Qed.

Lemma purged_dir processed_docs rows f : purged processed_docs rows f Dir = false.
Proof.
  unfold purged. induction rows as [|row rows IH]; simpl; [done|].
  rewrite IH. unfold stale. simpl. by rewrite andb_false_r.
Qed.

Lemma purged_cons processed_docs row rest f e :
  purged processed_docs (row :: rest) f e =
  negb (bool_decide (normalized_doc row ∈ processed_docs))
    && stale (normalized_doc row) (f, e)
  || purged ({[ normalized_doc row ]} ∪ processed_docs) rest f e.
Proof.
  unfold purged. simpl.
  destruct (negb (bool_decide (normalized_doc row ∈ processed_docs))
            && stale (normalized_doc row) (f, e)) eqn:Hfirst; simpl.
  - done.
  - induction rest as [|r rest IH]; simpl; [done|]. rewrite IH. f_equal.
    destruct (decide (normalized_doc r = normalized_doc row)) as [Heq|Hne].
    + rewrite Heq, Hfirst.
      rewrite (bool_decide_eq_true_2
                 (normalized_doc row ∈ {[normalized_doc row]} ∪ processed_docs))
        by (apply elem_of_union; left; by apply elem_of_singleton).
      done.
    + f_equal. f_equal. apply bool_decide_ext.
      rewrite elem_of_union, elem_of_singleton. split; [by right|].
      by intros [?|?].
Qed.

Lemma purged_true processed_docs rows f e :
  purged processed_docs rows f e = true ->
  exists row, row ∈ rows /\ (normalized_doc row ∉ processed_docs)
              /\ stale (normalized_doc row) (f, e) = true.
Proof.
  unfold purged. intros H. apply existsb_exists in H as (row & Hin & H).
  apply andb_true_iff in H as [Hnew Hstale].
  apply negb_true_iff, bool_decide_eq_false in Hnew.
  exists row. by rewrite list_elem_of_In.
Qed.

Lemma overwritten_remove_stale c doc_key (cur : folder) f :
  overwritten c (remove_stale doc_key cur !! f) = overwritten c (cur !! f).
Proof.
  rewrite remove_stale_lookup. destruct (cur !! f) as [[x|]|]; [|done..].
  by destruct (stale doc_key (f, File x)).
Qed.

Lemma sync_step_lookup transmittal_dir processed_docs row (cur : folder) f :
  sync_step transmittal_dir processed_docs row cur !! f =
  match transmittal_dir !! f with
  | Some (File c) =>
      if bool_decide (f ∈ filenames row) then overwritten c (cur !! f)
      else if bool_decide (normalized_doc row ∈ processed_docs) then cur !! f
           else remove_stale (normalized_doc row) cur !! f
  | _ =>
      if bool_decide (normalized_doc row ∈ processed_docs) then cur !! f
      else remove_stale (normalized_doc row) cur !! f
  end.
Proof.
  unfold sync_step. rewrite copy_steps_lookup.
  destruct (transmittal_dir !! f) as [[c|]|];
    destruct (bool_decide (normalized_doc row ∈ processed_docs)); try done.
  case_bool_decide; [|done]. apply overwritten_remove_stale.
Qed.

(** The mirror after the rows loop, name by name. *)
Lemma sync_result_lookup transmittal_dir log_file rows processed_docs (cur : folder) f :
  Forall (lists_matches transmittal_dir log_file) rows ->
  (Exists (fun row => f ∈ filenames row) rows ->
   exists c, transmittal_dir !! f = Some (File c)
             /\ sync_result transmittal_dir rows processed_docs cur !! f =
                overwritten c (cur !! f))
  /\ (~ Exists (fun row => f ∈ filenames row) rows ->
      sync_result transmittal_dir rows processed_docs cur !! f =
      match cur !! f with
      | Some e => if purged processed_docs rows f e then None else Some e
      | None => None
      end).
Proof.
  intros Hrows. revert processed_docs cur.
  induction Hrows as [|row rest Hrow Hrest IH]; intros processed_docs cur.
  - split; [intros H; by apply Exists_nil in H|].
    intros _. simpl. by destruct (cur !! f).
  - destruct (IH ({[normalized_doc row]} ∪ processed_docs)
                (sync_step transmittal_dir processed_docs row cur)) as [IHa IHb].
    split.
    + intros Hex. destruct (decide (Exists (fun r => f ∈ filenames r) rest))
        as [Hlater|Hnot].
      * destruct (IHa Hlater) as (c & Hc & Hres). exists c. split; [done|].
        simpl. rewrite Hres, sync_step_lookup, Hc.
        case_bool_decide; [apply overwritten_twice|].
        case_bool_decide; [done|apply overwritten_remove_stale].
      * apply Exists_cons in Hex as [Hhere|?]; [|done].
        destruct (proj1 (Hrow f) Hhere) as (c & Hc & Hlog & _).
        exists c. split; [done|]. simpl. rewrite (IHb Hnot).
        rewrite sync_step_lookup, Hc, bool_decide_eq_true_2 by done.
        destruct (cur !! f) as [[x|]|] eqn:Hcur; simpl.
        -- destruct (purged _ rest f (File c)) eqn:Hp; [|done].
           exfalso. apply Hnot. apply purged_true in Hp as (r & Hr & _ & Hst).
           apply Exists_exists. exists r. split; [done|].
           apply (proj1 (Forall_forall _ _) Hrest r Hr). exists c.
           unfold stale in Hst. simpl in Hst.
           apply andb_true_iff in Hst as [Hst _]. by split.
        -- by rewrite purged_dir.
        -- destruct (purged _ rest f (File c)) eqn:Hp; [|done].
           exfalso. apply Hnot. apply purged_true in Hp as (r & Hr & _ & Hst).
           apply Exists_exists. exists r. split; [done|].
           apply (proj1 (Forall_forall _ _) Hrest r Hr). exists c.
           unfold stale in Hst. simpl in Hst.
           apply andb_true_iff in Hst as [Hst _]. by split.
    + intros Hnone.
      assert (f ∉ filenames row) as Hhere.
      { intros H. apply Hnone. by left. }
      assert (~ Exists (fun r => f ∈ filenames r) rest) as Hlater.
      { intros H. apply Hnone. by right. }
      cbn [sync_result]. rewrite (IHb Hlater).
      assert (sync_step transmittal_dir processed_docs row cur !! f =
              if bool_decide (normalized_doc row ∈ processed_docs) then cur !! f
              else remove_stale (normalized_doc row) cur !! f) as ->.
      { rewrite sync_step_lookup.
        destruct (transmittal_dir !! f) as [[c|]|]; [|done..].
        by rewrite bool_decide_eq_false_2. }
      destruct (cur !! f) as [e|] eqn:Hcur.
      * rewrite purged_cons.
        destruct (bool_decide (normalized_doc row ∈ processed_docs)); simpl.
        -- done.
        -- rewrite remove_stale_lookup, Hcur.
           by destruct (stale (normalized_doc row) (f, e)).
      * destruct (bool_decide (normalized_doc row ∈ processed_docs)).
        -- done.
        -- by rewrite remove_stale_lookup, Hcur.
Qed.

Lemma purged_empty rows f e :
  purged ∅ rows f e = true <->
  exists row, row ∈ rows /\ stale (normalized_doc row) (f, e) = true.
Proof.
  unfold purged. rewrite existsb_exists. split.
  - intros (row & Hin & H). apply andb_true_iff in H as [_ H].
    exists row. by rewrite list_elem_of_In.
  - intros (row & Hin & H). exists row. rewrite <- list_elem_of_In. split; [done|].
    rewrite H, bool_decide_eq_false_2; [done|apply not_elem_of_empty].
Qed.

Lemma validated_rows_list_matches transmittal_dir log_file log existing_versions rows :
  validate_transmittal transmittal_dir log_file log existing_versions = Ok rows ->
  Forall (lists_matches transmittal_dir log_file) rows.
Proof.
  intros H. apply validate_transmittal_rows in H.
  eapply Forall_impl; [exact H|]. intros row [r Hr].
  apply find_matching_files_lists_matches.
  by apply validate_row_inv in Hr as (d & _ & _ & _ & _ & _ & Hfiles).
Qed.

(** C7: for the rows of an accepted transmittal the synchroniser
    completes and changes the mirror only; every file named on a row is
    in the mirror afterwards with the content it has in the transmittal
    folder (unless the mirror has a directory of that name); every
    regular file the mirror had whose lower-cased name contains the
    document number of one of the rows, that [unlink] could remove and
    that no row names, is gone; every other name is as it was. *)
Theorem sync_current_files_replaces
    (transmittal_dir : folder) (log_file : string) (log : entry datetime)
    (existing_versions : gset (string * string))
    (rows : list TransmittalRow) (s : fs) :
  validate_transmittal transmittal_dir log_file log existing_versions = Ok rows ->
  exists cur',
    sync_current_files transmittal_dir rows s = (Ok tt, set_current cur' s)
    /\ (forall row f,
           row ∈ rows -> f ∈ filenames row ->
           exists c, transmittal_dir !! f = Some (File c)
                     /\ cur' !! f = overwritten c (current s !! f))
    /\ (forall row f e,
           (forall r, r ∈ rows -> f ∉ filenames r) ->
           current s !! f = Some e ->
           row ∈ rows -> is_file e = true ->
           Text.contains (normalized_doc row) (Text.lower f) = true ->
           unlink_ok f = true ->
           cur' !! f = None)
    /\ (forall f,
           (forall r, r ∈ rows -> f ∉ filenames r) ->
           (forall r e, r ∈ rows -> current s !! f = Some e ->
                        stale (normalized_doc r) (f, e) = false) ->
           cur' !! f = current s !! f).
Proof.
  intros Hvalid. apply validated_rows_list_matches in Hvalid.
  exists (sync_result transmittal_dir rows ∅ (current s)).
  split; [by apply (sync_rows_pure transmittal_dir log_file)|].
  assert (forall f, (forall r, r ∈ rows -> f ∉ filenames r) ->
                    ~ Exists (fun r => f ∈ filenames r) rows) as Hunlisted.
  { intros f Hf Hex. apply Exists_exists in Hex as (r & Hr & Hin). by apply (Hf r). }
  split; [|split].
  - intros row f Hrow Hf.
    apply (sync_result_lookup transmittal_dir log_file rows ∅ (current s) f Hvalid).
    apply Exists_exists. by exists row.
  - intros row f e Hf Hcur Hrow Hfile Hcontains Hunlink.
    rewrite (proj2 (sync_result_lookup transmittal_dir log_file rows ∅ (current s) f
                      Hvalid) (Hunlisted f Hf)).
    rewrite Hcur. rewrite (proj2 (purged_empty rows f e)); [done|].
    exists row. split; [done|]. unfold stale. simpl.
    by rewrite Hfile, Hcontains, Hunlink.
  - intros f Hf Hkeep.
    rewrite (proj2 (sync_result_lookup transmittal_dir log_file rows ∅ (current s) f
                      Hvalid) (Hunlisted f Hf)).
    destruct (current s !! f) as [e|] eqn:Hcur; [|done].
    destruct (purged ∅ rows f e) eqn:Hp; [|done].
    apply purged_empty in Hp as (r & Hr & Hst).
    rewrite (Hkeep r e Hr eq_refl) in Hst. done.
Qed.

(** ** Acceptance of a transmittal *)

Lemma decide_rows_ok processed_rows errors rows :
  decide_rows processed_rows errors = Ok rows <->
  processed_rows <> [] /\ errors = [] /\ rows = processed_rows.
Proof.
  unfold decide_rows. destruct processed_rows as [|row rest].
  - split; [done|]. by intros [? _].
  - destruct errors as [|err errs].
    + split; [by intros [= <-]|]. by intros (_ & _ & ->).
    + split; [done|]. by intros (_ & ? & _).
Qed.


(** The stores under [Reports] are all that the two writers touch. *)
Definition same_tree (s s' : fs) : Prop :=
  current s' = current s /\ pending s' = pending s
  /\ accepted s' = accepted s /\ rejected s' = rejected s.

Lemma ensure_workbook_tree path headers s r s' :
  ensure_workbook path headers s = (r, s') -> same_tree s s'.
Proof.
  unfold ensure_workbook, bind, gets, lift, modify, ret, raise.
  destruct (read_store path s) as [c|].
  - destruct (load_workbook c) as [sheet|]; [|by intros [= _ <-]].
    destruct (rmap header_name_or_empty (header sheet)); [|by intros [= _ <-]].
    case_bool_decide; by intros [= _ <-].
  - intros [= _ <-]. by destruct path.
Qed.

Lemma append_to_database_tree rows s r s' :
  append_to_database rows s = (r, s') -> same_tree s s'.
Proof.
  unfold append_to_database, bind at 1.
  destruct (ensure_workbook Database DATABASE_HEADERS s) as [[sheet|e] s1] eqn:He.
  - apply ensure_workbook_tree in He. unfold modify. intros [= _ <-].
    by destruct He as (? & ? & ? & ?).
  - apply ensure_workbook_tree in He. by intros [= _ <-].
Qed.

Lemma update_document_list_tree rows s r s' :
  update_document_list rows s = (r, s') -> same_tree s s'.
Proof.
  unfold update_document_list, bind at 1.
  destruct (ensure_workbook DocList EXPECTED_HEADERS s) as [[sheet|e] s1] eqn:He.
  - apply ensure_workbook_tree in He. unfold bind, lift, modify.
    destruct (load_document_list (header sheet) (body sheet) []).
    + intros [= _ <-]. by destruct He as (? & ? & ? & ?).
    + by intros [= _ <-].
  - apply ensure_workbook_tree in He. by intros [= _ <-].
Qed.

(** [process_transmittal] once the manifest is found and the index is
    built. *)
Lemma process_transmittal_unfold s name dir log existing_versions :
  pending s !! name = Some dir ->
  dir !! (name +:+ ".xlsx") = Some log ->
  load_existing_versions (database s) = Ok existing_versions ->
  process_transmittal name s =
  match validate_transmittal dir (name +:+ ".xlsx") log existing_versions with
  | Raise _ =>
      (moved <- move_transmittal name RejectedRoot ;; ret (Rejected moved))%fs s
  | Ok processed_rows =>
      (append_to_database processed_rows ;;;
       update_document_list processed_rows ;;;
       sync_current_files dir processed_rows ;;;
       moved <- move_transmittal name AcceptedRoot ;;
       ret (Accepted moved))%fs s
  end.
Proof.
  intros Hdir Hlog Hidx. unfold process_transmittal.
  unfold bind at 1. unfold gets at 1. rewrite Hdir. simpl. rewrite Hlog.
  unfold bind at 1. unfold gets at 1.
  unfold bind at 1. unfold lift at 1. rewrite Hidx.
  by destruct (validate_transmittal dir (name +:+ ".xlsx") log existing_versions).
Qed.

Lemma move_transmittal_run s src r d :
  pending s !! src = Some d ->
  exists c, move_transmittal src r s = (Ok c, relocate src c d r s)
            /\ read_root r s !! c = None.
Proof.
  intros Hsrc.
  destruct (choose_candidate_spec (read_root r s) src) as (c & Hc & Hfree & _).
  exists c. split; [|done].
  unfold move_transmittal, bind, gets, modify, ret, raise. simpl.
  by rewrite Hc, Hsrc.
Qed.




(** * Further properties of the program *)

(** ** The field normalisers *)

Lemma isspace_lower_char c : Text.isspace (Text.lower_char c) = Text.isspace c.
Proof. by destruct c as [[] [] [] [] [] [] [] []]. Qed.

Lemma isspace_upper_char c : Text.isspace (Text.upper_char c) = Text.isspace c.
Proof. by destruct c as [[] [] [] [] [] [] [] []]. Qed.

Lemma lower_char_idemp c : Text.lower_char (Text.lower_char c) = Text.lower_char c.
Proof. by destruct c as [[] [] [] [] [] [] [] []]. Qed.

Lemma lower_upper_char c : Text.lower_char (Text.upper_char c) = Text.lower_char c.
Proof. by destruct c as [[] [] [] [] [] [] [] []]. Qed.

Lemma map_chars_compose f g s :
  Text.map_chars f (Text.map_chars g s) = Text.map_chars (fun c => f (g c)) s.
Proof. induction s as [|c s IH]; simpl; [done|]. by rewrite IH. Qed.

Lemma map_chars_ext f g s :
  (forall c, f c = g c) -> Text.map_chars f s = Text.map_chars g s.
Proof. intros H. induction s as [|c s IH]; simpl; [done|]. by rewrite H, IH. Qed.

Lemma map_chars_empty f s : Text.map_chars f s = EmptyString <-> s = EmptyString.
Proof. by destruct s. Qed.

Lemma lstrip_with_map_chars p f s :
  (forall c, p (f c) = p c) ->
  Text.lstrip_with p (Text.map_chars f s) = Text.map_chars f (Text.lstrip_with p s).
Proof.
  intros H. induction s as [|c s IH]; simpl; [done|].
  rewrite H. by destruct (p c).
Qed.

Lemma rstrip_with_map_chars p f s :
  (forall c, p (f c) = p c) ->
  Text.rstrip_with p (Text.map_chars f s) = Text.map_chars f (Text.rstrip_with p s).
Proof.
  intros H. induction s as [|c s IH]; simpl; [done|].
  rewrite IH, H. destruct (Text.rstrip_with p s); simpl; [|done].
  by destruct (p c).
Qed.

Lemma strip_map_chars f s :
  (forall c, Text.isspace (f c) = Text.isspace c) ->
  Text.strip (Text.map_chars f s) = Text.map_chars f (Text.strip s).
Proof.
  intros H. unfold Text.strip.
  by rewrite lstrip_with_map_chars, rstrip_with_map_chars.
Qed.

Lemma lstrip_with_stops p s :
  stops p (first_char s) -> Text.lstrip_with p s = s.
Proof. destruct s as [|c s]; simpl; [done|]. by intros ->. Qed.

Lemma rstrip_with_stops p s :
  stops p (Text.last_char s) -> Text.rstrip_with p s = s.
Proof.
  induction s as [|c s IH]; simpl; [done|].
  destruct s as [|c' s'].
  - simpl. by intros ->.
  - intros H. rewrite (IH H). done.
Qed.

Lemma strip_idemp s : Text.strip (Text.strip s) = Text.strip s.
Proof.
  destruct (strip_spec s) as (l & r & _ & _ & _ & Hfirst & Hlast).
  unfold Text.strip at 1.
  by rewrite (lstrip_with_stops _ _ Hfirst), (rstrip_with_stops _ _ Hlast).
Qed.

Lemma lower_idemp s : Text.lower (Text.lower s) = Text.lower s.
Proof.
  unfold Text.lower. rewrite map_chars_compose.
  apply map_chars_ext, lower_char_idemp.
Qed.

Lemma lower_upper s : Text.lower (Text.upper s) = Text.lower s.
Proof.
  unfold Text.lower, Text.upper. rewrite map_chars_compose.
  apply map_chars_ext, lower_upper_char.
Qed.

Lemma strip_lower s : Text.strip (Text.lower s) = Text.lower (Text.strip s).
Proof. apply strip_map_chars, isspace_lower_char. Qed.

Lemma strip_upper s : Text.strip (Text.upper s) = Text.upper (Text.strip s).
Proof. apply strip_map_chars, isspace_upper_char. Qed.

(** A normalised document number is canonical: it is not empty, it has
    no blank at either end and no upper-case letter, and normalising it
    again as a text cell returns it. *)
Theorem normalize_doc_number_canonical (v : val) (doc : string) :
  normalize_doc_number v = Ok doc ->
  doc <> EmptyString
  /\ Text.strip doc = doc
  /\ Text.lower doc = doc
  /\ normalize_doc_number (VStr doc) = Ok doc.
Proof.
  unfold normalize_doc_number.
  destruct (is_empty_field v) eqn:Hv; [done|]. intros [= <-].
  assert (Text.strip (py_str v) <> EmptyString) as Hne.
  { destruct v; simpl in Hv; [done|..]; by apply bool_decide_eq_false in Hv. }
  assert (Text.lower (Text.strip (py_str v)) <> EmptyString) as Hne'.
  { intros H. by apply map_chars_empty in H. }
  assert (Text.strip (Text.lower (Text.strip (py_str v)))
          = Text.lower (Text.strip (py_str v))) as Hstrip.
  { by rewrite strip_lower, strip_idemp. }
  split; [done|]. split; [done|]. split; [apply lower_idemp|].
  simpl. rewrite Hstrip. rewrite bool_decide_eq_false_2 by done.
  by rewrite lower_idemp.
Qed.

(** A normalised version is not empty, has no blank at either end, and
    normalising it again returns it with its letters as they were. *)
Theorem normalize_version_canonical (v : val) (version : string) :
  normalize_version v = Ok version ->
  version <> EmptyString
  /\ Text.strip version = version
  /\ normalize_version (VStr version) = Ok version.
Proof.
  unfold normalize_version.
  destruct (is_empty_field v) eqn:Hv; [done|]. intros [= <-].
  assert (Text.strip (py_str v) <> EmptyString) as Hne.
  { destruct v; simpl in Hv; [done|..]; by apply bool_decide_eq_false in Hv. }
  split; [done|]. split; [apply strip_idemp|].
  simpl. rewrite strip_idemp. by rewrite bool_decide_eq_false_2.
Qed.

(** The key under which a version is looked up and recorded ignores the
    case of the letters: two texts that are equal once lower-cased give
    the same normalised document number (or are both refused as empty),
    and the same lower-cased normalised version. *)
Theorem version_key_ignores_case (a b : string) :
  Text.lower a = Text.lower b ->
  normalize_doc_number (VStr a) = normalize_doc_number (VStr b)
  /\ (x <- normalize_version (VStr a) ;; Ok (Text.lower x))%result
     = (x <- normalize_version (VStr b) ;; Ok (Text.lower x))%result.
Proof.
  intros Hsame.
  assert (Text.lower (Text.strip a) = Text.lower (Text.strip b)) as Hkey.
  { by rewrite <- !strip_lower, Hsame. }
  assert (bool_decide (Text.strip a = EmptyString)
          = bool_decide (Text.strip b = EmptyString)) as Hempty.
  { apply bool_decide_ext.
    rewrite <- (map_chars_empty Text.lower_char (Text.strip a)).
    rewrite <- (map_chars_empty Text.lower_char (Text.strip b)).
    fold (Text.lower (Text.strip a)). fold (Text.lower (Text.strip b)).
    by rewrite Hkey. }
  unfold normalize_doc_number, normalize_version. simpl. rewrite Hempty. split.
  - by rewrite Hkey.
  - destruct (bool_decide (Text.strip b = EmptyString)); [done|].
    simpl. by rewrite Hkey.
Qed.

(** ** The outcomes of row validation *)

(** A coerced date is a structured date, and coercing it again returns
    it. *)
Lemma coerce_date_fixpoint (v d : val) :
  coerce_date v = Ok d ->
  (exists x, d = VDate x) /\ coerce_date d = Ok d.
Proof.
  unfold coerce_date. destruct v as [|s|z|x]; simpl.
  - done.
  - case_bool_decide; [done|].
    destruct (date_parse (Text.strip s)) as [x|]; [|done].
    intros [= <-]. split; [by exists x|done].
  - case_bool_decide; [done|].
    destruct (date_parse (Text.strip (str_int z))) as [x|]; [|done].
    intros [= <-]. split; [by exists x|done].
  - intros [= <-]. split; [by exists x|done].
Qed.

(** The outcomes of [validate_row], one by one: a row validates only when
    its six required fields are non-empty and its key is not in the
    index, and then its DATE field holds a structured date; the
    required-field error names a required field that is empty; the
    duplicate error means the key is in the index; the date error means
    the parser refused the trimmed text; no other error is raised. *)
Theorem validate_row_outcomes
    (transmittal_dir : folder) (log_file : string)
    (existing_versions : gset (string * string)) (r : record) :
  match validate_row transmittal_dir log_file existing_versions r with
  | Ok row =>
      Forall (fun f => is_empty_field (dict_get r f) = false) REQUIRED_FIELDS
      /\ (version_key r ∉ existing_versions)
      /\ (normalized_doc row, Text.lower (normalized_version row)) = version_key r
      /\ exists d, raw row = <["DATE" := VDate d]> r
  | Raise (RequiredFieldEmpty field) =>
      field ∈ REQUIRED_FIELDS /\ is_empty_field (dict_get r field) = true
  | Raise (DuplicateVersion _ _) =>
      Forall (fun f => is_empty_field (dict_get r f) = false) REQUIRED_FIELDS
      /\ version_key r ∈ existing_versions
  | Raise (InvalidDate text) =>
      Forall (fun f => is_empty_field (dict_get r f) = false) REQUIRED_FIELDS
      /\ (version_key r ∉ existing_versions)
      /\ text = Text.strip (py_str (dict_get r "DATE"))
      /\ date_parse text = None
  | Raise _ => False
  end.
Proof using required_order_perm.
  unfold validate_row.
  destruct (check_required required_order r) as [[]|e] eqn:Hreq; simpl.
  2:{ apply check_required_raises in Hreq as (f & Hf & -> & Hempty).
      split; [|done]. by rewrite <- required_order_perm. }
  apply required_fields_ok in Hreq. pose proof Hreq as Hall.
  assert (is_empty_field (dict_get r "DOCUMENT NUMBER 1") = false) as Hd.
  { eapply Forall_forall in Hall; [exact Hall|]. do 3 right; left. }
  assert (is_empty_field (dict_get r "VERSION") = false) as Hv.
  { eapply Forall_forall in Hall; [exact Hall|]. do 5 right; left. }
  assert (is_empty_field (dict_get r "DATE") = false) as Hdate.
  { eapply Forall_forall in Hall; [exact Hall|]. right; left. }
  rewrite (dict_item_get _ _ Hd). simpl. unfold normalize_doc_number. rewrite Hd. simpl.
  rewrite (dict_item_get _ _ Hv). simpl. unfold normalize_version. rewrite Hv. simpl.
  fold (version_key r). case_bool_decide as Hin; [done|].
  rewrite (dict_item_get _ _ Hdate). simpl. unfold coerce_date.
  destruct (dict_get r "DATE") as [|s|z|x] eqn:Hcell; simpl in *.
  - done.
  - rewrite Hdate. destruct (date_parse (Text.strip s)) as [x|] eqn:Hparse; simpl.
    + do 3 (split; [done|]). by exists x.
    + done.
  - rewrite Hdate.
    destruct (date_parse (Text.strip (str_int z))) as [x|] eqn:Hparse; simpl.
    + do 3 (split; [done|]). by exists x.
    + done.
  - do 3 (split; [done|]). by exists x.
Qed.

(** The rows loop gives every record it is handed exactly one outcome:
    the validated rows and the errors add up to the records; an error is
    recorded under the number [idx + k] exactly when the record at
    position [k] (from 0) fails to validate, with the error of that
    record; the numbers of the errors are strictly increasing. The
    program starts the count at 2. *)
Theorem validate_rows_accounts_for_every_row
    (transmittal_dir : folder) (log_file : string)
    (existing_versions : gset (string * string))
    (raw_rows : list record) (idx : nat) :
  length (validate_rows transmittal_dir log_file existing_versions
            raw_rows idx [] []).1
  + length (validate_rows transmittal_dir log_file existing_versions
              raw_rows idx [] []).2
  = length raw_rows
  /\ StronglySorted lt
       (validate_rows transmittal_dir log_file existing_versions
          raw_rows idx [] []).2.*1
  /\ (forall j e,
         (j, e) ∈ (validate_rows transmittal_dir log_file existing_versions
                     raw_rows idx [] []).2
         <-> exists k r,
               j = idx + k /\ raw_rows !! k = Some r
               /\ validate_row transmittal_dir log_file existing_versions r
                  = Raise e).
Proof.
  rewrite validate_rows_spec. simpl.
  revert idx. induction raw_rows as [|r rest IH]; intros idx; simpl.
  - split; [done|]. split; [constructor|].
    intros j e. split; [by intros ?%elem_of_nil|]. by intros (k & r & _ & ? & _).
  - destruct (IH (S idx)) as (Hlen & Hsorted & Hnumber).
    assert (Forall (fun j => idx < j)
              (row_errors transmittal_dir log_file existing_versions rest (S idx)).*1)
      as Hlater.
    { apply Forall_forall. intros j Hj.
      apply list_elem_of_fmap in Hj as ([j' e] & -> & Hin). simpl.
      apply Hnumber in Hin as (k & _ & -> & _). lia. }
    assert (forall j e,
              (exists k r0, j = S idx + k /\ rest !! k = Some r0
                 /\ validate_row transmittal_dir log_file existing_versions r0
                    = Raise e)
              -> exists k r0, j = idx + k /\ (r :: rest) !! k = Some r0
                 /\ validate_row transmittal_dir log_file existing_versions r0
                    = Raise e) as Hshift.
    { intros j e (k & r0 & -> & Hk & Hr0). exists (S k), r0.
      split; [lia|]. by split. }
    unfold valid_rows in *. simpl.
    destruct (validate_row transmittal_dir log_file existing_versions r) as [row|e0]
      eqn:Hr.
    + simpl. split; [lia|]. split; [done|].
      intros j e. rewrite Hnumber. split; [apply Hshift|].
      intros ([|k] & r0 & -> & Hk & Hr0); simpl in Hk.
      * injection Hk as <-. congruence.
      * exists k, r0. split; [lia|]. by split.
    + csimpl. split; [lia|]. split; [by constructor|].
      intros j e. rewrite elem_of_cons, Hnumber. split.
      * intros [[= -> ->]|H]; [|by apply Hshift].
        exists 0, r. split; [lia|]. by split.
      * intros ([|k] & r0 & -> & Hk & Hr0); simpl in Hk.
        -- injection Hk as <-. left. f_equal; [lia|congruence].
        -- right. exists k, r0. split; [lia|]. by split.
Qed.

(** ** Reading a manifest *)

Lemma existsb_is_none_false (cells : list val) :
  existsb is_none cells = false <-> Forall (fun h => h <> VNone) cells.
Proof.
  induction cells as [|h cells IH]; simpl.
  - split; [by constructor|done].
  - rewrite orb_false_iff, IH. split.
    + intros [Hh Hrest]. constructor; [|done]. intros ->. done.
    + intros H. apply Forall_cons in H as [Hh Hrest]. split; [|done].
      by destruct h.
Qed.

Lemma first_missing_none expected names :
  first_missing expected names = None <-> Forall (fun e => e ∈ names) expected.
Proof.
  induction expected as [|e rest IH]; simpl.
  - split; [by constructor|done].
  - case_bool_decide as He.
    + rewrite IH. split; [by constructor|]. intros H. by apply Forall_cons in H as [_ H].
    + split; [done|]. intros H. by apply Forall_cons in H as [H _].
Qed.

Lemma first_missing_some expected names e :
  first_missing expected names = Some e ->
  exists before after,
    expected = before ++ e :: after
    /\ (e ∉ names)
    /\ Forall (fun x => x ∈ names) before.
Proof.
  induction expected as [|x rest IH]; simpl; [done|].
  case_bool_decide as Hx.
  - intros H. destruct (IH H) as (before & after & -> & Hnot & Hall).
    exists (x :: before), after. split; [done|]. split; [done|]. by constructor.
  - intros [= ->]. exists [], rest. split; [done|]. split; [done|]. constructor.
Qed.

Lemma rmap_header_name_raise (cells : list val) e :
  rmap header_name cells = Raise e ->
  e = AttributeError /\ Exists (fun h => forall s, h <> VStr s) cells.
Proof.
  induction cells as [|h cells IH]; simpl; [done|].
  destruct h as [|s|z|d]; simpl.
  - intros [= <-]. split; [done|]. by left.
  - destruct (rmap header_name cells) as [names|e']; simpl; [done|].
    intros [= ->]. destruct (IH eq_refl) as [-> Hex]. split; [done|]. by right.
  - intros [= <-]. split; [done|]. by left.
  - intros [= <-]. split; [done|]. by left.
Qed.

Lemma rmap_header_name_ok (cells : list val) names :
  rmap header_name cells = Ok names ->
  Forall2 (fun h n => exists s, h = VStr s /\ n = normalize_header s) cells names.
Proof.
  revert names. induction cells as [|h cells IH]; intros names; simpl.
  - intros [= <-]. constructor.
  - destruct h as [|s|z|d]; simpl; try done.
    destruct (rmap header_name cells) as [rest|]; simpl; [|done].
    intros [= <-]. constructor; [by exists s|]. by apply IH.
Qed.

(** The outcomes of [read_sheet_rows]: it returns rows only when every
    header cell is text and every expected column occurs among the
    normalised header names, and then returns one record per row that is
    not blank, in the order of the sheet; it reports empty header cells
    when a header cell is [None], a missing column for the first of the
    expected columns that the header lacks, and fails on a header cell
    that is neither empty nor text. *)
Theorem read_sheet_rows_outcomes (sheet : table datetime) :
  match read_sheet_rows sheet with
  | Ok rows =>
      exists names,
        Forall2 (fun h n => exists s, h = VStr s /\ n = normalize_header s)
          (header sheet) names
        /\ Forall (fun e => e ∈ names) EXPECTED_HEADERS
        /\ rows = map (fun row => dict_of (zip names row))
                    (filter (fun row => forallb is_blank row = false) (body sheet))
  | Raise HeaderEmptyCells => VNone ∈ header sheet
  | Raise (MissingColumn expected) =>
      exists names before after,
        rmap header_name (header sheet) = Ok names
        /\ EXPECTED_HEADERS = before ++ expected :: after
        /\ (expected ∉ names)
        /\ Forall (fun x => x ∈ names) before
  | Raise AttributeError =>
      (VNone ∉ header sheet)
      /\ Exists (fun h => forall s, h <> VStr s) (header sheet)
  | Raise _ => False
  end.
Proof.
  unfold read_sheet_rows.
  destruct (existsb is_none (header sheet)) eqn:Hnone.
  { apply existsb_exists in Hnone as (h & Hin & Hh).
    destruct h; try done. by apply list_elem_of_In. }
  apply existsb_is_none_false in Hnone.
  destruct (rmap header_name (header sheet)) as [names|e] eqn:Hnames; cbn [rbind].
  - destruct (first_missing EXPECTED_HEADERS names) as [expected|] eqn:Hmiss.
    + apply first_missing_some in Hmiss as (before & after & Heq & Hnot & Hall).
      simpl. by exists names, before, after.
    + simpl. exists names. split; [by apply rmap_header_name_ok|].
      split; [by apply first_missing_none|].
      induction (body sheet) as [|row rows IH]; [done|].
      csimpl. rewrite filter_cons.
      destruct (forallb is_blank row) eqn:Hblank.
      * rewrite decide_False by done. exact IH.
      * rewrite decide_True by done. csimpl. by rewrite IH.
  - apply rmap_header_name_raise in Hnames as [-> Hex]. split; [|done].
    intros Hin. by apply (proj1 (Forall_forall _ _) Hnone _ Hin).
Qed.

(** A manifest whose header is in order but whose rows are all blank (or
    that has no row at all) is turned down for having no valid rows. *)
Theorem blank_manifest_has_no_valid_rows
    (transmittal_dir : folder) (log_file : string) (log : entry datetime)
    (existing_versions : gset (string * string)) (sheet : table datetime)
    (rows : list record) :
  load_log log = Ok sheet ->
  read_sheet_rows sheet = Ok rows ->
  Forall (fun row => forallb is_blank row = true) (body sheet) ->
  rows = []
  /\ validate_transmittal transmittal_dir log_file log existing_versions
     = Raise NoValidRows.
Proof.
  intros Hlog Hread Hblank.
  assert (rows = []) as ->.
  { unfold read_sheet_rows in Hread.
    destruct (existsb is_none (header sheet)); [done|].
    destruct (rmap header_name (header sheet)) as [names|]; cbn [rbind] in Hread;
      [|done].
    destruct (first_missing EXPECTED_HEADERS names); [done|].
    injection Hread as <-.
    induction Hblank as [|row rest Hrow _ IH]; [done|]. csimpl. by rewrite Hrow. }
  split; [done|]. unfold validate_transmittal. rewrite Hlog. simpl.
  by rewrite Hread.
Qed.

(** ** The file matcher *)

(** [find_matching_files] returns, in increasing order and without
    repetition, exactly the names of the regular files of the folder,
    other than the manifest, whose lower-cased name contains the
    document number; sub-folders and the manifest are never returned. *)
Theorem find_matching_files_sorted_matches
    (transmittal_dir : folder) (doc_number log_file : string) :
  Sorted String.le (find_matching_files transmittal_dir doc_number log_file)
  /\ NoDup (find_matching_files transmittal_dir doc_number log_file)
  /\ (forall f,
         f ∈ find_matching_files transmittal_dir doc_number log_file <->
         exists c, transmittal_dir !! f = Some (File c) /\ f <> log_file
                   /\ Text.contains doc_number (Text.lower f) = true)
  /\ (log_file ∉ find_matching_files transmittal_dir doc_number log_file)
  /\ (forall f, transmittal_dir !! f = Some Dir ->
                f ∉ find_matching_files transmittal_dir doc_number log_file).
Proof.
  assert (forall f,
             f ∈ find_matching_files transmittal_dir doc_number log_file <->
             exists c, transmittal_dir !! f = Some (File c) /\ f <> log_file
                       /\ Text.contains doc_number (Text.lower f) = true) as Helem.
  { intros f. rewrite find_matching_files_elem. unfold matching_entry. simpl. split.
    - intros (e & He & Hm). apply andb_true_iff in Hm as [Hm Hc].
      apply negb_true_iff, orb_false_iff in Hm as [Hlog Hfile].
      apply bool_decide_eq_false in Hlog. apply negb_false_iff in Hfile.
      destruct e as [c|]; [|done]. by exists c.
    - intros (c & Hc & Hlog & Hcontains). exists (File c). split; [done|].
      rewrite Hcontains. simpl. by rewrite bool_decide_eq_false_2. }
  split; [apply (Sorted_merge_sort String.le)|].
  split.
  { unfold find_matching_files. rewrite merge_sort_Permutation.
    eapply sublist_NoDup; [apply (NoDup_fst_map_to_list transmittal_dir)|].
    apply fmap_sublist, sublist_filter. }
  split; [exact Helem|]. split.
  - intros Hin. apply Helem in Hin as (c & _ & Hlog & _). done.
  - intros f Hdir Hin. apply Helem in Hin as (c & Hc & _). congruence.
Qed.

(** ** Creating and reopening a table *)

Lemma rmap_header_name_or_empty_text (headers : list string) :
  rmap header_name_or_empty (map (VStr (datetime := datetime)) headers)
  = Ok (map normalize_header headers).
Proof.
  induction headers as [|h rest IH]; simpl; [done|]. by rewrite IH.
Qed.

(** When the table does not exist, [ensure_workbook] creates it with the
    given header row (of at least one column) and no data row and touches
    nothing else; opening it again with the same headers succeeds,
    returns that sheet and writes nothing. *)
Theorem ensure_workbook_creates_then_reopens
    (path : store) (headers : list string) (s : fs) :
  headers <> [] ->
  read_store path s = None ->
  ensure_workbook path headers s
  = (Ok (Table (map VStr headers) []),
     write_store path (Sheet (Table (map VStr headers) [])) s)
  /\ read_store path (write_store path (Sheet (Table (map VStr headers) [])) s)
     = Some (Sheet (Table (map VStr headers) []))
  /\ same_tree s (write_store path (Sheet (Table (map VStr headers) [])) s)
  /\ ensure_workbook path headers
       (write_store path (Sheet (Table (map VStr headers) [])) s)
     = (Ok (Table (map VStr headers) []),
        write_store path (Sheet (Table (map VStr headers) [])) s).
Proof.
  intros _ Hnone.
  assert (read_store path (write_store path
            (Sheet (Table (map VStr headers) [])) s)
          = Some (Sheet (Table (map VStr headers) []))) as Hread
    by (by destruct path).
  split.
  { unfold ensure_workbook, bind, gets, modify, ret. by rewrite Hnone. }
  split; [done|]. split; [by destruct path|].
  unfold ensure_workbook, bind, gets, lift, ret. rewrite Hread. simpl.
  rewrite rmap_header_name_or_empty_text.
  by rewrite bool_decide_eq_true_2.
Qed.

(** ** What the version history index holds *)

Lemma collect_versions_elem doc_idx ver_idx rows seen out :
  collect_versions doc_idx ver_idx rows seen = Ok out ->
  forall d v,
    (d, v) ∈ out <->
    (d, v) ∈ seen
    \/ exists row version,
         row ∈ rows
         /\ is_blank (row_cell row doc_idx) = false
         /\ is_blank (row_cell row ver_idx) = false
         /\ normalize_doc_number (row_cell row doc_idx) = Ok d
         /\ normalize_version (row_cell row ver_idx) = Ok version
         /\ v = Text.lower version.
Proof.
  revert seen. induction rows as [|row rows IH]; intros seen; simpl.
  - intros [= <-] d v. split; [by left|]. intros [?|(row & ? & Hin & _)]; [done|].
    by apply elem_of_nil in Hin.
  - destruct (is_blank (row_cell row doc_idx) || is_blank (row_cell row ver_idx))
      eqn:Hblank.
    + intros H d v. rewrite (IH _ H d v). split.
      * intros [?|(r & version & Hin & Hrest)]; [by left|].
        right. exists r, version. split; [by right|done].
      * intros [?|(r & version & Hin & Hd & Hv & Hrest)]; [by left|].
        apply elem_of_cons in Hin as [->|Hin].
        -- rewrite Hd, Hv in Hblank. done.
        -- right. by exists r, version.
    + apply orb_false_iff in Hblank as [Hbd Hbv].
      destruct (normalize_doc_number (row_cell row doc_idx)) as [d0|] eqn:Hd0;
        simpl; [|done].
      destruct (normalize_version (row_cell row ver_idx)) as [v0|] eqn:Hv0;
        simpl; [|done].
      intros H d v. rewrite (IH _ H d v). rewrite elem_of_union, elem_of_singleton.
      split.
      * intros [[[= -> ->]|?]|(r & version & Hin & Hrest)].
        -- right. exists row, v0. split; [by left|done].
        -- by left.
        -- right. exists r, version. split; [by right|done].
      * intros [?|(r & version & Hin & Hbd' & Hbv' & Hd & Hv & ->)];
          [by left; right|].
        apply elem_of_cons in Hin as [->|Hin].
        -- left. left. congruence.
        -- right. by exists r, version.
Qed.

(** The index read from a history table: a pair is in it exactly when
    some row whose document and version cells are both non-empty
    normalises to it; the cells are taken from the last column named
    DOCUMENT NUMBER 1 and the last column named VERSION. *)
Theorem load_existing_versions_index
    (t : table datetime) (index : gset (string * string)) :
  load_existing_versions (Some (Sheet t)) = Ok index ->
  exists names doc_idx ver_idx,
    rmap header_name_or_empty (header t) = Ok names
    /\ last_index "DOCUMENT NUMBER 1" names = Some doc_idx
    /\ last_index "VERSION" names = Some ver_idx
    /\ forall d v,
         (d, v) ∈ index <->
         exists row version,
           row ∈ body t
           /\ is_blank (row_cell row doc_idx) = false
           /\ is_blank (row_cell row ver_idx) = false
           /\ normalize_doc_number (row_cell row doc_idx) = Ok d
           /\ normalize_version (row_cell row ver_idx) = Ok version
           /\ v = Text.lower version.
Proof.
  unfold load_existing_versions. simpl.
  destruct (rmap header_name_or_empty (header t)) as [names|] eqn:Hnames;
    cbn [rbind]; [|done].
  destruct (last_index "DOCUMENT NUMBER 1" names) as [doc_idx|] eqn:Hdoc; [|done].
  destruct (last_index "VERSION" names) as [ver_idx|] eqn:Hver; [|done].
  intros Hcollect. exists names, doc_idx, ver_idx. do 3 (split; [done|]).
  intros d v. rewrite (collect_versions_elem _ _ _ _ _ Hcollect d v).
  split; [|by right]. intros [Hin|?]; [|done]. by apply not_elem_of_empty in Hin.
Qed.

(** ** Accepted versions become part of the index *)

Lemma normalize_doc_number_not_blank (v : val) d :
  normalize_doc_number v = Ok d -> is_blank v = false.
Proof.
  unfold normalize_doc_number. destruct v as [|s|z|x]; simpl; try done.
  case_bool_decide as Hs; [done|]. intros _. apply bool_decide_eq_false_2.
  intros ->. by apply Hs.
Qed.

Lemma normalize_version_not_blank (v : val) x :
  normalize_version v = Ok x -> is_blank v = false.
Proof.
  unfold normalize_version. destruct v as [|s|z|y]; simpl; try done.
  case_bool_decide as Hs; [done|]. intros _. apply bool_decide_eq_false_2.
  intros ->. by apply Hs.
Qed.

Lemma append_to_database_ok rows s s' :
  append_to_database rows s = (Ok tt, s') ->
  exists head stored,
    database s' = Some (Sheet (Table head (stored ++ map database_values rows)))
    /\ rmap header_name_or_empty head = Ok (map normalize_header DATABASE_HEADERS)
    /\ (database s = None /\ stored = []
        \/ database s = Some (Sheet (Table head stored))).
Proof.
  unfold append_to_database, ensure_workbook, bind, gets, lift, modify, ret, raise.
  simpl. destruct (database s) as [[t|bytes]|] eqn:Hdb; simpl.
  - destruct (rmap header_name_or_empty (header t)) as [names|] eqn:Hnames; [|done].
    case_bool_decide as Heq; [|done]. intros [= <-]. simpl.
    rewrite foldl_sheet_append. exists (header t), (body t).
    split; [done|]. split; [by rewrite Hnames, Heq|]. right. by destruct t.
  - done.
  - intros [= <-]. simpl. rewrite foldl_sheet_append. simpl.
    exists (map VStr DATABASE_HEADERS), []. split; [done|].
    split; [apply rmap_header_name_or_empty_text|]. by left.
Qed.

Lemma collect_versions_validated transmittal_dir log_file existing_versions rows seen :
  Forall (fun row => exists r,
            validate_row transmittal_dir log_file existing_versions r = Ok row) rows ->
  collect_versions 4 7 (map database_values rows) seen =
  Ok (list_to_set
        (map (fun row => (normalized_doc row, Text.lower (normalized_version row)))
           rows) ∪ seen).
Proof.
  intros Hrows. revert seen.
  induction Hrows as [|row rest [r Hrow] _ IH]; intros seen; simpl.
  - f_equal. apply set_eq. intros x. rewrite elem_of_union. split; [by right|].
    intros [H|?]; [|done]. by apply not_elem_of_empty in H.
  - apply validate_row_inv in Hrow as (d & _ & Hraw & Hdoc & Hver & _).
    change (row_cell (database_values row) 4)
      with (dict_get (raw row) "DOCUMENT NUMBER 1").
    change (row_cell (database_values row) 7) with (dict_get (raw row) "VERSION").
    assert (dict_get (raw row) "DOCUMENT NUMBER 1" = dict_get r "DOCUMENT NUMBER 1")
      as ->.
    { rewrite Hraw. unfold dict_get. by rewrite lookup_insert_ne. }
    assert (dict_get (raw row) "VERSION" = dict_get r "VERSION") as ->.
    { rewrite Hraw. unfold dict_get. by rewrite lookup_insert_ne. }
    rewrite (normalize_doc_number_not_blank _ _ Hdoc).
    rewrite (normalize_version_not_blank _ _ Hver). simpl.
    rewrite Hdoc, Hver. simpl. rewrite IH. f_equal.
    apply set_eq. intros x. rewrite !elem_of_union, elem_of_singleton.
    split; [intros [?|[?|?]]|intros [[?|?]|?]]; auto.
Qed.

Lemma index_after_append transmittal_dir log_file existing_versions index rows s s' :
  Forall (fun row => exists r,
            validate_row transmittal_dir log_file existing_versions r = Ok row) rows ->
  load_existing_versions (database s) = Ok index ->
  append_to_database rows s = (Ok tt, s') ->
  load_existing_versions (database s') =
  Ok (list_to_set
        (map (fun row => (normalized_doc row, Text.lower (normalized_version row)))
           rows) ∪ index).
Proof.
  intros Hvalid Hindex Happend.
  apply append_to_database_ok in Happend as (head & stored & Hdb' & Hhead & Hold).
  assert (last_index "DOCUMENT NUMBER 1" (map normalize_header DATABASE_HEADERS)
          = Some 4) as Hdoc by reflexivity.
  assert (last_index "VERSION" (map normalize_header DATABASE_HEADERS) = Some 7)
    as Hver by reflexivity.
  rewrite Hdb'. unfold load_existing_versions. simpl. rewrite Hhead. cbn [rbind].
  rewrite Hdoc, Hver. rewrite collect_versions_app.
  assert (collect_versions 4 7 stored ∅ = Ok index) as ->.
  { destruct Hold as [[Hnone ->]|Hsome].
    - rewrite Hnone in Hindex. simpl in Hindex. by injection Hindex as <-.
    - rewrite Hsome in Hindex. unfold load_existing_versions in Hindex.
      simpl in Hindex. rewrite Hhead in Hindex. cbn [rbind] in Hindex.
      by rewrite Hdoc, Hver in Hindex. }
  cbn [rbind].
  by apply (collect_versions_validated transmittal_dir log_file existing_versions).
Qed.

(** Once [append_to_database] has stored the rows of an accepted
    transmittal, the index built from the history table is the index it
    was before together with the keys of those rows: a later transmittal
    that submits one of these versions again meets it in the index. *)
Theorem accepted_versions_enter_the_index
    (transmittal_dir : folder) (log_file : string) (log : entry datetime)
    (existing_versions index : gset (string * string))
    (rows : list TransmittalRow) (s s' : fs) :
  validate_transmittal transmittal_dir log_file log existing_versions = Ok rows ->
  load_existing_versions (database s) = Ok index ->
  append_to_database rows s = (Ok tt, s') ->
  load_existing_versions (database s') =
  Ok (list_to_set
        (map (fun row => (normalized_doc row, Text.lower (normalized_version row)))
           rows) ∪ index).
Proof.
  intros Hvalid. apply validate_transmittal_rows in Hvalid.
  by apply (index_after_append transmittal_dir log_file existing_versions).
Qed.

(** The rows of an accepted transmittal carry no version that the index
    held when the transmittal was validated. *)
Theorem accepted_rows_are_new_versions
    (transmittal_dir : folder) (log_file : string) (log : entry datetime)
    (existing_versions : gset (string * string)) (rows : list TransmittalRow) :
  validate_transmittal transmittal_dir log_file log existing_versions = Ok rows ->
  rows <> []
  /\ Forall (fun row =>
               (normalized_doc row, Text.lower (normalized_version row))
                 ∉ existing_versions) rows.
Proof.
  intros Hvalid. split.
  - unfold validate_transmittal in Hvalid.
    destruct (load_log log) as [sheet|]; simpl in Hvalid; [|done].
    destruct (read_sheet_rows sheet) as [raw_rows|]; simpl in Hvalid; [|done].
    destruct (validate_rows _ _ _ raw_rows 2 [] []) as [processed errors].
    apply decide_rows_ok in Hvalid as (Hsome & _ & ->). done.
  - apply validate_transmittal_rows in Hvalid.
    eapply Forall_impl; [exact Hvalid|]. intros row [r Hr].
    by apply validate_row_inv in Hr as (d & _ & _ & _ & _ & Hnew & _).
Qed.

(** ** Relocation and the verdicts of [process_transmittal] *)

(** [move_transmittal] raises and moves nothing when the folder is not
    in the pending root; otherwise only the pending root and the
    destination root change: the folder leaves the one and enters the
    other under the chosen name, with the files it had. *)
Theorem move_transmittal_frame (s : fs) (src : string) (r : root) :
  match pending s !! src with
  | None => move_transmittal src r s = (Raise FileNotFound, s)
  | Some d =>
      exists c s',
        move_transmittal src r s = (Ok c, s')
        /\ pending s' = delete src (pending s)
        /\ read_root r s' !! c = Some d
        /\ database s' = database s /\ doc_list s' = doc_list s
        /\ current s' = current s
        /\ match r with
           | AcceptedRoot => rejected s' = rejected s
           | RejectedRoot => accepted s' = accepted s
           end
  end.
Proof.
  destruct (pending s !! src) as [d|] eqn:Hsrc.
  - destruct (move_transmittal_run s src r d Hsrc) as (c & Hrun & _).
    exists c, (relocate src c d r s). split; [done|].
    destruct r; simpl; by rewrite lookup_insert_eq.
  - destruct (choose_candidate_spec (read_root r s) src) as (c & Hc & _).
    unfold move_transmittal, bind, gets, modify, ret, raise. simpl.
    by rewrite Hc, Hsrc.
Qed.

(** What an ended call of [process_transmittal] has done to the tree. *)
Lemma process_transmittal_moves s name dir v s' :
  pending s !! name = Some dir ->
  process_transmittal name s = (Ok v, s') ->
  pending s' = delete name (pending s)
  /\ ((exists moved, v = Accepted moved /\ accepted s !! moved = None
                     /\ accepted s' = <[moved := dir]> (accepted s)
                     /\ rejected s' = rejected s)
      \/ (exists moved, v = Rejected moved /\ rejected s !! moved = None
                        /\ rejected s' = <[moved := dir]> (rejected s)
                        /\ accepted s' = accepted s
                        /\ database s' = database s /\ doc_list s' = doc_list s
                        /\ current s' = current s)).
Proof.
  intros Hdir. unfold process_transmittal.
  unfold bind at 1. unfold gets at 1. rewrite Hdir. simpl.
  destruct (move_transmittal_run s name RejectedRoot dir Hdir)
    as (rej & Hrej & Hrej_free).
  destruct (dir !! (name +:+ ".xlsx")) as [log|] eqn:Hlog.
  - unfold bind at 1. unfold gets at 1.
    unfold bind at 1. unfold lift at 1.
    destruct (load_existing_versions (database s)) as [index|]; [|done].
    destruct (validate_transmittal dir (name +:+ ".xlsx") log index)
      as [rows|e] eqn:Hvalid.
    + unfold bind at 1.
      destruct (append_to_database rows s) as [[[]|] s1] eqn:Happend; [|done].
      unfold bind at 1.
      destruct (update_document_list rows s1) as [[[]|] s2] eqn:Hupdate; [|done].
      apply validated_rows_list_matches in Hvalid.
      unfold bind at 1. unfold sync_current_files.
      rewrite (sync_rows_pure dir (name +:+ ".xlsx") rows ∅ s2 Hvalid).
      apply append_to_database_tree in Happend as (_ & Hp1 & Ha1 & Hr1).
      apply update_document_list_tree in Hupdate as (_ & Hp2 & Ha2 & Hr2).
      set (s3 := set_current (sync_result dir rows ∅ (current s2)) s2).
      assert (pending s3 !! name = Some dir) as Hdir3.
      { simpl. by rewrite Hp2, Hp1. }
      destruct (move_transmittal_run s3 name AcceptedRoot dir Hdir3)
        as (acc & Hacc & Hacc_free).
      unfold bind, ret. rewrite Hacc. intros [= <- <-]. simpl in *.
      rewrite Hp2, Hp1, Ha2, Ha1, Hr2, Hr1. rewrite Ha2, Ha1 in Hacc_free.
      split; [done|]. left. by exists acc.
    + unfold bind, ret. rewrite Hrej. intros [= <- <-].
      split; [done|]. right. by exists rej.
  - unfold bind, ret. rewrite Hrej. intros [= <- <-].
    split; [done|]. right. by exists rej.
Qed.

(** A transmittal folder without its manifest is rejected at once: the
    history table is not even opened, so this holds whatever state that
    table is in; nothing but the two roots changes. *)
Theorem missing_manifest_is_rejected (s : fs) (name : string) (dir : folder) :
  pending s !! name = Some dir ->
  dir !! (name +:+ ".xlsx") = None ->
  exists moved,
    process_transmittal name s
    = (Ok (Rejected moved), relocate name moved dir RejectedRoot s)
    /\ rejected s !! moved = None.
Proof.
  intros Hdir Hlog.
  destruct (move_transmittal_run s name RejectedRoot dir Hdir)
    as (moved & Hmove & Hfree).
  exists moved. split; [|done]. unfold process_transmittal.
  unfold bind at 1. unfold gets at 1. rewrite Hdir. simpl. rewrite Hlog.
  unfold bind, ret. by rewrite Hmove.
Qed.

(** Whatever makes the outer [try] fail (a manifest that is no workbook,
    a header row that is not in order, no valid row, a row error), the
    transmittal is rejected and the tables and the mirror stay as they
    are. *)
Theorem failed_validation_is_rejected
    (s : fs) (name : string) (dir : folder) (log : entry datetime)
    (existing_versions : gset (string * string)) (e : error) :
  pending s !! name = Some dir ->
  dir !! (name +:+ ".xlsx") = Some log ->
  load_existing_versions (database s) = Ok existing_versions ->
  validate_transmittal dir (name +:+ ".xlsx") log existing_versions = Raise e ->
  exists moved,
    process_transmittal name s
    = (Ok (Rejected moved), relocate name moved dir RejectedRoot s)
    /\ rejected s !! moved = None.
Proof.
  intros Hdir Hlog Hindex Hvalid.
  destruct (move_transmittal_run s name RejectedRoot dir Hdir)
    as (moved & Hmove & Hfree).
  exists moved. split; [|done].
  rewrite (process_transmittal_unfold s name dir log existing_versions) by done.
  rewrite Hvalid. unfold bind, ret. by rewrite Hmove.
Qed.

(** When the manifest exists but the history table cannot be read (it
    is no workbook, or its header row lacks one of the two columns, or a
    stored cell does not normalise), [process_transmittal] raises that
    error before validating anything: the folder stays pending and
    nothing is written. *)
Theorem unreadable_history_aborts
    (s : fs) (name : string) (dir : folder) (log : entry datetime) (e : error) :
  pending s !! name = Some dir ->
  dir !! (name +:+ ".xlsx") = Some log ->
  load_existing_versions (database s) = Raise e ->
  process_transmittal name s = (Raise e, s)
  /\ forall rest, process_all (name :: rest) s = (Raise e, s).
Proof.
  intros Hdir Hlog Hindex.
  assert (process_transmittal name s = (Raise e, s)) as Hrun.
  { unfold process_transmittal.
    unfold bind at 1. unfold gets at 1. rewrite Hdir. simpl. rewrite Hlog.
    unfold bind at 1. unfold gets at 1.
    unfold bind at 1. unfold lift at 1. by rewrite Hindex. }
  split; [done|]. intros rest. simpl. unfold bind. by rewrite Hrun.
Qed.

(** ** The run over the pending root *)

Lemma process_all_outcome names s s' :
  NoDup names ->
  (forall n, n ∈ names -> is_Some (pending s !! n)) ->
  process_all names s = (Ok tt, s') ->
  (forall k, pending s' !! k = if bool_decide (k ∈ names) then None else pending s !! k)
  /\ (forall n dir, n ∈ names -> pending s !! n = Some dir ->
        exists moved, accepted s' !! moved = Some dir
                      \/ rejected s' !! moved = Some dir)
  /\ (forall m d, accepted s !! m = Some d -> accepted s' !! m = Some d)
  /\ (forall m d, rejected s !! m = Some d -> rejected s' !! m = Some d).
Proof.
  intros Hnd. revert s. induction Hnd as [|name rest Hfresh Hnd IH]; intros s Hall.
  - simpl. intros [= <-]. split; [|split; [|done]].
    + done.
    + intros n dir Hn. by apply elem_of_nil in Hn.
  - simpl. unfold bind.
    destruct (process_transmittal name s) as [[v|] s1] eqn:Hstep; [|done].
    destruct (Hall name ltac:(left)) as [dir Hdir].
    destruct (process_transmittal_moves s name dir v s1 Hdir Hstep)
      as (Hpending & Hroots).
    intros Hrest.
    assert (forall n, n ∈ rest -> is_Some (pending s1 !! n)) as Hall1.
    { intros n Hn. rewrite Hpending, lookup_delete_ne.
      - apply Hall. by right.
      - intros ->. done. }
    destruct (IH s1 Hall1 Hrest) as (Hp & Hmoved & Hacc & Hrej).
    assert ((forall m d, accepted s !! m = Some d -> accepted s1 !! m = Some d)
            /\ (forall m d, rejected s !! m = Some d -> rejected s1 !! m = Some d)
            /\ exists moved, accepted s1 !! moved = Some dir
                             \/ rejected s1 !! moved = Some dir)
      as (Hacc1 & Hrej1 & Hhere).
    { destruct Hroots as [(m & _ & Hfree & Ha & Hr)|(m & _ & Hfree & Hr & Ha & _)].
      - rewrite Ha, Hr. split; [|split; [done|]].
        + intros k d Hk. rewrite lookup_insert_ne; [done|]. congruence.
        + exists m. left. by rewrite lookup_insert_eq.
      - rewrite Ha, Hr. split; [done|]. split.
        + intros k d Hk. rewrite lookup_insert_ne; [done|]. congruence.
        + exists m. right. by rewrite lookup_insert_eq. }
    split; [|split; [|split]].
    + intros k. rewrite Hp. destruct (decide (k = name)) as [->|Hne].
      * rewrite (bool_decide_eq_true_2 (name ∈ name :: rest)) by left.
        case_bool_decide; [done|]. by rewrite Hpending, lookup_delete_eq.
      * rewrite Hpending, lookup_delete_ne by done.
        destruct (bool_decide (k ∈ rest)) eqn:Hk.
        -- apply bool_decide_eq_true in Hk.
           by rewrite (bool_decide_eq_true_2 (k ∈ name :: rest)) by (by right).
        -- apply bool_decide_eq_false in Hk.
           rewrite (bool_decide_eq_false_2 (k ∈ name :: rest)); [done|].
           intros H. apply elem_of_cons in H as [?|?]; done.
    + intros n d Hn Hd. apply elem_of_cons in Hn as [->|Hn].
      * assert (d = dir) as -> by congruence.
        destruct Hhere as [m [Hm|Hm]]; exists m; [left; by apply Hacc|right; by apply Hrej].
      * apply (Hmoved n d Hn). rewrite Hpending, lookup_delete_ne; [done|].
        intros ->. done.
    + intros m d Hm. by apply Hacc, Hacc1.
    + intros m d Hm. by apply Hrej, Hrej1.
Qed.

(** A run of [process_project] that ends without an exception leaves the
    pending root empty: every folder that was pending is, with its
    files, under the accepted or the rejected root, and every folder
    these roots already held is still there. *)
Theorem process_project_relocates_every_transmittal (s s' : fs) :
  process_project s = (Ok tt, s') ->
  pending s' = ∅
  /\ (forall name dir, pending s !! name = Some dir ->
        exists moved, accepted s' !! moved = Some dir
                      \/ rejected s' !! moved = Some dir)
  /\ (forall m d, accepted s !! m = Some d -> accepted s' !! m = Some d)
  /\ (forall m d, rejected s !! m = Some d -> rejected s' !! m = Some d).
Proof.
  unfold process_project, bind, gets. intros Hrun.
  set (names := merge_sort String.le (map fst (map_to_list (pending s)))) in *.
  assert (forall n, n ∈ names <-> is_Some (pending s !! n)) as Hnames.
  { intros n. unfold names. rewrite merge_sort_Permutation.
    rewrite list_elem_of_fmap. split.
    - intros ([k d] & -> & Hin). apply elem_of_map_to_list in Hin. by exists d.
    - intros [d Hd]. exists (n, d). split; [done|]. by apply elem_of_map_to_list. }
  assert (NoDup names) as Hnd.
  { unfold names. rewrite merge_sort_Permutation.
    apply (NoDup_fst_map_to_list (pending s)). }
  destruct (process_all_outcome names s s' Hnd (fun n Hn => proj1 (Hnames n) Hn) Hrun)
    as (Hp & Hmoved & Hacc & Hrej).
  split; [|split; [|done]].
  - apply map_eq. intros k. rewrite Hp, lookup_empty.
    case_bool_decide as Hk; [done|].
    apply eq_None_not_Some. intros Hsome. by apply Hk, Hnames.
  - intros name dir Hdir. apply (Hmoved name dir); [|done].
    apply Hnames. by exists dir.
Qed.

(** ** Repeating the synchronisation *)

(** Synchronising the mirror a second time with the rows of the same
    accepted transmittal changes nothing, and no directory of the mirror
    is ever removed or replaced by a file. *)
Theorem sync_current_files_idempotent
    (transmittal_dir : folder) (log_file : string) (log : entry datetime)
    (existing_versions : gset (string * string))
    (rows : list TransmittalRow) (s s1 : fs) :
  validate_transmittal transmittal_dir log_file log existing_versions = Ok rows ->
  sync_current_files transmittal_dir rows s = (Ok tt, s1) ->
  sync_current_files transmittal_dir rows s1 = (Ok tt, s1)
  /\ (forall f, current s !! f = Some Dir -> current s1 !! f = Some Dir).
Proof.
  intros Hvalid Hsync. apply validated_rows_list_matches in Hvalid.
  unfold sync_current_files in *.
  rewrite (sync_rows_pure transmittal_dir log_file rows ∅ s Hvalid) in Hsync.
  injection Hsync as <-.
  rewrite (sync_rows_pure transmittal_dir log_file rows ∅ _ Hvalid).
  set (cur1 := sync_result transmittal_dir rows ∅ (current s)).
  assert (forall f, cur1 !! f =
                    if decide (Exists (fun row => f ∈ filenames row) rows)
                    then match transmittal_dir !! f with
                         | Some (File c) => overwritten c (current s !! f)
                         | _ => cur1 !! f
                         end
                    else match current s !! f with
                         | Some e => if purged ∅ rows f e then None else Some e
                         | None => None
                         end) as Hcur1.
  { intros f.
    destruct (sync_result_lookup transmittal_dir log_file rows ∅ (current s) f Hvalid)
      as [Hlisted Hunlisted].
    destruct (decide (Exists (fun row => f ∈ filenames row) rows)) as [Hex|Hnot].
    - destruct (Hlisted Hex) as (c & Hc & Hres). by rewrite Hc.
    - by apply Hunlisted. }
  split.
  - simpl. f_equal. rewrite set_current_twice. f_equal.
    apply map_eq. intros f.
    destruct (sync_result_lookup transmittal_dir log_file rows ∅ cur1 f Hvalid)
      as [Hlisted Hunlisted].
    specialize (Hcur1 f).
    destruct (decide (Exists (fun row => f ∈ filenames row) rows)) as [Hex|Hnot].
    + destruct (Hlisted Hex) as (c & Hc & Hres). rewrite Hres.
      rewrite Hc in Hcur1. rewrite Hcur1. apply overwritten_twice.
    + rewrite (Hunlisted Hnot). rewrite Hcur1.
      destruct (current s !! f) as [e|]; [|done].
      destruct (purged ∅ rows f e) eqn:Hp; [done|]. by rewrite Hp.
  - intros f Hdir. simpl. rewrite (Hcur1 f).
    destruct (decide (Exists (fun row => f ∈ filenames row) rows)) as [Hex|Hnot].
    + destruct (proj1 (sync_result_lookup transmittal_dir log_file rows ∅
                         (current s) f Hvalid) Hex) as (c & Hc & _).
      by rewrite Hc, Hdir.
    + by rewrite Hdir, purged_dir.
Qed.

(** ** Records built from a header and a row *)

Lemma dict_zip_lookup_other (ks : list string) (vs : list val) (m : record) k :
  k ∉ ks ->
  foldl (fun acc kv => <[kv.1 := kv.2]> acc) m (zip ks vs) !! k = m !! k.
Proof.
  revert vs m. induction ks as [|k0 ks IH]; intros vs m Hk; [done|].
  destruct vs as [|v0 vs]; [done|]. simpl.
  rewrite IH by (intros H; apply Hk; by right).
  rewrite lookup_insert_ne; [done|]. intros ->. apply Hk. by left.
Qed.

Lemma dict_zip_lookup (ks : list string) (vs : list val) (m : record) i k :
  NoDup ks -> ks !! i = Some k ->
  foldl (fun acc kv => <[kv.1 := kv.2]> acc) m (zip ks vs) !! k =
  match vs !! i with
  | Some v => Some v
  | None => m !! k
  end.
Proof.
  revert vs m i. induction ks as [|k0 ks IH]; intros vs m i Hnd Hi; [done|].
  apply NoDup_cons in Hnd as [Hk0 Hnd].
  destruct vs as [|v0 vs]; [by destruct i|].
  destruct i as [|j]; simpl in *.
  - injection Hi as ->. rewrite dict_zip_lookup_other by done.
    by rewrite lookup_insert_eq.
  - rewrite (IH vs _ j Hnd Hi). destruct (vs !! j); [done|].
    rewrite lookup_insert_ne; [done|]. intros ->.
    apply Hk0. by eapply list_elem_of_lookup_2.
Qed.

Lemma dict_of_zip_get (names : list string) (cells : list val) i name :
  NoDup names -> names !! i = Some name ->
  dict_get (dict_of (zip names cells)) name = row_cell cells i.
Proof.
  intros Hnd Hi. unfold dict_get, dict_of, row_cell.
  rewrite (dict_zip_lookup names cells ∅ i name Hnd Hi).
  destruct (cells !! i); [done|]. by rewrite lookup_empty.
Qed.

(** ** Documents that a transmittal does not touch *)

Lemma header_names_text (head : list val) names :
  rmap header_name_or_empty head = Ok names ->
  Forall (fun n => n <> EmptyString) names ->
  rmap header_name head = Ok names.
Proof.
  revert names. induction head as [|h head IH]; intros names; simpl; [done|].
  destruct h as [|s|z|d]; simpl.
  - destruct (rmap header_name_or_empty head) as [rest|]; simpl; [|done].
    intros [= <-] H. by apply Forall_cons in H as [H _].
  - destruct (rmap header_name_or_empty head) as [rest|]; simpl; [|done].
    intros [= <-] H. apply Forall_cons in H as [_ H]. by rewrite (IH rest).
  - case_bool_decide as Hz; simpl; [|done].
    destruct (rmap header_name_or_empty head) as [rest|]; simpl; [|done].
    intros [= <-] H. by apply Forall_cons in H as [H _].
  - done.
Qed.

Lemma rmap_zip_header (head : list val) names (cells : list val) :
  rmap header_name head = Ok names ->
  rmap (fun hc : val * val => (h <- header_name hc.1 ;; Ok (h, hc.2))%result)
    (zip head cells) = Ok (zip names cells).
Proof.
  revert names cells. induction head as [|h head IH]; intros names cells; simpl.
  - by intros [= <-].
  - destruct (header_name h) as [n|] eqn:Hh; simpl; [|done].
    destruct (rmap header_name head) as [rest|] eqn:Hrest; simpl; [|done].
    intros [= <-]. destruct cells as [|c cells]; simpl; [done|].
    rewrite Hh. simpl. by rewrite (IH rest cells).
Qed.

(** The last stored row of the index for a document: not blank, and its
    document cell normalises to the document. *)
Fixpoint last_stored (doc : string) (rows : list (list val)) : option (list val) :=
  match rows with
  | [] => None
  | cells :: rest =>
      match last_stored doc rest with
      | Some later => Some later
      | None =>
          if forallb is_blank cells then None
          else match stored_doc cells with
               | Ok d => if bool_decide (d = doc) then Some cells else None
               | Raise _ => None
               end
      end
  end.

Lemma expected_headers_NoDup : NoDup EXPECTED_HEADERS.
Proof. apply (bool_decide_unpack (NoDup EXPECTED_HEADERS)). by vm_compute. Qed.

Lemma stored_doc_of_record (cells : list val) dc :
  dict_item (dict_of (zip EXPECTED_HEADERS cells)) "DOCUMENT NUMBER 1" = Ok dc ->
  stored_doc cells = normalize_doc_number dc.
Proof.
  intros Hitem. apply dict_item_ok in Hitem.
  rewrite (dict_of_zip_get EXPECTED_HEADERS cells 4 "DOCUMENT NUMBER 1"
             expected_headers_NoDup eq_refl) in Hitem.
  unfold stored_doc. by rewrite Hitem.
Qed.

Lemma load_document_list_last head rows existing final doc :
  rmap header_name head = Ok EXPECTED_HEADERS ->
  load_document_list head rows existing = Ok final ->
  odict_get doc final =
  match last_stored doc rows with
  | Some cells => Some (dict_of (zip EXPECTED_HEADERS cells))
  | None => odict_get doc existing
  end.
Proof.
  intros Hhead. revert existing.
  induction rows as [|cells rows IH]; intros existing.
  - cbn [load_document_list last_stored]. by intros [= <-].
  - cbn [load_document_list last_stored].
    destruct (forallb is_blank cells) eqn:Hblank.
    + intros H. rewrite (IH _ H). by destruct (last_stored doc rows).
    + rewrite (rmap_zip_header head EXPECTED_HEADERS cells Hhead). cbn [rbind].
      destruct (dict_item (dict_of (zip EXPECTED_HEADERS cells)) "DOCUMENT NUMBER 1")
        as [dc|] eqn:Hitem; cbn [rbind]; [|done].
      rewrite (stored_doc_of_record cells dc Hitem).
      destruct (normalize_doc_number dc) as [d|]; cbn [rbind]; [|done].
      intros H. rewrite (IH _ H). destruct (last_stored doc rows); [done|].
      rewrite odict_get_set. by case_bool_decide.
Qed.

Lemma last_for_none doc rows :
  Forall (fun row => normalized_doc row <> doc) rows -> last_for doc rows = None.
Proof.
  induction 1 as [|row rows Hrow _ IH]; simpl; [done|].
  rewrite IH. by rewrite bool_decide_eq_false_2.
Qed.

Lemma document_values_zip (cells : list val) :
  length cells = length EXPECTED_HEADERS ->
  document_values (dict_of (zip EXPECTED_HEADERS cells)) = cells.
Proof.
  intros Hlen. apply list_eq. intros i. unfold document_values.
  rewrite list_lookup_fmap.
  destruct (EXPECTED_HEADERS !! i) as [h|] eqn:Hi;
    cbn [fmap option_fmap option_map].
  - rewrite (dict_of_zip_get EXPECTED_HEADERS cells i h expected_headers_NoDup Hi).
    unfold row_cell. apply lookup_lt_Some in Hi. rewrite <- Hlen in Hi.
    apply lookup_lt_is_Some in Hi as [v Hv]. by rewrite Hv.
  - apply lookup_ge_None in Hi. rewrite <- Hlen in Hi.
    symmetry. by apply lookup_ge_None.
Qed.

(** The merge leaves the other documents alone: when the index exists
    and [update_document_list] succeeds, the last stored row of a
    document that no row of the transmittal names is in the rewritten
    index, cell for cell over the thirteen columns (a shorter row is
    filled up with empty cells, a longer one is cut). *)
Theorem update_document_list_keeps_other_documents
    (rows : list TransmittalRow) (s s' : fs) (t : table datetime)
    (doc : string) (cells : list val) :
  doc_list s = Some (Sheet t) ->
  update_document_list rows s = (Ok tt, s') ->
  last_stored doc (body t) = Some cells ->
  Forall (fun row => normalized_doc row <> doc) rows ->
  exists t',
    doc_list s' = Some (Sheet t')
    /\ header t' = header t
    /\ document_values (dict_of (zip EXPECTED_HEADERS cells)) ∈ body t'
    /\ (length cells = 13 -> cells ∈ body t').
Proof.
  intros Hstore Hupdate Hlast Hother.
  apply update_document_list_ok in Hupdate as (sheet & s1 & existing & Hopen & Hload & ->).
  assert (sheet = t
          /\ rmap header_name_or_empty (header t)
             = Ok (map normalize_header EXPECTED_HEADERS)) as [-> Hhead].
  { revert Hopen. unfold ensure_workbook, bind, gets, lift, ret, raise. simpl.
    rewrite Hstore. simpl.
    destruct (rmap header_name_or_empty (header t)) as [names|]; [|done].
    case_bool_decide as Heq; [|done]. intros [= <- _]. by rewrite Heq. }
  apply header_names_text in Hhead.
  2:{ apply (bool_decide_unpack
               (Forall (fun n => n <> EmptyString)
                  (map normalize_header EXPECTED_HEADERS))).
      by vm_compute. }
  change (map normalize_header EXPECTED_HEADERS) with EXPECTED_HEADERS in Hhead.
  pose proof (load_document_list_last _ _ _ _ doc Hhead Hload) as Hget.
  rewrite Hlast in Hget.
  pose proof (foldl_odict_set_get doc rows existing) as Hfinal.
  rewrite (last_for_none doc rows Hother), Hget in Hfinal.
  apply odict_get_elem in Hfinal.
  eexists. split; [reflexivity|]. split; [done|].
  assert (document_values (dict_of (zip EXPECTED_HEADERS cells))
            ∈ map (fun kr : string * record => document_values kr.2)
                (foldl (fun d row => odict_set (normalized_doc row) (raw row) d)
                   existing rows)) as Hin.
  { apply list_elem_of_fmap.
    by exists (doc, dict_of (zip EXPECTED_HEADERS cells)). }
  split; [exact Hin|]. intros Hlen. by rewrite document_values_zip in Hin.
Qed.

(** ** Cells of a manifest row *)

(** Under a header row without repeated names, every record that
    [read_sheet_rows] returns reads, for each header name, the cell of
    that column in its row (an empty cell when the row ends before the
    column). *)
Theorem read_sheet_rows_cells
    (sheet : table datetime) (names : list string) (rows : list record) :
  rmap header_name (header sheet) = Ok names ->
  NoDup names ->
  read_sheet_rows sheet = Ok rows ->
  Forall2 (fun rec cells =>
             forall i name, names !! i = Some name ->
                            dict_get rec name = row_cell cells i)
    rows (filter (fun cells => forallb is_blank cells = false) (body sheet)).
Proof.
  intros Hnames Hnd. unfold read_sheet_rows.
  destruct (existsb is_none (header sheet)); [done|].
  rewrite Hnames. cbn [rbind].
  destruct (first_missing EXPECTED_HEADERS names); [done|]. intros [= <-].
  induction (body sheet) as [|cells rest IH]; [constructor|].
  csimpl. rewrite filter_cons.
  destruct (forallb is_blank cells) eqn:Hblank.
  - rewrite decide_False by done. exact IH.
  - rewrite decide_True by done. constructor; [|exact IH].
    intros i name Hi. by apply dict_of_zip_get.
Qed.

(** ** Submitting an accepted transmittal again *)

Lemma validate_row_repeated transmittal_dir log_file existing_versions r row
    transmittal_dir' log_file' existing_versions' :
  validate_row transmittal_dir log_file existing_versions r = Ok row ->
  (normalized_doc row, Text.lower (normalized_version row)) ∈ existing_versions' ->
  exists e, validate_row transmittal_dir' log_file' existing_versions' r = Raise e.
Proof.
  unfold validate_row.
  destruct (check_required required_order r) as [[]|]; simpl; [|done].
  destruct (dict_item r "DOCUMENT NUMBER 1") as [dc|]; simpl; [|done].
  destruct (normalize_doc_number dc) as [ndoc|]; simpl; [|done].
  destruct (dict_item r "VERSION") as [vc|]; simpl; [|done].
  destruct (normalize_version vc) as [nver|]; simpl; [|done].
  case_bool_decide as Hold; [done|].
  destruct (dict_item r "DATE") as [date_cell|]; simpl; [|done].
  destruct (coerce_date date_cell) as [d|]; simpl; [|done].
  intros [= <-]. simpl. intros Hin.
  rewrite bool_decide_eq_true_2 by done. by eexists.
Qed.

Lemma row_errors_none transmittal_dir log_file existing_versions raw_rows idx :
  row_errors transmittal_dir log_file existing_versions raw_rows idx = [] ->
  Forall (fun r => exists row,
            validate_row transmittal_dir log_file existing_versions r = Ok row
            /\ row ∈ valid_rows transmittal_dir log_file existing_versions raw_rows)
    raw_rows.
Proof.
  revert idx. induction raw_rows as [|r rest IH]; intros idx; simpl; [constructor|].
  unfold valid_rows. csimpl.
  destruct (validate_row transmittal_dir log_file existing_versions r) as [row|]
    eqn:Hr; [|done].
  intros Hnone. constructor.
  - exists row. split; [done|]. left.
  - eapply Forall_impl; [exact (IH _ Hnone)|].
    intros r' (row' & Hr' & Hin). exists row'. split; [done|]. by right.
Qed.

Lemma valid_rows_none transmittal_dir log_file existing_versions raw_rows :
  Forall (fun r => exists e,
            validate_row transmittal_dir log_file existing_versions r = Raise e)
    raw_rows ->
  valid_rows transmittal_dir log_file existing_versions raw_rows = [].
Proof.
  induction 1 as [|r rest [e He] _ IH]; [done|].
  unfold valid_rows in *. csimpl. by rewrite He.
Qed.

Lemma update_document_list_database rows s r s' :
  update_document_list rows s = (r, s') -> database s' = database s.
Proof.
  unfold update_document_list, ensure_workbook, bind, gets, lift, modify, ret, raise.
  simpl. destruct (doc_list s) as [[t|bytes]|]; simpl.
  - destruct (rmap header_name_or_empty (header t)) as [names|]; [|by intros [= _ <-]].
    case_bool_decide; [|by intros [= _ <-]].
    destruct (load_document_list (header t) (body t) []); by intros [= _ <-].
  - by intros [= _ <-].
  - by intros [= _ <-].
Qed.

Lemma move_transmittal_database src r s res s' :
  move_transmittal src r s = (res, s') -> database s' = database s.
Proof.
  unfold move_transmittal, bind, gets, modify, ret, raise. simpl.
  destruct (choose_candidate (read_root r s) src) as [c|]; simpl;
    [|by intros [= _ <-]].
  destruct (pending s !! src) as [d|]; simpl; [|by intros [= _ <-]].
  intros [= _ <-]. by destruct r.
Qed.

(** A transmittal that was accepted is rejected when its manifest is
    submitted again, under any folder name and with any files, as long as
    the history table is the one the acceptance left: every row now
    meets its own version in the index. *)
Theorem resubmission_is_rejected
    (s s1 s2 : fs) (name name2 moved : string) (dir dir2 : folder)
    (log : entry datetime) :
  pending s !! name = Some dir ->
  dir !! (name +:+ ".xlsx") = Some log ->
  process_transmittal name s = (Ok (Accepted moved), s1) ->
  pending s2 !! name2 = Some dir2 ->
  dir2 !! (name2 +:+ ".xlsx") = Some log ->
  database s2 = database s1 ->
  exists moved2,
    process_transmittal name2 s2
    = (Ok (Rejected moved2), relocate name2 moved2 dir2 RejectedRoot s2)
    /\ rejected s2 !! moved2 = None.
Proof.
  intros Hdir Hlog Hrun Hdir2 Hlog2 Hdb.
  remember (process_transmittal name2 s2) as second eqn:Hsecond.
  (* what the accepted run did *)
  revert Hrun. unfold process_transmittal.
  unfold bind at 1. unfold gets at 1. rewrite Hdir. simpl. rewrite Hlog.
  unfold bind at 1. unfold gets at 1.
  unfold bind at 1. unfold lift at 1.
  destruct (load_existing_versions (database s)) as [index|] eqn:Hindex; [|done].
  destruct (validate_transmittal dir (name +:+ ".xlsx") log index)
    as [rows|e] eqn:Hvalid.
  2:{ unfold bind, ret.
      by destruct (move_transmittal name RejectedRoot s) as [[?|] ?]. }
  unfold bind at 1.
  destruct (append_to_database rows s) as [[[]|] sa] eqn:Happend; [|done].
  unfold bind at 1.
  destruct (update_document_list rows sa) as [[[]|] sb] eqn:Hupdate; [|done].
  pose proof (validated_rows_list_matches _ _ _ _ _ Hvalid) as Hmatches.
  unfold bind at 1. unfold sync_current_files.
  rewrite (sync_rows_pure dir (name +:+ ".xlsx") rows ∅ sb Hmatches).
  unfold bind, ret.
  destruct (move_transmittal name AcceptedRoot _) as [[acc|] sc] eqn:Hmove; [|done].
  intros [= -> <-].
  assert (database sc = database sa) as Hdbc.
  { apply move_transmittal_database in Hmove. rewrite Hmove. simpl.
    by apply (update_document_list_database rows sa (Ok tt) sb). }
  (* the index of the second run *)
  pose proof (validate_transmittal_rows _ _ _ _ _ Hvalid) as Hrows.
  pose proof (index_after_append _ _ _ _ _ _ _ Hrows Hindex Happend) as Hindex2.
  rewrite <- Hdbc, <- Hdb in Hindex2.
  (* every row fails against it *)
  unfold validate_transmittal in Hvalid.
  destruct (load_log log) as [sheet|] eqn:Hsheet; simpl in Hvalid; [|done].
  destruct (read_sheet_rows sheet) as [raw_rows|] eqn:Hread; simpl in Hvalid; [|done].
  rewrite validate_rows_spec in Hvalid. simpl in Hvalid.
  apply decide_rows_ok in Hvalid as (_ & Hnone & ->).
  apply row_errors_none in Hnone.
  set (index2 := list_to_set
                   (map (fun row => (normalized_doc row,
                                     Text.lower (normalized_version row)))
                      (valid_rows dir (name +:+ ".xlsx") index raw_rows)) ∪ index)
    in *.
  assert (validate_transmittal dir2 (name2 +:+ ".xlsx") log index2
          = Raise NoValidRows) as Hfail.
  { unfold validate_transmittal. rewrite Hsheet. simpl. rewrite Hread. simpl.
    rewrite validate_rows_spec. simpl.
    rewrite (valid_rows_none dir2 (name2 +:+ ".xlsx") index2 raw_rows); [done|].
    eapply Forall_impl; [exact Hnone|]. intros r (row & Hr & Hin).
    apply (validate_row_repeated _ _ _ _ _ _ _ _ Hr).
    unfold index2. apply elem_of_union. left. apply elem_of_list_to_set.
    apply list_elem_of_fmap. by exists row. }
  destruct (move_transmittal_run s2 name2 RejectedRoot dir2 Hdir2)
    as (moved2 & Hmove2 & Hfree2).
  exists moved2. split; [|done]. rewrite Hsecond.
  rewrite (process_transmittal_unfold s2 name2 dir2 log index2) by done.
  rewrite Hfail. unfold bind, ret. by rewrite Hmove2.
Qed.

End Docctl.

(** * Scenarios

    The model at one choice of its parameters: a date is its ISO text,
    the parser accepts text that starts with a digit, the required fields
    are visited in the order of the source text and [unlink] succeeds. *)

Module Scenario.

Definition date_str (d : string) : string := d.

Definition date_parse (text : string) : option string :=
  match text with
  | String c _ => if Text.contains (String c EmptyString) "0123456789"
                  then Some text else None
  | EmptyString => None
  end.

Definition unlink_ok (name : string) : bool := true.

Abbreviation cell := (value string).
Abbreviation tree := (@fs string).

(** A manifest row in the column order of [EXPECTED_HEADERS]. *)
Definition manifest_row (number date item doc title version : cell) : list cell :=
  [number; VNone; date; item; doc; VNone; title; version;
   VNone; VNone; VNone; VNone; VNone].

Definition manifest (rows : list (list cell)) : table string :=
  Table (map VStr EXPECTED_HEADERS) rows.

Definition as_record (cells : list cell) : gmap string cell :=
  dict_of (zip EXPECTED_HEADERS cells).

Definition spec100_B : list cell :=
  manifest_row (VStr "T-7") (VStr "2024-03-01") (VInt 1) (VStr "SPEC-100")
    (VStr "Pump specification") (VStr "B").

Definition spec100_B_untitled : list cell :=
  manifest_row (VStr "T-7") (VStr "2024-03-01") (VInt 1) (VStr "SPEC-100")
    (VStr "") (VStr "B").

Definition history_spec100_b : gset (string * string) := {[ ("spec-100", "b") ]}.

(** A history table that has only the two columns the index needs. *)
Definition two_column_history : table string :=
  Table [VStr "Document Number 1"; VStr "Version;"] [[VStr "SPEC-100"; VStr "B"]].

(** A history table with a row that has no version. *)
Definition history_head : list cell := map VStr DATABASE_HEADERS.

Definition history_row (doc version : cell) : list cell :=
  manifest_row (VStr "T-1") (VStr "2024-01-01") (VInt 1) doc (VStr "t") version
    ++ [VStr ""].

(** Two transmittals for the document [D]; the second carries the
    earlier date. *)
Definition row_D_1 : list cell :=
  manifest_row (VStr "T-1") (VStr "2024-01-01") (VInt 1) (VStr "D")
    (VStr "Drawing") (VInt 1).

Definition row_D_2 : list cell :=
  manifest_row (VStr "T-2") (VStr "2023-12-31") (VInt 1) (VStr " d ")
    (VStr "Drawing") (VInt 2).

Definition folder_1 : gmap string (entry string) :=
  <["T-1.xlsx" := File (Sheet (manifest [row_D_1]))]>
    (<["a.pdf" := File (Data "first issue")]> ∅).

Definition folder_2 : gmap string (entry string) :=
  <["T-2.xlsx" := File (Sheet (manifest [row_D_2]))]>
    (<["b.pdf" := File (Data "second issue")]> ∅).

(** A transmittal of three rows, the second without a title. *)
Definition folder_3 : gmap string (entry string) :=
  <["T-3.xlsx" := File (Sheet (manifest
      [ manifest_row (VStr "T-3") (VStr "2024-02-01") (VInt 1) (VStr "E-1")
          (VStr "Layout") (VStr "A");
        manifest_row (VStr "T-3") (VStr "2024-02-01") (VInt 2) (VStr "E-2")
          (VStr "  ") (VStr "A");
        manifest_row (VStr "T-3") (VStr "2024-02-01") (VInt 3) (VStr "E-3")
          (VStr "Wiring") (VStr "A") ]))]>
    (<["e-1.dwg" := File (Data "layout")]> ∅).

(** A transmittal whose manifest has the same row twice. *)
Definition folder_4 : gmap string (entry string) :=
  <["T-4.xlsx" := File (Sheet (manifest [row_D_1; row_D_1]))]> ∅.

Definition fresh_project : tree :=
  {| database := None; doc_list := None; current := ∅;
     pending := <["T-1" := folder_1]> (<["T-2" := folder_2]> ∅);
     accepted := ∅; rejected := ∅ |}.

Definition run {A} (m : @M string A) (s : tree) : result A * tree := m s.

Definition process (name : string) : @M string verdict :=
  process_transmittal date_str date_parse REQUIRED_FIELDS unlink_ok name.

Definition after_first : tree := (run (process "T-1") fresh_project).2.
Definition after_second : tree := (run (process "T-2") after_first).2.

(** The project after the first transmittal, with the third one pending. *)
Definition with_third : tree :=
  {| database := database after_first; doc_list := doc_list after_first;
     current := current after_first;
     pending := <["T-3" := folder_3]> ∅;
     accepted := accepted after_first; rejected := ∅ |}.

Definition with_fourth : tree :=
  {| database := None; doc_list := None; current := ∅;
     pending := <["T-4" := folder_4]> ∅; accepted := ∅; rejected := ∅ |}.

(** A rejected root that already holds [X] and [X-1]. *)
Definition crowded : tree :=
  {| database := None; doc_list := None; current := ∅;
     pending := <["X" := ∅]> ∅;
     accepted := <["X" := ∅]> ∅;
     rejected := <["X" := ∅]> (<["X-1" := ∅]> ∅) |}.

Definition rows_of (dir : gmap string (entry string)) (log_file : string)
    (index : gset (string * string)) : list TransmittalRow :=
  match dir !! log_file with
  | Some log =>
      match validate_transmittal date_str date_parse REQUIRED_FIELDS
              dir log_file log index with
      | Ok rows => rows
      | Raise _ => []
      end
  | None => []
  end.

Definition index_of (s : tree) : gset (string * string) :=
  match load_existing_versions date_str (database s) with
  | Ok index => index
  | Raise _ => ∅
  end.

Definition raw_rows_of (sheet : table string) : list (gmap string cell) :=
  match read_sheet_rows sheet with
  | Ok rows => rows
  | Raise _ => []
  end.

Definition manifest_3 : table string :=
  match folder_3 !! "T-3.xlsx" with
  | Some (File (Sheet t)) => t
  | _ => manifest []
  end.

Definition rows_2 : list TransmittalRow :=
  rows_of folder_2 "T-2.xlsx" (index_of after_first).

Definition row_2 : TransmittalRow :=
  default {| raw := ∅; normalized_doc := ""; normalized_version := "";
             filenames := [] |} (head rows_2).

(** A history table whose only row has a blank document number. *)
Definition blank_document_history : tree :=
  {| database := Some (Sheet (Table history_head
                                [history_row (VStr "  ") (VStr "A")]));
     doc_list := None; current := ∅; pending := ∅; accepted := ∅;
     rejected := ∅ |}.

(** A project whose history table has the two-column header. *)
Definition odd_history : tree :=
  {| database := Some (Sheet two_column_history); doc_list := None;
     current := ∅; pending := ∅; accepted := ∅; rejected := ∅ |}.

End Scenario.

(** C8 fails as worded: of two trailing semicolons the code removes
    both. *)
Lemma normalize_header_two_semicolons :
  normalize_header "A;;" = "A"
  /\ normalize_header_one_semicolon "A;;" = "A;"
  /\ normalize_header "A;;" <> normalize_header_one_semicolon "A;;".
Proof. by vm_compute. Qed.

(** C5 fails as worded: the index is built from a history table whose
    header row is not the expected one. *)
Lemma load_existing_versions_other_header :
  rmap header_name_or_empty (header Scenario.two_column_history)
    <> Ok (map normalize_header DATABASE_HEADERS)
  /\ load_existing_versions Scenario.date_str
       (Some (Sheet Scenario.two_column_history)) = Ok Scenario.history_spec100_b.
Proof.
  assert (rmap header_name_or_empty (header Scenario.two_column_history)
          = Ok ["DOCUMENT NUMBER 1"; "VERSION"]) as Hstored
    by (reflexivity).
  assert (map normalize_header DATABASE_HEADERS = DATABASE_HEADERS) as Hexpected
    by (reflexivity).
  split.
  - rewrite Hstored, Hexpected. discriminate.
  - reflexivity.
Qed.

(** A stored header cell that holds a number is refused by
    [normalize_header] itself, before any comparison of headers. *)
Example numeric_header_cell_raises :
  let s : Scenario.tree :=
    {| database := Some (Sheet (Table [VStr "VERSION"; VInt 5] []));
       doc_list := None; current := ∅; pending := ∅; accepted := ∅;
       rejected := ∅ |} in
  ensure_workbook Database DATABASE_HEADERS s = (Raise AttributeError, s)
  /\ load_existing_versions Scenario.date_str (database s) = Raise AttributeError.
Proof. split; reflexivity. Qed.

(** C3 fails as worded: the key of this row is in the index, and the row
    is turned down for its empty title, not as a duplicate. *)
Lemma duplicate_key_reported_as_empty_title :
  version_key Scenario.date_str (Scenario.as_record Scenario.spec100_B_untitled)
    ∈ Scenario.history_spec100_b
  /\ validate_row Scenario.date_str Scenario.date_parse REQUIRED_FIELDS
       ∅ "T-7.xlsx" Scenario.history_spec100_b
       (Scenario.as_record Scenario.spec100_B_untitled)
     = Raise (RequiredFieldEmpty "TITLE")
  /\ (forall doc version,
         validate_row Scenario.date_str Scenario.date_parse REQUIRED_FIELDS
           ∅ "T-7.xlsx" Scenario.history_spec100_b
           (Scenario.as_record Scenario.spec100_B_untitled)
         <> Raise (DuplicateVersion doc version)).
Proof.
  split; [by apply elem_of_singleton_2|]. split; [by vm_compute|].
  intros doc version. by vm_compute.
Qed.

Lemma duplicate_version_rejected_witness :
  validate_row Scenario.date_str Scenario.date_parse REQUIRED_FIELDS
    ∅ "T-7.xlsx" Scenario.history_spec100_b (Scenario.as_record Scenario.spec100_B)
  = Raise (DuplicateVersion "SPEC-100" "B").
Proof.
  refine (proj2 (duplicate_version_rejected Scenario.date_str Scenario.date_parse
                   REQUIRED_FIELDS (Permutation_refl _) ∅ "T-7.xlsx"
                   Scenario.history_spec100_b
                   (Scenario.as_record Scenario.spec100_B) _) _).
  - by apply elem_of_singleton_2.
  - repeat constructor.
Defined.

(** C6 fails as worded: the history row of a validated row whose document
    cell reads " d " stores that text, not the normalised number "d". *)
Lemma append_to_database_stores_cells_as_read :
  Scenario.rows_2 = [Scenario.row_2]
  /\ normalized_doc Scenario.row_2 = "d"
  /\ database_values Scenario.row_2 !! 4 = Some (VStr " d ")
  /\ database_values Scenario.row_2 <> database_values_normalized Scenario.row_2.
Proof.
  assert (database_values Scenario.row_2 !! 4 = Some (VStr " d ")) as Hstored
    by reflexivity.
  assert (database_values_normalized Scenario.row_2 !! 4 = Some (VStr "d"))
    as Hnormalized by reflexivity.
  split; [reflexivity|]. split; [reflexivity|]. split; [exact Hstored|].
  intros Heq. rewrite Heq in Hstored. rewrite Hstored in Hnormalized.
  discriminate Hnormalized.
Qed.

(** A document cell of blanks only is not skipped: it is not empty text,
    and its normalisation raises. *)
Example load_existing_versions_blank_text_raises :
  load_existing_versions Scenario.date_str
    (database Scenario.blank_document_history) = Raise DocNumberEmpty.
Proof. reflexivity. Qed.

Lemma load_existing_versions_skips_blank_witness :
  load_existing_versions Scenario.date_str
    (Some (Sheet (Table Scenario.history_head
                    ([Scenario.history_row (VStr "SPEC-100") (VStr "B")]
                       ++ Scenario.history_row (VStr "SPEC-200") VNone
                       :: [Scenario.history_row (VStr "SPEC-300") (VStr "A")]))))
  = load_existing_versions Scenario.date_str
      (Some (Sheet (Table Scenario.history_head
                      ([Scenario.history_row (VStr "SPEC-100") (VStr "B")]
                         ++ [Scenario.history_row (VStr "SPEC-300") (VStr "A")])))).
Proof.
  apply (load_existing_versions_skips_blank Scenario.date_str
           Scenario.history_head DATABASE_HEADERS 4 7); reflexivity.
Defined.

Lemma move_transmittal_never_overwrites_witness :
  exists c s',
    move_transmittal "X" RejectedRoot Scenario.crowded = (Ok c, s')
    /\ read_root RejectedRoot Scenario.crowded !! c = None
    /\ read_root RejectedRoot s' = <[c := ∅]> (read_root RejectedRoot Scenario.crowded)
    /\ (forall n e, read_root RejectedRoot Scenario.crowded !! n = Some e ->
                    read_root RejectedRoot s' !! n = Some e)
    /\ (read_root RejectedRoot Scenario.crowded !! "X" = None -> c = "X")
    /\ (is_Some (read_root RejectedRoot Scenario.crowded !! "X") ->
        exists k, 1 <= k /\ c = "X" +:+ "-" +:+ str_nat k
          /\ forall j, 1 <= j < k ->
               is_Some (read_root RejectedRoot Scenario.crowded
                          !! ("X" +:+ "-" +:+ str_nat j))).
Proof.
  apply (move_transmittal_never_overwrites Scenario.crowded "X" RejectedRoot ∅).
  reflexivity.
Defined.

Lemma header_contract_witness :
  ensure_workbook Database DATABASE_HEADERS Scenario.odd_history
    = (Raise HeaderMismatch, Scenario.odd_history)
  /\ load_existing_versions Scenario.date_str (database Scenario.odd_history)
     <> Raise HeaderMismatch.
Proof.
  destruct (proj2 (header_contract Scenario.date_str Database DATABASE_HEADERS
                     Scenario.odd_history (Sheet Scenario.two_column_history)
                     eq_refl) Scenario.two_column_history eq_refl eq_refl)
    as (names & Hnames & Hensure & Hload).
  assert (names = ["DOCUMENT NUMBER 1"; "VERSION"]) as ->.
  { change (Ok ["DOCUMENT NUMBER 1"; "VERSION"] = Ok names) in Hnames.
    by injection Hnames. }
  split.
  - apply Hensure. by vm_compute.
  - intros H. apply Hload in H. apply H. split; [left|right; left].
Defined.

Lemma append_to_database_appends_witness :
  exists sheet raw_rows appended,
    load_log (File (Sheet (Scenario.manifest [Scenario.row_D_2]))) = Ok sheet
    /\ read_sheet_rows sheet = Ok raw_rows
    /\ Forall2 (validated_from Scenario.date_str Scenario.date_parse REQUIRED_FIELDS
                  Scenario.folder_2 "T-2.xlsx"
                  (Scenario.index_of Scenario.after_first))
         raw_rows Scenario.rows_2
    /\ Forall2 (history_row_of Scenario.date_str) Scenario.rows_2 appended
    /\ (database Scenario.after_first = None ->
        append_to_database Scenario.rows_2 Scenario.after_first =
        (Ok tt, write_store Database
                  (Sheet (Table (map VStr DATABASE_HEADERS) appended))
                  Scenario.after_first))
    /\ (forall t,
           database Scenario.after_first = Some (Sheet t) ->
           rmap header_name_or_empty (header t)
           = Ok (map normalize_header DATABASE_HEADERS) ->
           append_to_database Scenario.rows_2 Scenario.after_first =
           (Ok tt, write_store Database
                     (Sheet (Table (header t) (body t ++ appended)))
                     Scenario.after_first))
    /\ (forall e s', append_to_database Scenario.rows_2 Scenario.after_first
                     = (Raise e, s') -> s' = Scenario.after_first).
Proof.
  apply (append_to_database_appends Scenario.date_str Scenario.date_parse
           REQUIRED_FIELDS Scenario.folder_2 "T-2.xlsx"
           (File (Sheet (Scenario.manifest [Scenario.row_D_2])))
           (Scenario.index_of Scenario.after_first)
           Scenario.rows_2 Scenario.after_first).
  reflexivity.
Defined.

Lemma update_document_list_last_wins_witness :
  exists t',
    doc_list (update_document_list Scenario.date_str Scenario.rows_2
                Scenario.after_first).2 = Some (Sheet t')
    /\ (forall i j ci cj,
           body t' !! i = Some ci -> body t' !! j = Some cj ->
           stored_doc Scenario.date_str ci = stored_doc Scenario.date_str cj -> i = j)
    /\ (forall row,
           row ∈ Scenario.rows_2 ->
           exists final,
             last_for (normalized_doc row) Scenario.rows_2 = Some final
             /\ document_values (raw final) ∈ body t'
             /\ stored_doc Scenario.date_str (document_values (raw final))
                = Ok (normalized_doc row)).
Proof.
  apply (update_document_list_last_wins Scenario.date_str Scenario.date_parse
           REQUIRED_FIELDS Scenario.folder_2 "T-2.xlsx"
           (File (Sheet (Scenario.manifest [Scenario.row_D_2])))
           (Scenario.index_of Scenario.after_first)
           Scenario.rows_2 Scenario.after_first).
  - reflexivity.
  - reflexivity.
Defined.

Lemma sync_current_files_replaces_witness :
  exists cur',
    sync_current_files Scenario.unlink_ok Scenario.folder_2 Scenario.rows_2
      Scenario.after_first
    = (Ok tt, set_current cur' Scenario.after_first)
    /\ (forall row f,
           row ∈ Scenario.rows_2 -> f ∈ filenames row ->
           exists c, Scenario.folder_2 !! f = Some (File c)
                     /\ cur' !! f = overwritten c (current Scenario.after_first !! f))
    /\ (forall row f e,
           (forall r, r ∈ Scenario.rows_2 -> f ∉ filenames r) ->
           current Scenario.after_first !! f = Some e ->
           row ∈ Scenario.rows_2 -> is_file e = true ->
           Text.contains (normalized_doc row) (Text.lower f) = true ->
           Scenario.unlink_ok f = true ->
           cur' !! f = None)
    /\ (forall f,
           (forall r, r ∈ Scenario.rows_2 -> f ∉ filenames r) ->
           (forall r e, r ∈ Scenario.rows_2 ->
                        current Scenario.after_first !! f = Some e ->
                        stale Scenario.unlink_ok (normalized_doc r) (f, e) = false) ->
           cur' !! f = current Scenario.after_first !! f).
Proof.
  apply (sync_current_files_replaces Scenario.date_str Scenario.date_parse
           REQUIRED_FIELDS Scenario.unlink_ok Scenario.folder_2 "T-2.xlsx"
           (File (Sheet (Scenario.manifest [Scenario.row_D_2])))
           (Scenario.index_of Scenario.after_first)
           Scenario.rows_2 Scenario.after_first).
  reflexivity.
Defined.


(** ** The examples of the design text *)

(** `SPEC-100` version `B` against a history holding (`spec-100`,`b`):
    the row fails as a duplicate and the transmittal is rejected. *)
Example spec100_B_is_duplicate :
  validate_row Scenario.date_str Scenario.date_parse REQUIRED_FIELDS
    ∅ "T-7.xlsx" Scenario.history_spec100_b (Scenario.as_record Scenario.spec100_B)
  = Raise (DuplicateVersion "SPEC-100" "B")
  /\ validate_transmittal Scenario.date_str Scenario.date_parse REQUIRED_FIELDS
       ∅ "T-7.xlsx" (File (Sheet (Scenario.manifest [Scenario.spec100_B])))
       Scenario.history_spec100_b
     = Raise NoValidRows.
Proof. split; by vm_compute. Qed.

(** Two transmittals for one document, accepted in order: the index
    holds the row of the second only, although its date is the earlier
    one, and the mirror holds [b.pdf] and not [a.pdf]. *)
Example second_transmittal_wins :
  (Scenario.run (Scenario.process "T-1") Scenario.fresh_project).1
    = Ok (Accepted "T-1")
  /\ (Scenario.run (Scenario.process "T-2") Scenario.after_first).1
     = Ok (Accepted "T-2")
  /\ doc_list Scenario.after_second
     = Some (Sheet (Table (map VStr EXPECTED_HEADERS)
                      [ Scenario.manifest_row (VStr "T-2") (VDate "2023-12-31")
                          (VInt 1) (VStr " d ") (VStr "Drawing") (VInt 2) ]))
  /\ current Scenario.after_first = {[ "a.pdf" := File (Data "first issue") ]}
  /\ current Scenario.after_second = {[ "b.pdf" := File (Data "second issue") ]}.
Proof. repeat split; by vm_compute. Qed.

(** The same through the run over the pending root. *)
Example process_project_runs_in_name_order :
  Scenario.run (process_project Scenario.date_str Scenario.date_parse
                  REQUIRED_FIELDS Scenario.unlink_ok) Scenario.fresh_project
  = (Ok tt, Scenario.after_second).
Proof. by vm_compute. Qed.

(** One row without a title among three: nothing is stored. *)
Example one_bad_row_rejects_all :
  (Scenario.run (Scenario.process "T-3") Scenario.with_third).1 = Ok (Rejected "T-3")
  /\ database (Scenario.run (Scenario.process "T-3") Scenario.with_third).2
     = database Scenario.with_third
  /\ doc_list (Scenario.run (Scenario.process "T-3") Scenario.with_third).2
     = doc_list Scenario.with_third
  /\ rejected (Scenario.run (Scenario.process "T-3") Scenario.with_third).2
     = {[ "T-3" := Scenario.folder_3 ]}.
Proof. repeat split; by vm_compute. Qed.

(** A manifest holding the same row twice is accepted, and the history
    table receives both rows. *)
Example same_row_twice_is_accepted :
  (Scenario.run (Scenario.process "T-4") Scenario.with_fourth).1 = Ok (Accepted "T-4")
  /\ (exists t, database (Scenario.run (Scenario.process "T-4") Scenario.with_fourth).2
                = Some (Sheet t) /\ length (body t) = 2).
Proof. split; [by vm_compute|]. eexists. split; by vm_compute. Qed.

(** [X] into a root holding [X] gives [X-1]; into a root holding [X] and
    [X-1] it gives [X-2]. *)
Example relocation_suffixes :
  (Scenario.run (move_transmittal "X" AcceptedRoot) Scenario.crowded).1 = Ok "X-1"
  /\ (Scenario.run (move_transmittal "X" RejectedRoot) Scenario.crowded).1 = Ok "X-2".
Proof. split; by vm_compute. Qed.

(** The history table stores the document cell as typed, not the
    normalised identifier. *)
Example history_keeps_cells_as_typed :
  exists t, database Scenario.after_second = Some (Sheet t)
            /\ (t.(body) !! 1) ≫= (fun cells => cells !! 4) = Some (VStr " d ").
Proof. eexists. split; by vm_compute. Qed.

(** * Scenarios for the further properties *)

Module Further.

Import Scenario.

Definition rows_1 : list TransmittalRow := rows_of folder_1 "T-1.xlsx" ∅.

(** A manifest with a header row, a blank row and an empty row. *)
Definition blank_manifest : table string :=
  manifest [ [VNone; VStr ""; VNone]; [] ].

(** A transmittal for another document. *)
Definition folder_5 : gmap string (entry string) :=
  <["T-5.xlsx" := File (Sheet (manifest
      [ manifest_row (VStr "T-5") (VStr "2024-03-05") (VInt 1) (VStr "E-1")
          (VStr "Layout") (VStr "A") ]))]>
    (<["e-1.dwg" := File (Data "layout")]> ∅).

Definition rows_5 : list TransmittalRow :=
  rows_of folder_5 "T-5.xlsx" (index_of after_first).

Definition stored_index : table string :=
  match doc_list after_first with
  | Some (Sheet t) => t
  | _ => manifest []
  end.

(** The first transmittal handed in again under another folder name. *)
Definition folder_1_again : gmap string (entry string) :=
  <["T-9.xlsx" := File (Sheet (manifest [row_D_1]))]>
    (<["a.pdf" := File (Data "first issue")]> ∅).

Definition handed_in_again : tree :=
  {| database := database after_first; doc_list := doc_list after_first;
     current := current after_first;
     pending := <["T-9" := folder_1_again]> ∅;
     accepted := accepted after_first; rejected := ∅ |}.

(** A project whose history table is no workbook. *)
Definition broken_history : tree :=
  {| database := Some (Data "not a workbook"); doc_list := None; current := ∅;
     pending := <["T-1" := folder_1]> ∅; accepted := ∅; rejected := ∅ |}.

(** The manifest of a folder, as found under the given file name. *)
Definition log_of (dir : gmap string (entry string)) (log_file : string)
    : entry string :=
  default (File (Data "")) (dir !! log_file).

Definition history_after_first : table string :=
  match database after_first with
  | Some (Sheet t) => t
  | _ => manifest []
  end.

Definition synced_first : tree :=
  (sync_current_files unlink_ok folder_2 rows_2 after_first).2.

Definition appended_first : tree :=
  (append_to_database rows_1 fresh_project).2.

Definition indexed_fifth : tree :=
  (update_document_list date_str rows_5 after_first).2.

End Further.

Lemma normalize_doc_number_canonical_witness :
  "spec-100" <> EmptyString
  /\ Text.strip "spec-100" = "spec-100"
  /\ Text.lower "spec-100" = "spec-100"
  /\ normalize_doc_number Scenario.date_str (VStr "spec-100") = Ok "spec-100".
Proof.
  apply (normalize_doc_number_canonical Scenario.date_str (VStr "  SPEC-100 ")).
  reflexivity.
Defined.

Lemma normalize_version_canonical_witness :
  "Rev B" <> EmptyString
  /\ Text.strip "Rev B" = "Rev B"
  /\ normalize_version Scenario.date_str (VStr "Rev B") = Ok "Rev B".
Proof.
  apply (normalize_version_canonical Scenario.date_str (VStr " Rev B  ")).
  reflexivity.
Defined.

Lemma version_key_ignores_case_witness :
  normalize_doc_number Scenario.date_str (VStr "Spec-100 ")
  = normalize_doc_number Scenario.date_str (VStr "SPEC-100 ")
  /\ (x <- normalize_version Scenario.date_str (VStr "Spec-100 ") ;;
      Ok (Text.lower x))%result
     = (x <- normalize_version Scenario.date_str (VStr "SPEC-100 ") ;;
        Ok (Text.lower x))%result.
Proof.
  apply (version_key_ignores_case Scenario.date_str "Spec-100 " "SPEC-100 ").
  reflexivity.
Defined.

Lemma validate_row_outcomes_witness :
  Forall (fun f => is_empty_field Scenario.date_str
                     (dict_get (Scenario.as_record Scenario.spec100_B) f) = false)
    REQUIRED_FIELDS
  /\ version_key Scenario.date_str (Scenario.as_record Scenario.spec100_B)
     ∈ Scenario.history_spec100_b.
Proof.
  exact (validate_row_outcomes Scenario.date_str Scenario.date_parse REQUIRED_FIELDS
           (Permutation_refl _) ∅ "T-7.xlsx" Scenario.history_spec100_b
           (Scenario.as_record Scenario.spec100_B)).
Defined.

Lemma blank_manifest_has_no_valid_rows_witness :
  @nil (gmap string (value string)) = []
  /\ validate_transmittal Scenario.date_str Scenario.date_parse REQUIRED_FIELDS
       ∅ "T.xlsx" (File (Sheet Further.blank_manifest)) ∅
     = Raise NoValidRows.
Proof.
  apply (blank_manifest_has_no_valid_rows Scenario.date_str Scenario.date_parse
           REQUIRED_FIELDS ∅ "T.xlsx" (File (Sheet Further.blank_manifest)) ∅
           Further.blank_manifest []).
  - reflexivity.
  - reflexivity.
  - repeat constructor.
Defined.

Lemma ensure_workbook_creates_then_reopens_witness :
  ensure_workbook Database DATABASE_HEADERS Scenario.fresh_project
  = (Ok (Table (map VStr DATABASE_HEADERS) []),
     write_store Database (Sheet (Table (map VStr DATABASE_HEADERS) []))
       Scenario.fresh_project)
  /\ read_store Database
       (write_store Database (Sheet (Table (map VStr DATABASE_HEADERS) []))
          Scenario.fresh_project)
     = Some (Sheet (Table (map VStr DATABASE_HEADERS) []))
  /\ same_tree Scenario.fresh_project
       (write_store Database (Sheet (Table (map VStr DATABASE_HEADERS) []))
          Scenario.fresh_project)
  /\ ensure_workbook Database DATABASE_HEADERS
       (write_store Database (Sheet (Table (map VStr DATABASE_HEADERS) []))
          Scenario.fresh_project)
     = (Ok (Table (map VStr DATABASE_HEADERS) []),
        write_store Database (Sheet (Table (map VStr DATABASE_HEADERS) []))
          Scenario.fresh_project).
Proof.
  apply (ensure_workbook_creates_then_reopens Database DATABASE_HEADERS
           Scenario.fresh_project).
  - discriminate.
  - reflexivity.
Defined.

Lemma load_existing_versions_index_witness :
  exists names doc_idx ver_idx,
    rmap (header_name_or_empty (datetime := string))
      (header Further.history_after_first) = Ok names
    /\ last_index "DOCUMENT NUMBER 1" names = Some doc_idx
    /\ last_index "VERSION" names = Some ver_idx
    /\ forall d v,
         (d, v) ∈ Scenario.index_of Scenario.after_first <->
         exists row version,
           row ∈ body Further.history_after_first
           /\ is_blank (row_cell row doc_idx) = false
           /\ is_blank (row_cell row ver_idx) = false
           /\ normalize_doc_number Scenario.date_str (row_cell row doc_idx) = Ok d
           /\ normalize_version Scenario.date_str (row_cell row ver_idx)
              = Ok version
           /\ v = Text.lower version.
Proof.
  apply (load_existing_versions_index Scenario.date_str
           Further.history_after_first (Scenario.index_of Scenario.after_first)).
  reflexivity.
Defined.

Lemma accepted_versions_enter_the_index_witness :
  load_existing_versions Scenario.date_str (database Further.appended_first) =
  Ok (list_to_set
        (map (fun row => (normalized_doc row, Text.lower (normalized_version row)))
           Further.rows_1) ∪ ∅).
Proof.
  apply (accepted_versions_enter_the_index Scenario.date_str Scenario.date_parse
           REQUIRED_FIELDS Scenario.folder_1 "T-1.xlsx"
           (Further.log_of Scenario.folder_1 "T-1.xlsx") ∅ ∅ Further.rows_1
           Scenario.fresh_project Further.appended_first); reflexivity.
Defined.

Lemma accepted_rows_are_new_versions_witness :
  Scenario.rows_2 <> []
  /\ Forall (fun row =>
               (normalized_doc row, Text.lower (normalized_version row))
                 ∉ Scenario.index_of Scenario.after_first) Scenario.rows_2.
Proof.
  apply (accepted_rows_are_new_versions Scenario.date_str Scenario.date_parse
           REQUIRED_FIELDS Scenario.folder_2 "T-2.xlsx"
           (Further.log_of Scenario.folder_2 "T-2.xlsx")).
  reflexivity.
Defined.

Lemma missing_manifest_is_rejected_witness :
  exists moved,
    process_transmittal Scenario.date_str Scenario.date_parse REQUIRED_FIELDS
      Scenario.unlink_ok "X" Scenario.crowded
    = (Ok (Rejected moved), relocate "X" moved ∅ RejectedRoot Scenario.crowded)
    /\ rejected Scenario.crowded !! moved = None.
Proof.
  apply (missing_manifest_is_rejected Scenario.date_str Scenario.date_parse
           REQUIRED_FIELDS Scenario.unlink_ok Scenario.crowded "X" ∅);
    reflexivity.
Defined.

Lemma failed_validation_is_rejected_witness :
  exists moved,
    process_transmittal Scenario.date_str Scenario.date_parse REQUIRED_FIELDS
      Scenario.unlink_ok "T-3" Scenario.with_third
    = (Ok (Rejected moved),
       relocate "T-3" moved Scenario.folder_3 RejectedRoot Scenario.with_third)
    /\ rejected Scenario.with_third !! moved = None.
Proof.
  apply (failed_validation_is_rejected Scenario.date_str Scenario.date_parse
           REQUIRED_FIELDS Scenario.unlink_ok Scenario.with_third "T-3"
           Scenario.folder_3 (Further.log_of Scenario.folder_3 "T-3.xlsx")
           (Scenario.index_of Scenario.with_third)
           ValidationErrors);
    reflexivity.
Defined.

Lemma unreadable_history_aborts_witness :
  process_transmittal Scenario.date_str Scenario.date_parse REQUIRED_FIELDS
    Scenario.unlink_ok "T-1" Further.broken_history
  = (Raise InvalidFile, Further.broken_history)
  /\ forall rest,
       process_all Scenario.date_str Scenario.date_parse REQUIRED_FIELDS
         Scenario.unlink_ok ("T-1" :: rest) Further.broken_history
       = (Raise InvalidFile, Further.broken_history).
Proof.
  apply (unreadable_history_aborts Scenario.date_str Scenario.date_parse
           REQUIRED_FIELDS Scenario.unlink_ok Further.broken_history "T-1"
           Scenario.folder_1 (Further.log_of Scenario.folder_1 "T-1.xlsx"));
    reflexivity.
Defined.

Lemma process_project_relocates_every_transmittal_witness :
  pending Scenario.after_second = ∅
  /\ (forall name dir, pending Scenario.fresh_project !! name = Some dir ->
        exists moved, accepted Scenario.after_second !! moved = Some dir
                      \/ rejected Scenario.after_second !! moved = Some dir)
  /\ (forall m d, accepted Scenario.fresh_project !! m = Some d ->
                  accepted Scenario.after_second !! m = Some d)
  /\ (forall m d, rejected Scenario.fresh_project !! m = Some d ->
                  rejected Scenario.after_second !! m = Some d).
Proof.
  apply (process_project_relocates_every_transmittal Scenario.date_str
           Scenario.date_parse REQUIRED_FIELDS Scenario.unlink_ok
           Scenario.fresh_project Scenario.after_second).
  vm_compute. reflexivity.
Defined.

Lemma sync_current_files_idempotent_witness :
  sync_current_files Scenario.unlink_ok Scenario.folder_2 Scenario.rows_2
    Further.synced_first
  = (Ok tt, Further.synced_first)
  /\ (forall f, current Scenario.after_first !! f = Some Dir ->
                current Further.synced_first !! f = Some Dir).
Proof.
  apply (sync_current_files_idempotent Scenario.date_str Scenario.date_parse
           REQUIRED_FIELDS Scenario.unlink_ok Scenario.folder_2 "T-2.xlsx"
           (Further.log_of Scenario.folder_2 "T-2.xlsx")
           (Scenario.index_of Scenario.after_first) Scenario.rows_2
           Scenario.after_first Further.synced_first); reflexivity.
Defined.

Lemma update_document_list_keeps_other_documents_witness :
  exists t',
    doc_list Further.indexed_fifth = Some (Sheet t')
    /\ header t' = header Further.stored_index
    /\ document_values
         (dict_of (zip EXPECTED_HEADERS
                     (default [] (head (body Further.stored_index)))))
       ∈ body t'
    /\ (length (default [] (head (body Further.stored_index))) = 13 ->
        default [] (head (body Further.stored_index)) ∈ body t').
Proof.
  apply (update_document_list_keeps_other_documents Scenario.date_str
           Further.rows_5 Scenario.after_first Further.indexed_fifth
           Further.stored_index "d"
           (default [] (head (body Further.stored_index)))).
  - reflexivity.
  - reflexivity.
  - reflexivity.
  - repeat constructor; discriminate.
Defined.

Lemma read_sheet_rows_cells_witness :
  Forall2 (fun rec cells =>
             forall i name, EXPECTED_HEADERS !! i = Some name ->
                            dict_get rec name = row_cell cells i)
    (Scenario.raw_rows_of Scenario.manifest_3)
    (filter (fun cells => forallb (is_blank (datetime := string)) cells = false)
       (body Scenario.manifest_3)).
Proof.
  apply (read_sheet_rows_cells Scenario.manifest_3 EXPECTED_HEADERS
           (Scenario.raw_rows_of Scenario.manifest_3)).
  - reflexivity.
  - apply (bool_decide_unpack (NoDup EXPECTED_HEADERS)). reflexivity.
  - reflexivity.
Defined.

Lemma resubmission_is_rejected_witness :
  exists moved2,
    process_transmittal Scenario.date_str Scenario.date_parse REQUIRED_FIELDS
      Scenario.unlink_ok "T-9" Further.handed_in_again
    = (Ok (Rejected moved2),
       relocate "T-9" moved2 Further.folder_1_again RejectedRoot
         Further.handed_in_again)
    /\ rejected Further.handed_in_again !! moved2 = None.
Proof.
  apply (resubmission_is_rejected Scenario.date_str Scenario.date_parse
           REQUIRED_FIELDS Scenario.unlink_ok
           Scenario.fresh_project Scenario.after_first Further.handed_in_again
           "T-1" "T-9" "T-1" Scenario.folder_1 Further.folder_1_again
           (Further.log_of Scenario.folder_1 "T-1.xlsx")).
  - reflexivity.
  - reflexivity.
  - rewrite (surjective_pairing (process_transmittal _ _ _ _ _ _)).
    f_equal; reflexivity.
  - reflexivity.
  - reflexivity.
  - reflexivity.
Defined.


(** The number of an error counts the records read, and blank rows are
    not read: with the second sheet row blank and the third without a
    title, the error is recorded under 2. *)
Example error_numbers_count_records_read :
  row_errors Scenario.date_str Scenario.date_parse REQUIRED_FIELDS ∅ "T.xlsx" ∅
    (Scenario.raw_rows_of
       (Scenario.manifest
          [ [VNone; VStr ""; VNone];
            Scenario.manifest_row (VStr "T-8") (VStr "2024-04-01") (VInt 1)
              (VStr "F-1") VNone (VStr "A") ]))
    2
  = [(2, RequiredFieldEmpty "TITLE")].
Proof. reflexivity. Qed.

(** The version cell of a history row is the manifest cell: the blanks
    around it are stored, whereas the row's normalised version has
    none. *)
Example history_version_cell_as_typed :
  match
    validate_row Scenario.date_str Scenario.date_parse REQUIRED_FIELDS ∅
      "T.xlsx" ∅
      (Scenario.as_record
         (Scenario.manifest_row (VStr "T-8") (VStr "2024-04-01") (VInt 1)
            (VStr "F-1") (VStr "Plan") (VStr " B ")))
  with
  | Ok row => normalized_version row = "B"
              /\ database_values row !! 7 = Some (VStr " B ")
  | Raise _ => False
  end.
Proof. vm_compute. split; reflexivity. Qed.
